(** * OpenDeepSearch: the deep-research tool and its text utilities

    A shallow embedding of the TypeScript sources

      - [utils/search.ts]    (performSearch, calculateRelevance)
      - [utils/analysis.ts]  (analyzeResults, calculateSentenceRelevance)
      - [utils/question.ts]  (analyzeQuestion, extractMainTopic)
      - [utils/synthesis.ts] (synthesizeReport, generateSources)
      - [tools/deepResearch.ts] (DeepResearchTool)
      - [tools/braveSearch.ts] (BraveWebSearchTool, BraveLocalSearchTool)
      - [tools/sequentialThinking.ts] (SequentialThinkingTool)
      - the tool calls of the WebSocket server (WebSocketMCPServer)

    Conventions of the embedding.

    - A JavaScript string is a [string]: a sequence of code units in the
      range U+0000..U+00FF, so [String.length] is the [.length] of the
      source.  Case mapping, the white space class and [trim] are the
      ECMAScript ones restricted to that range.
    - A JavaScript number holding a count, an index or a time stamp is a
      [nat] or a [Z]; a score (a quotient of such numbers) is an exact
      rational [Q].
    - [undefined] is [None].
    - An [async] function returns an [Outcome]: the promise is either
      resolved with a value or rejected with an error message; the state
      that was mutated before a [throw] stays mutated.
    - What the process cannot decide by itself (the identifiers drawn by
      [uuidv4()], the readings of [Date.now()], the answer of the HTTP
      request) comes in an [Env], one per operation. *)

From Stdlib Require Import String Ascii List ZArith NArith QArith Qminmax Qabs.
From Stdlib Require Import Lia Lqa Bool Arith DecimalString.
From Stdlib Require Import Permutation Sorted.
From stdpp Require Import base option list gmap strings.
Import ListNotations.

Local Open Scope string_scope.

(** [simpl] may unfold [append] on a string that begins with a character. *)
#[local] Arguments String.append : simpl nomatch.

(** ** JavaScript string primitives *)

Module Js.

(** The double quote and the line feed, which the template literals of the
    source contain. *)
Definition dquote : string := String (ascii_of_nat 34) EmptyString.
Definition nl : string := String (ascii_of_nat 10) EmptyString.

(** [\s] of a regular expression, and the characters [trim] removes:
    TAB, LF, VT, FF, CR, SPACE and NO-BREAK SPACE. *)
Definition isWhiteSpace (c : ascii) : bool :=
  let n := N_of_ascii c in
  (((9 <=? n) && (n <=? 13)) || (n =? 32) || (n =? 160))%N.

(** [toLowerCase] on one code unit: A-Z and the capital letters of the
    Latin-1 block (U+00C0..U+00DE without the multiplication sign). *)
Definition lowerChar (c : ascii) : ascii :=
  let n := N_of_ascii c in
  if (((65 <=? n) && (n <=? 90))
      || ((192 <=? n) && (n <=? 222) && negb (n =? 215)))%N
  then ascii_of_N (n + 32) else c.

Fixpoint toLowerCase (s : string) : string :=
  match s with
  | EmptyString => EmptyString
  | String c r => String (lowerChar c) (toLowerCase r)
  end.

Definition isEmpty (s : string) : bool :=
  match s with EmptyString => true | String _ _ => false end.

Fixpoint trimStart (s : string) : string :=
  match s with
  | EmptyString => EmptyString
  | String c r => if isWhiteSpace c then trimStart r else s
  end.

Fixpoint trimEnd (s : string) : string :=
  match s with
  | EmptyString => EmptyString
  | String c r =>
      let r' := trimEnd r in
      if isEmpty r' && isWhiteSpace c then EmptyString else String c r'
  end.

Definition trim (s : string) : string := trimEnd (trimStart s).

(** [s.includes(sub)] *)
Fixpoint includes (s sub : string) : bool :=
  String.prefix sub s
  || match s with
     | EmptyString => false
     | String _ r => includes r sub
     end.

(** [s.endsWith(sub)] *)
Fixpoint endsWith (s sub : string) : bool :=
  String.eqb s sub
  || match s with
     | EmptyString => false
     | String _ r => endsWith r sub
     end.

(** [s.replace(/c/g, '')] for a single character [c]. *)
Fixpoint removeChar (c : ascii) (s : string) : string :=
  match s with
  | EmptyString => EmptyString
  | String d r =>
      if Ascii.eqb d c then removeChar c r else String d (removeChar c r)
  end.

(** [s.split(/[...]+/)] for a character class: the separators are the
    maximal runs of characters of the class.  [cur] is the part being read
    and [inRun] tells that the previous character was a separator. *)
Fixpoint splitRuns (sep : ascii -> bool) (cur : string) (inRun : bool)
    (s : string) : list string :=
  match s with
  | EmptyString => [cur]
  | String c r =>
      if sep c then
        if inRun then splitRuns sep cur true r
        else cur :: splitRuns sep EmptyString true r
      else splitRuns sep (cur ++ String c EmptyString) false r
  end.

Definition splitOn (sep : ascii -> bool) (s : string) : list string :=
  splitRuns sep EmptyString false s.

(** [parts.join(sep)] *)
Fixpoint join (sep : string) (parts : list string) : string :=
  match parts with
  | [] => EmptyString
  | [p] => p
  | p :: rest => p ++ sep ++ join sep rest
  end.

(** [s.substring(0, n)] *)
Fixpoint substring0 (n : nat) (s : string) : string :=
  match n, s with
  | S k, String c r => String c (substring0 k r)
  | _, _ => EmptyString
  end.

(** A count or an index inside a template literal. *)
Definition showNat (n : nat) : string :=
  NilEmpty.string_of_uint (Nat.to_uint n).

(** A possibly undefined string inside a template literal. *)
Definition showOpt (s : option string) : string :=
  match s with Some v => v | None => "undefined" end.

(** Truthiness of a possibly undefined string. *)
Definition truthy (s : option string) : bool :=
  match s with Some v => negb (isEmpty v) | None => false end.

(** A case-insensitive literal of a regular expression at the head of [s]:
    the rest of [s] behind it. *)
Fixpoint stripLiteral (w s : string) : option string :=
  match w with
  | EmptyString => Some s
  | String a w' =>
      match s with
      | EmptyString => None
      | String c r =>
          if Ascii.eqb (lowerChar c) a then stripLiteral w' r else None
      end
  end.

(** [\s+] at the head of [s] (greedy): the rest of [s] behind it. *)
Definition stripSpaces (s : string) : option string :=
  match s with
  | EmptyString => None
  | String c r => if isWhiteSpace c then Some (trimStart r) else None
  end.

(** [(w1|w2|...)\s+] with the [i] flag at the head of [s]: the first
    alternative that matches and is followed by white space wins. *)
Fixpoint stripWord (alts : list string) (s : string) : option string :=
  match alts with
  | [] => None
  | w :: alts' =>
      match stripLiteral w s with
      | Some r =>
          match stripSpaces r with
          | Some r' => Some r'
          | None => stripWord alts' s
          end
      | None => stripWord alts' s
      end
  end.

(** [s.replace(/^(w1|w2|...)\s+/i, '')] *)
Definition removeLeadingWord (alts : list string) (s : string) : string :=
  match stripWord alts s with Some r => r | None => s end.

(** Some suffix of [s] (the string [s] included) satisfies [p]. *)
Fixpoint anySuffix (p : string -> bool) (s : string) : bool :=
  p s
  || match s with
     | EmptyString => false
     | String _ r => anySuffix p r
     end.

(** No character of [s] is [c]. *)
Fixpoint lacks (c : ascii) (s : string) : bool :=
  match s with
  | EmptyString => true
  | String d r => negb (Ascii.eqb d c) && lacks c r
  end.

(** The outcome of a promise: resolved with a value, or rejected with the
    message of the error thrown. *)
Inductive Outcome (A : Type) : Type :=
| Resolved (value : A)
| Rejected (message : string).
Arguments Resolved {A} value.
Arguments Rejected {A} message.

(** The message of the [TypeError] raised by [x.method(...)] when [x] is
    undefined (the wording of V8). *)
Definition typeErrorUndefined (method : string) : string :=
  "Cannot read properties of undefined (reading '" ++ method ++ "')".

(** [l.slice(0, n)] for an integer [n]; a negative [n] counts from the
    end. *)
Definition slice0 {A : Type} (n : Z) (l : list A) : list A :=
  if (n <? 0)%Z then firstn (Z.to_nat (Z.of_nat (List.length l) + n)) l
  else firstn (Z.to_nat n) l.

End Js.

(** ** types.ts *)

Module Types.

Inductive ResearchStepType :=
| QUESTION_ANALYSIS | SEARCH | RESULT_ANALYSIS | SYNTHESIS | FOLLOW_UP.

Inductive ResearchStatus :=
| PLANNING | SEARCHING | ANALYZING | SYNTHESIZING | COMPLETED.

Inductive SubStatus := pending | in_progress | completed.

Record ResearchStep := mkStep {
  step_id : string;
  step_type : ResearchStepType;
  step_content : string;
  step_timestamp : Z
}.

Record SearchResult := mkResult {
  title : string;
  description : string;
  url : string;
  relevance : option Q
}.

Record SubQuestion := mkSub {
  sq_id : string;
  sq_question : string;
  sq_status : SubStatus;
  searchResults : option (list SearchResult);
  analysis : option string
}.

(** [question] is typed [string] in the source, but [startResearch] stores
    [params.query] unchecked, so it can be undefined. *)
Record ResearchData := mkResearch {
  id : string;
  question : option string;
  subQuestions : list SubQuestion;
  steps : list ResearchStep;
  status : ResearchStatus;
  report : option string;
  startTime : Z;
  endTime : option Z
}.

Definition ResearchStatus_eqb (a b : ResearchStatus) : bool :=
  match a, b with
  | PLANNING, PLANNING | SEARCHING, SEARCHING | ANALYZING, ANALYZING
  | SYNTHESIZING, SYNTHESIZING | COMPLETED, COMPLETED => true
  | _, _ => false
  end.

Definition SubStatus_eqb (a b : SubStatus) : bool :=
  match a, b with
  | pending, pending | in_progress, in_progress | completed, completed => true
  | _, _ => false
  end.

End Types.

(** ** utils/search.ts: the search and the relevance of a result *)

Module Search.
Import Js Types.

(** [normalizedQuery.split(/\s+/).filter(word => word.length > 2)] *)
Definition queryWords (query : string) : list string :=
  List.filter (fun word => (2 <? String.length word)%nat)
    (splitOn isWhiteSpace (toLowerCase query)).

(** The loop [for (const word of queryWords) if (text.includes(word)) n++]. *)
Definition countMatches (text : string) (words : list string) : nat :=
  List.length (List.filter (fun word => includes text word) words).

Definition titleMatches (query title : string) : nat :=
  countMatches (toLowerCase title) (queryWords query).

Definition descriptionMatches (query description : string) : nat :=
  countMatches (toLowerCase description) (queryWords query).

Definition ratio (n d : nat) : Q :=
  inject_Z (Z.of_nat n) / inject_Z (Z.of_nat d).

Definition calculateRelevance (query title description : string) : Q :=
  let maxPossibleScore := (List.length (queryWords query) * 4)%nat in
  let actualScore :=
    (titleMatches query title * 3 + descriptionMatches query description)%nat in
  if (0 <? maxPossibleScore)%nat then ratio actualScore maxPossibleScore else 0%Q.

(** One entry of [response.data.web.results]; any field can be absent. *)
Record RawResult := mkRaw {
  raw_title : option string;
  raw_url : option string;
  raw_description : option string
}.

(** What [axios.get] yields: it throws, or it returns a payload whose
    [data.web.results] is present or not. *)
Inductive HttpOutcome :=
| HttpFailure (message : string)
| HttpResponse (results : option (list RawResult)).

(** The callback of [response.data.web.results.map].  [calculateRelevance]
    receives [result.title] and [result.description] as they are and calls
    [toLowerCase] on them. *)
Definition parseResult (query : string) (result : RawResult)
    : Outcome SearchResult :=
  match raw_title result, raw_description result with
  | Some t, Some d =>
      Resolved
        {| title := t;
           url := match raw_url result with Some u => u | None => EmptyString end;
           description := d;
           relevance := Some (calculateRelevance query t d) |}
  | _, _ => Rejected (typeErrorUndefined "toLowerCase")
  end.

Fixpoint parseResults (query : string) (results : list RawResult)
    : Outcome (list SearchResult) :=
  match results with
  | [] => Resolved []
  | r :: rest =>
      match parseResult query r with
      | Rejected m => Rejected m
      | Resolved x =>
          match parseResults query rest with
          | Rejected m => Rejected m
          | Resolved xs => Resolved (x :: xs)
          end
      end
  end.

(** [count] only goes into the request. *)
Definition performSearch (query apiKey : string) (count : Z)
    (http : HttpOutcome) : Outcome (list SearchResult) :=
  if isEmpty query then Rejected "Search query is required"
  else if isEmpty apiKey then Rejected "Brave Search API key is required"
  else
    match http with
    | HttpFailure m => Rejected ("Failed to perform search: " ++ m)
    | HttpResponse None => Resolved []
    | HttpResponse (Some results) =>
        match parseResults query results with
        | Resolved rs => Resolved rs
        | Rejected m => Rejected ("Failed to perform search: " ++ m)
        end
    end.

End Search.

(** ** utils/question.ts: decomposition of a question *)

Module Question.
Import Js.

Definition conjunctions : list string :=
  ["and"; "or"; "versus"; "vs"; "compared to"; "differences between"].

(** The alternatives of the regular expression [analyzeQuestion] splits on. *)
Definition separatorWords : list string :=
  ["and"; "or"; "versus"; "vs"; "compared to"].

Definition questionWords : list string :=
  ["what"; "who"; "when"; "where"; "why"; "how"; "is"; "are"; "do"; "does";
   "did"; "can"; "could"; "would"; "should"; "will"].

Definition articles : list string := ["the"; "a"; "an"].

(** [/\s+(?:and|or|versus|vs|compared to)\s+/i] at the head of [s]: the
    rest of [s] behind the match. *)
Definition stripSeparator (s : string) : option string :=
  match stripSpaces s with
  | Some r => stripWord separatorWords r
  | None => None
  end.

(** The separator matches at the head of [s]. *)
Definition separatorAt (s : string) : bool :=
  match stripSeparator s with Some _ => true | None => false end.

(** [s.split(/\s+(?:and|or|versus|vs|compared to)\s+/i)].  The string is
    read from left to right; where the separator matches, the part read
    so far is emitted and the [skip] characters of the match are passed
    over. *)
Fixpoint splitSeparator (skip : nat) (cur : string) (s : string)
    {struct s} : list string :=
  match s with
  | EmptyString => [cur]
  | String c r =>
      match skip with
      | S k => splitSeparator k cur r
      | O =>
          match stripSeparator s with
          | Some rest =>
              cur :: splitSeparator (String.length r - String.length rest)
                       EmptyString r
          | None => splitSeparator 0 (cur ++ String c EmptyString) r
          end
      end
  end.

Definition splitParts (s : string) : list string :=
  splitSeparator 0 EmptyString s.

Definition extractMainTopic (question : string) : option string :=
  let withoutQuestionWords := trim (removeLeadingWord questionWords question) in
  let withoutArticles := trim (removeLeadingWord articles withoutQuestionWords) in
  if (0 <? String.length withoutArticles)%nat then Some withoutArticles
  else None.

(** [question.replace(/\?/g, '').trim()] *)
Definition cleanQuestion (question : string) : string :=
  trim (removeChar "?" question).

(** The loop over [conjunctions] that sets [hasConjunction]. *)
Definition hasConjunction (question : string) : bool :=
  existsb (fun conj => includes (toLowerCase (cleanQuestion question)) conj)
    conjunctions.

(** [Array.from(new Set(l))]: the first occurrence of every element, in
    order. *)
Definition unique (l : list string) : list string :=
  fold_left
    (fun seen x =>
       if existsb (String.eqb x) seen then seen else (seen ++ [x])%list)
    l [].

Definition aspectQuestions (mainTopic : string) : list string :=
  ["What is " ++ mainTopic ++ "?";
   "What are the key features of " ++ mainTopic ++ "?";
   "What are the applications of " ++ mainTopic ++ "?"].

Definition analyzeQuestion (question : string) : list string :=
  let parts := splitParts (cleanQuestion question) in
  if hasConjunction question && (1 <? List.length parts)%nat then
    map (fun part => trim part ++ "?") parts
  else
    unique
      (question ::
       match extractMainTopic (cleanQuestion question) with
       | Some mainTopic => aspectQuestions mainTopic
       | None => []
       end).

End Question.

(** ** utils/analysis.ts: analysis of the results of one search *)

Module Analysis.
Import Js Types.

(** [[...l].sort((a, b) => key(b) - key(a))]: a stable sort by decreasing
    key.  An element goes in front of the elements behind it that have an
    equal or smaller key. *)
Section Sort.
Context {A : Type} (key : A -> Q).

Fixpoint insertDesc (x : A) (l : list A) : list A :=
  match l with
  | [] => [x]
  | y :: l' =>
      if Qle_bool (key y) (key x) then x :: l else y :: insertDesc x l'
  end.

Definition sortDesc (l : list A) : list A := fold_right insertDesc [] l.

End Sort.

Definition stopWords : list string :=
  ["a"; "an"; "the"; "and"; "or"; "but"; "if"; "because"; "as"; "what";
   "which"; "this"; "that"; "these"; "those"; "then"; "just"; "so"; "than";
   "such"; "both"; "through"; "about"; "for"; "is"; "of"; "while"; "during";
   "to"; "from"; "in"; "out"; "on"; "off"; "over"; "under"; "again";
   "further"; "then"; "once"; "here"; "there"; "when"; "where"; "why"; "how";
   "all"; "any"; "both"; "each"; "few"; "more"; "most"; "other"; "some";
   "such"; "no"; "nor"; "not"; "only"; "own"; "same"; "so"; "than"; "too";
   "very"; "s"; "t"; "can"; "will"; "just"; "don"; "should"; "now"].

Definition isStopWord (word : string) : bool :=
  existsb (String.eqb (toLowerCase word)) stopWords.

Definition queryWords (query : string) : list string :=
  List.filter
    (fun word => negb (isStopWord word) && (2 <? String.length word)%nat)
    (splitOn isWhiteSpace (toLowerCase query)).

Definition matchCount (sentence query : string) : nat :=
  Search.countMatches (toLowerCase sentence) (queryWords query).

Definition matchPercentage (sentence query : string) : Q :=
  if (0 <? List.length (queryWords query))%nat
  then Search.ratio (matchCount sentence query) (List.length (queryWords query))
  else 0%Q.

(** [1 - Math.min(Math.abs(length - 100) / 100, 0.5)] *)
Definition lengthFactor (sentence : string) : Q :=
  let len := inject_Z (Z.of_nat (String.length (toLowerCase sentence))) in
  (1 - Qmin (Qabs (len - 100) / 100) (1 # 2))%Q.

Definition calculateSentenceRelevance (sentence query : string) : Q :=
  (matchPercentage sentence query * (7 # 10)
   + lengthFactor sentence * (3 # 10))%Q.

Definition isTerminator (c : ascii) : bool :=
  Ascii.eqb c "."%char || Ascii.eqb c "!"%char || Ascii.eqb c "?"%char.

Definition selectRelevantSentences (text query : string) (maxSentences : nat)
    : list string :=
  let sentences :=
    List.filter (fun s => (0 <? String.length (trim s))%nat)
      (splitOn isTerminator text) in
  match sentences with
  | [] => [text]
  | _ =>
      let scoredSentences :=
        map (fun sentence =>
               (sentence, calculateSentenceRelevance sentence query))
          sentences in
      map (fun s => trim (fst s))
        (firstn maxSentences (sortDesc snd scoredSentences))
  end.

Definition extractKeyInformation (result : SearchResult) (query : string)
    : string :=
  join " " (selectRelevantSentences (description result) query 2).

Definition resultRelevance (r : SearchResult) : Q :=
  match relevance r with Some v => v | None => 0%Q end.

Definition analyzeResults (results : list SearchResult) (query : string)
    : string :=
  match results with
  | [] => "No results found for query: " ++ dquote ++ query ++ dquote
  | _ =>
      let sortedResults := sortDesc resultRelevance results in
      let topResults := firstn 5 sortedResults in
      let analysisPoints :=
        imap (fun index result =>
                showNat (index + 1) ++ ". " ++ title result ++ nl
                ++ "   " ++ extractKeyInformation result query ++ nl
                ++ "   Source: " ++ url result)
          topResults in
      nl ++ "Analysis for query: " ++ dquote ++ query ++ dquote ++ nl
      ++ nl ++ "Key Information:" ++ nl
      ++ join (nl ++ nl) analysisPoints ++ nl
      ++ nl ++ "This analysis is based on the top "
      ++ showNat (List.length topResults) ++ " most relevant results." ++ nl
  end.

End Analysis.

(** ** utils/synthesis.ts: the report *)

Module Synthesis.
Import Js Types.

(** The same two replacements as in [utils/question.ts], but the question
    itself comes back when nothing is left. *)
Definition extractMainTopic (question : string) : string :=
  let withoutQuestionWords :=
    trim (removeLeadingWord Question.questionWords question) in
  let withoutArticles :=
    trim (removeLeadingWord Question.articles withoutQuestionWords) in
  if (0 <? String.length withoutArticles)%nat then withoutArticles
  else question.

Definition generateIntroduction (mainQuestion : string) : string :=
  "This report presents a comprehensive analysis of the question: "
  ++ dquote ++ mainQuestion ++ dquote ++ ". " ++ nl
  ++ "The research was conducted using multiple sources and approaches to provide a thorough understanding of the topic.".

Definition generateCitations (analysisText : string)
    (results : list SearchResult) : string :=
  match results with
  | [] => EmptyString
  | _ =>
      "**Sources:**" ++ nl
      ++ join nl
           (imap (fun index result =>
                    "[" ++ showNat (index + 1) ++ "] " ++ title result
                    ++ " - " ++ url result)
              results)
  end.

Definition sectionTitle (question : string) : string :=
  trim (removeChar "?" question).

Definition sectionHeader (question : string) : string :=
  "## " ++ sectionTitle question.

Definition generateSection (question analysisText : string)
    (results : list SearchResult) : string :=
  sectionHeader question ++ nl ++ nl ++ analysisText ++ nl ++ nl
  ++ generateCitations analysisText results.

Definition generateConclusion (mainQuestion : string)
    (subQuestions : list SubQuestion) : string :=
  "This research has explored various aspects of "
  ++ extractMainTopic mainQuestion ++ ". " ++ nl
  ++ "The findings from different sub-questions provide a comprehensive understanding of the topic."
  ++ nl ++ "The research was based on "
  ++ showNat (List.length subQuestions)
  ++ " sub-questions and utilized multiple sources to ensure accuracy and depth.".

(** A source of the report: its title and its URL. *)
Definition Source : Type := string * string.

(** The [Map] from URL to source of [generateSources], in insertion
    order. *)
Definition SourceMap : Type := list (string * Source).

Definition mapHas (m : SourceMap) (key : string) : bool :=
  existsb (fun entry => String.eqb (fst entry) key) m.

(** [if (!allSources.has(result.url)) allSources.set(result.url, ...)] *)
Definition addSource (allSources : SourceMap) (result : SearchResult)
    : SourceMap :=
  if mapHas allSources (url result) then allSources
  else (allSources ++ [(url result, (title result, url result))])%list.

Definition addSources (allSources : SourceMap) (sq : SubQuestion)
    : SourceMap :=
  match searchResults sq with
  | Some results => fold_left addSource results allSources
  | None => allSources
  end.

Definition collectSources (subQuestions : list SubQuestion) : SourceMap :=
  fold_left addSources subQuestions [].

Definition sourceLine (index : nat) (source : Source) : string :=
  showNat (index + 1) ++ ". " ++ fst source ++ " - " ++ snd source.

Definition generateSources (subQuestions : list SubQuestion) : string :=
  join nl (imap sourceLine (map snd (collectSources subQuestions))).

(** [sq.status === 'completed' && sq.analysis] *)
Definition isCompleted (sq : SubQuestion) : bool :=
  SubStatus_eqb (sq_status sq) completed && truthy (analysis sq).

Definition sectionOf (sq : SubQuestion) : string :=
  generateSection (sq_question sq)
    (match analysis sq with Some a => a | None => EmptyString end)
    (match searchResults sq with Some rs => rs | None => [] end).

(** The template literal of the report. *)
Definition reportText (mainQuestion introduction : string)
    (sections : list string) (conclusion sources : string) : string :=
  nl ++ "# Research Report: " ++ mainQuestion ++ nl
  ++ nl ++ "## Introduction" ++ nl
  ++ introduction ++ nl
  ++ nl ++ join (nl ++ nl) sections ++ nl
  ++ nl ++ "## Conclusion" ++ nl
  ++ conclusion ++ nl
  ++ nl ++ "## Sources" ++ nl
  ++ sources ++ nl.

Definition noDataMessage (mainQuestion : string) : string :=
  "No research data available for question: "
  ++ dquote ++ mainQuestion ++ dquote.

Definition inProgressMessage (mainQuestion : string) : string :=
  "Research is still in progress for question: "
  ++ dquote ++ mainQuestion ++ dquote.

Definition synthesizeReport (mainQuestion : string)
    (subQuestions : list SubQuestion) : string :=
  match subQuestions with
  | [] => noDataMessage mainQuestion
  | _ =>
      let completedSubQuestions := List.filter isCompleted subQuestions in
      match completedSubQuestions with
      | [] => inProgressMessage mainQuestion
      | _ =>
          reportText mainQuestion
            (generateIntroduction mainQuestion)
            (map sectionOf completedSubQuestions)
            (generateConclusion mainQuestion completedSubQuestions)
            (generateSources completedSubQuestions)
      end
  end.

(** [synthesizeReport] called with an undefined main question: the two
    early messages interpolate it, the report itself fails in
    [extractMainTopic]. *)
Definition synthesizeReportUndefined (subQuestions : list SubQuestion)
    : Outcome string :=
  match subQuestions with
  | [] => Resolved (noDataMessage "undefined")
  | _ =>
      match List.filter isCompleted subQuestions with
      | [] => Resolved (inProgressMessage "undefined")
      | _ => Rejected (typeErrorUndefined "replace")
      end
  end.

End Synthesis.

(** ** tools/deepResearch.ts: the research sessions *)

Module DeepResearch.
Import Js Types.

(** The parameters of a call; every field can be absent. *)
Record Params := mkParams {
  query : option string;
  maxSubQuestions : option Z;
  researchId : option string;
  action : option string
}.

(** The [result] of a successful response, one shape per return
    statement of the source. *)
Inductive Result :=
| Started (researchId : string) (question : option string)
    (subQuestions : list string) (status : ResearchStatus)
| StatusOf (researchId : string) (question : option string)
    (status : ResearchStatus) (subQuestions : list (string * SubStatus))
    (steps : nat) (startTime : Z) (endTime : option Z)
| AlreadyCompleted (researchId : string) (question : option string)
    (status : ResearchStatus) (message : string)
| Progress (researchId : string) (question : option string)
    (subQuestionCompleted : string) (remainingSubQuestions : nat)
    (status : ResearchStatus)
| Synthesized (researchId : string) (question : option string)
    (status : ResearchStatus) (message : string) (reportPreview : string)
| Report (researchId : string) (question : option string)
    (report : option string) (subQuestions : nat) (steps : nat)
    (startTime : Z) (endTime : option Z) (duration : option Q).

Inductive MCPToolResponse :=
| success (result : Result)
| error (message : string).

(** What one operation draws from outside: the identifiers of its calls of
    [uuidv4()] and the readings of its calls of [Date.now()], numbered in
    the order of the calls, and the outcome of its HTTP request. *)
Record Env := mkEnv {
  uuidv4 : nat -> string;
  now : nat -> Z;
  http : Search.HttpOutcome
}.

(** The fields of the tool: [apiKey] and the map [researches]. *)
Record Tool := mkTool {
  apiKey : string;
  researches : gmap string ResearchData
}.

Definition newTool (key : string) : Tool :=
  {| apiKey := key; researches := ∅ |}.

(** The session object under [key] after a mutation. *)
Definition store (tool : Tool) (key : string) (research : ResearchData)
    : Tool :=
  {| apiKey := apiKey tool; researches := <[key := research]> (researches tool) |}.

Definition setStatus (s : ResearchStatus) (r : ResearchData) : ResearchData :=
  {| id := id r; question := question r; subQuestions := subQuestions r;
     steps := steps r; status := s; report := report r;
     startTime := startTime r; endTime := endTime r |}.

Definition setSubQuestions (l : list SubQuestion) (r : ResearchData)
    : ResearchData :=
  {| id := id r; question := question r; subQuestions := l;
     steps := steps r; status := status r; report := report r;
     startTime := startTime r; endTime := endTime r |}.

Definition setSteps (l : list ResearchStep) (r : ResearchData)
    : ResearchData :=
  {| id := id r; question := question r; subQuestions := subQuestions r;
     steps := l; status := status r; report := report r;
     startTime := startTime r; endTime := endTime r |}.

Definition setReport (text : string) (r : ResearchData) : ResearchData :=
  {| id := id r; question := question r; subQuestions := subQuestions r;
     steps := steps r; status := status r; report := Some text;
     startTime := startTime r; endTime := endTime r |}.

Definition setEndTime (t : Z) (r : ResearchData) : ResearchData :=
  {| id := id r; question := question r; subQuestions := subQuestions r;
     steps := steps r; status := status r; report := report r;
     startTime := startTime r; endTime := Some t |}.

(** [research.steps.push(step)] *)
Definition pushStep (step : ResearchStep) (r : ResearchData) : ResearchData :=
  setSteps (steps r ++ [step])%list r.

(** [step.content = ...] for the step pushed last. *)
Definition setContent (text : string) (step : ResearchStep) : ResearchStep :=
  {| step_id := step_id step; step_type := step_type step;
     step_content := text; step_timestamp := step_timestamp step |}.

Definition updateLastStep (text : string) (r : ResearchData) : ResearchData :=
  match List.rev (steps r) with
  | [] => r
  | last :: before =>
      setSteps (List.rev before ++ [setContent text last])%list r
  end.

Definition setSubStatus (s : SubStatus) (sq : SubQuestion) : SubQuestion :=
  {| sq_id := sq_id sq; sq_question := sq_question sq; sq_status := s;
     searchResults := searchResults sq; analysis := analysis sq |}.

Definition setSearchResults (rs : list SearchResult) (sq : SubQuestion)
    : SubQuestion :=
  {| sq_id := sq_id sq; sq_question := sq_question sq;
     sq_status := sq_status sq; searchResults := Some rs;
     analysis := analysis sq |}.

Definition setAnalysis (text : string) (sq : SubQuestion) : SubQuestion :=
  {| sq_id := sq_id sq; sq_question := sq_question sq;
     sq_status := sq_status sq; searchResults := searchResults sq;
     analysis := Some text |}.

(** The sub-question at index [i] is mutated in place. *)
Definition updateSub (i : nat) (f : SubQuestion -> SubQuestion)
    (r : ResearchData) : ResearchData :=
  match subQuestions r !! i with
  | Some sq => setSubQuestions (<[i := f sq]> (subQuestions r)) r
  | None => r
  end.

Definition isPending (sq : SubQuestion) : bool :=
  SubStatus_eqb (sq_status sq) pending.

(** [subQuestions.find(sq => sq.status === 'pending')]: the index of the
    sub-question found. *)
Fixpoint findPending (l : list SubQuestion) : option nat :=
  match l with
  | [] => None
  | sq :: rest =>
      if isPending sq then Some 0
      else match findPending rest with Some i => Some (S i) | None => None end
  end.

(** The guard [!researchId || !this.researches.has(researchId)] and the
    [get] behind it. *)
Definition findResearch (tool : Tool) (rid : option string)
    : option (string * ResearchData) :=
  match rid with
  | Some key =>
      if isEmpty key then None
      else match researches tool !! key with
           | Some research => Some (key, research)
           | None => None
           end
  | None => None
  end.

Definition notFound (rid : option string) : MCPToolResponse :=
  error ("Research not found: " ++ showOpt rid).

(** [Math.min(params.maxSubQuestions || 5, 10)] *)
Definition subQuestionLimit (params : Params) : Z :=
  Z.min
    (match maxSubQuestions params with
     | Some n => if (n =? 0)%Z then 5%Z else n
     | None => 5%Z
     end)
    10.

Definition startResearch (env : Env) (params : Params) (tool : Tool)
    : Outcome MCPToolResponse * Tool :=
  let researchId := uuidv4 env 0 in
  let research :=
    {| id := researchId; question := query params; subQuestions := [];
       steps := []; status := PLANNING; report := None;
       startTime := now env 0; endTime := None |} in
  let step :=
    {| step_id := uuidv4 env 1; step_type := QUESTION_ANALYSIS;
       step_content :=
         "Analyzing question: " ++ dquote ++ showOpt (query params) ++ dquote;
       step_timestamp := now env 1 |} in
  let research := pushStep step research in
  match query params with
  | None =>
      (* analyzeQuestion(undefined) fails in question.replace *)
      (Rejected (typeErrorUndefined "replace"), store tool researchId research)
  | Some q =>
      let limitedSubQuestions :=
        slice0 (subQuestionLimit params) (Question.analyzeQuestion q) in
      let subs :=
        imap (fun i text =>
                {| sq_id := uuidv4 env (2 + i); sq_question := text;
                   sq_status := pending; searchResults := None;
                   analysis := None |})
          limitedSubQuestions in
      let research := setSubQuestions subs research in
      let research :=
        updateLastStep
          ("Analyzed question: " ++ dquote ++ q ++ dquote ++ nl
           ++ "Generated " ++ showNat (List.length subs)
           ++ " sub-questions:" ++ nl
           ++ join nl (map (fun sq => "- " ++ sq_question sq) subs))
          research in
      let research := setStatus SEARCHING research in
      (Resolved
         (success
            (Started researchId (Some q) (map sq_question subs)
               (status research))),
       store tool researchId research)
  end.

Definition getResearchStatus (params : Params) (tool : Tool)
    : Outcome MCPToolResponse * Tool :=
  match findResearch tool (researchId params) with
  | None => (Resolved (notFound (researchId params)), tool)
  | Some (key, research) =>
      (Resolved
         (success
            (StatusOf key (question research) (status research)
               (map (fun sq => (sq_question sq, sq_status sq))
                  (subQuestions research))
               (List.length (steps research))
               (startTime research) (endTime research))),
       tool)
  end.

Definition synthesizeResults (env : Env) (key : string)
    (research : ResearchData) (tool : Tool)
    : Outcome MCPToolResponse * Tool :=
  let synthesisStep :=
    {| step_id := uuidv4 env 0; step_type := SYNTHESIS;
       step_content := "Synthesizing research results";
       step_timestamp := now env 0 |} in
  let research := pushStep synthesisStep research in
  let research := setStatus SYNTHESIZING research in
  match
    match question research with
    | Some q => Resolved (Synthesis.synthesizeReport q (subQuestions research))
    | None => Synthesis.synthesizeReportUndefined (subQuestions research)
    end
  with
  | Rejected m => (Rejected m, store tool key research)
  | Resolved text =>
      let research := setReport text research in
      let research := updateLastStep "Synthesized research results" research in
      let research := setStatus COMPLETED research in
      let research := setEndTime (now env 1) research in
      (Resolved
         (success
            (Synthesized (id research) (question research) (status research)
               "Research completed" (substring0 500 text ++ "..."))),
       store tool key research)
  end.

Definition continueResearch (env : Env) (params : Params) (tool : Tool)
    : Outcome MCPToolResponse * Tool :=
  match findResearch tool (researchId params) with
  | None => (Resolved (notFound (researchId params)), tool)
  | Some (key, research) =>
      if ResearchStatus_eqb (status research) COMPLETED then
        (Resolved
           (success
              (AlreadyCompleted key (question research) (status research)
                 "Research is already completed")),
         tool)
      else
        match findPending (subQuestions research) with
        | None => synthesizeResults env key research tool
        | Some i =>
            let text :=
              match subQuestions research !! i with
              | Some sq => sq_question sq
              | None => EmptyString
              end in
            let research := updateSub i (setSubStatus in_progress) research in
            let searchStep :=
              {| step_id := uuidv4 env 0; step_type := SEARCH;
                 step_content := "Searching for: " ++ dquote ++ text ++ dquote;
                 step_timestamp := now env 0 |} in
            let research := pushStep searchStep research in
            match Search.performSearch text (apiKey tool) 10 (http env) with
            | Rejected m => (Rejected m, store tool key research)
            | Resolved results =>
                let research := updateSub i (setSearchResults results) research in
                let research :=
                  updateLastStep
                    ("Searched for: " ++ dquote ++ text ++ dquote ++ nl
                     ++ "Found " ++ showNat (List.length results) ++ " results")
                    research in
                let analysisStep :=
                  {| step_id := uuidv4 env 1; step_type := RESULT_ANALYSIS;
                     step_content :=
                       "Analyzing results for: " ++ dquote ++ text ++ dquote;
                     step_timestamp := now env 1 |} in
                let research := pushStep analysisStep research in
                let research :=
                  updateSub i
                    (setAnalysis (Analysis.analyzeResults results text))
                    research in
                let research :=
                  updateLastStep
                    ("Analyzed results for: " ++ dquote ++ text ++ dquote)
                    research in
                let research := updateSub i (setSubStatus completed) research in
                (Resolved
                   (success
                      (Progress key (question research) text
                         (List.length
                            (List.filter isPending (subQuestions research)))
                         (status research))),
                 store tool key research)
            end
        end
  end.

(** [(research.endTime! - research.startTime) / 1000]; not a number when
    [endTime] is undefined. *)
Definition durationOf (research : ResearchData) : option Q :=
  match endTime research with
  | Some e => Some (inject_Z (e - startTime research) / 1000)%Q
  | None => None
  end.

Definition generateReport (params : Params) (tool : Tool)
    : Outcome MCPToolResponse * Tool :=
  match findResearch tool (researchId params) with
  | None => (Resolved (notFound (researchId params)), tool)
  | Some (key, research) =>
      if negb (ResearchStatus_eqb (status research) COMPLETED) then
        (Resolved (error "Research is not yet completed"), tool)
      else
        (Resolved
           (success
              (Report key (question research) (report research)
                 (List.length (subQuestions research))
                 (List.length (steps research))
                 (startTime research) (endTime research)
                 (durationOf research))),
         tool)
  end.

(** [params.action || 'start'] *)
Definition actionOf (params : Params) : string :=
  if truthy (action params) then showOpt (action params) else "start".

(** The handlers are returned without [await]: a promise they reject goes
    to the caller as it is, the [catch] of [execute] only sees what is
    thrown before the dispatch, and nothing is. *)
Definition execute (env : Env) (params : Params) (tool : Tool)
    : Outcome MCPToolResponse * Tool :=
  if negb (truthy (query params)) && negb (truthy (researchId params)) then
    (Resolved (error "Either query or researchId is required"), tool)
  else
    let action := actionOf params in
    if String.eqb action "start" then startResearch env params tool
    else if String.eqb action "status" then getResearchStatus params tool
    else if String.eqb action "continue" then continueResearch env params tool
    else if String.eqb action "report" then generateReport params tool
    else (Resolved (error ("Invalid action: " ++ action)), tool).

(** A sequence of calls on one tool: the outcomes, in order, and the tool
    at the end. *)
Fixpoint run (tool : Tool) (calls : list (Env * Params))
    : list (Outcome MCPToolResponse) * Tool :=
  match calls with
  | [] => ([], tool)
  | (env, params) :: rest =>
      let (outcome, tool') := execute env params tool in
      let (outcomes, final) := run tool' rest in
      (outcome :: outcomes, final)
  end.

End DeepResearch.

(** ** The source list, as the specification words it *)

Module Reference.
Import Js Types.

(** The elements of [l] in the order in which their keys are first seen:
    an element is kept, and whatever has its key is dropped behind it. *)
Fixpoint firstSeenBy {A : Type} (key : A -> string) (l : list A) : list A :=
  match l with
  | [] => []
  | x :: rest =>
      x :: List.filter (fun y => negb (String.eqb (key y) (key x)))
             (firstSeenBy key rest)
  end.

Definition sourceOf (r : SearchResult) : Synthesis.Source := (title r, url r).

(** The results of a sub-question, none when it has not been searched. *)
Definition resultsOf (sq : SubQuestion) : list SearchResult :=
  match searchResults sq with Some rs => rs | None => [] end.

(** The (title, url) pairs of all results of the sub-questions, in the
    order of the sub-questions and of their results. *)
Definition citedSources (subQuestions : list SubQuestion)
    : list Synthesis.Source :=
  flat_map (fun sq => map sourceOf (resultsOf sq)) subQuestions.

(** The URL of the source [s] is not a key of the map [m]. *)
Definition unseen (m : Synthesis.SourceMap) (s : Synthesis.Source) : bool :=
  negb (Synthesis.mapHas m (snd s)).

End Reference.

(** ** Observations on sessions and runs *)

Module Observe.
Import Js Types DeepResearch.

(** The order planning, searching, analyzing, synthesizing, completed. *)
Definition rank (s : ResearchStatus) : nat :=
  match s with
  | PLANNING => 0
  | SEARCHING => 1
  | ANALYZING => 2
  | SYNTHESIZING => 3
  | COMPLETED => 4
  end.

Definition isInProgress (sq : SubQuestion) : bool :=
  SubStatus_eqb (sq_status sq) in_progress.

Definition inProgressCount (r : ResearchData) : nat :=
  List.length (List.filter isInProgress (subQuestions r)).

Definition isRejected {A : Type} (o : Outcome A) : bool :=
  match o with Rejected _ => true | Resolved _ => false end.

(** The number of calls of a run whose promise was rejected. *)
Definition rejections {A : Type} (outcomes : list (Outcome A)) : nat :=
  List.length (List.filter isRejected outcomes).

Definition isSuccess (o : Outcome MCPToolResponse) : bool :=
  match o with Resolved (success _) => true | _ => false end.

(** The number of calls of a run that did not end in a success response. *)
Definition failures (outcomes : list (Outcome MCPToolResponse)) : nat :=
  List.length (List.filter (fun o => negb (isSuccess o)) outcomes).

(** The [report] field of what a call returns, when there is one. *)
Definition returnedReport (o : Outcome MCPToolResponse) : option string :=
  match o with
  | Resolved (success (Report _ _ text _ _ _ _ _)) => text
  | _ => None
  end.

(** The [reportPreview] field of what a call returns, when there is one. *)
Definition returnedPreview (o : Outcome MCPToolResponse) : option string :=
  match o with
  | Resolved (success (Synthesized _ _ _ _ preview)) => Some preview
  | _ => None
  end.

(** The identifier a start draws for its session is not in use. *)
Definition freshCall (tool : Tool) (call : Env * Params) : bool :=
  if String.eqb (actionOf (snd call)) "start" then
    match researches tool !! uuidv4 (fst call) 0 with
    | Some _ => false
    | None => true
    end
  else true.

Fixpoint freshCalls (tool : Tool) (calls : list (Env * Params)) : bool :=
  match calls with
  | [] => true
  | call :: rest =>
      freshCall tool call
      && freshCalls (snd (execute (fst call) (snd call) tool)) rest
  end.

(** The search step that [continueResearch] pushes. *)
Definition searchStepOf (env : Env) (text : string) : ResearchStep :=
  {| step_id := uuidv4 env 0; step_type := SEARCH;
     step_content := "Searching for: " ++ dquote ++ text ++ dquote;
     step_timestamp := now env 0 |}.

(** What a continue does to a session that is not completed, read off the
    sub-questions and the status. *)
Inductive Continued (r : ResearchData) (o : Outcome MCPToolResponse)
    (r2 : ResearchData) : Prop :=
| ContinuedSynthesis :
    findPending (subQuestions r) = None ->
    subQuestions r2 = subQuestions r ->
    rank (status r) <= rank (status r2) ->
    Continued r o r2
| ContinuedSearch (i : nat) (sq sq2 : SubQuestion) :
    findPending (subQuestions r) = Some i ->
    subQuestions r !! i = Some sq ->
    sq_status sq = pending ->
    subQuestions r2 = <[i := sq2]> (subQuestions r) ->
    status r2 = status r ->
    sq_status sq2 = (if isRejected o then in_progress else completed) ->
    Continued r o r2.

(** The call is a continue on the session [key] and its promise was
    rejected: a search of that session has failed. *)
Definition isFailedSearch (key : string) (call : Env * Params)
    (o : Outcome MCPToolResponse) : bool :=
  String.eqb (actionOf (snd call)) "continue"
  && match researchId (snd call) with
     | Some k => String.eqb k key
     | None => false
     end
  && isRejected o.

(** The number of searches of the session [key] that failed in a run, read
    off its calls and their outcomes. *)
Definition failedSearches (key : string) (calls : list (Env * Params))
    (outcomes : list (Outcome MCPToolResponse)) : nat :=
  List.length
    (List.filter (fun p => isFailedSearch key (fst p) (snd p))
       (combine calls outcomes)).

(** The number of sub-questions in progress of the session stored under
    [key], 0 when there is none. *)
Definition inProgressAt (tool : Tool) (key : string) : nat :=
  match researches tool !! key with
  | Some r => inProgressCount r
  | None => 0
  end.

(** The session [r] is the session [r0] but for its steps and for the
    sub-question at index [i], which is [x]. *)
Definition SubsAt (r0 : ResearchData) (i : nat) (x : SubQuestion)
    (r : ResearchData) : Prop :=
  subQuestions r = <[i := x]> (subQuestions r0)
  /\ status r = status r0
  /\ i < List.length (subQuestions r0).

End Observe.

(** ** Sample sessions

    Concrete environments and calls, used to run the tool on examples. *)

Module Sample.
Import Js Types DeepResearch.

(** The environment of the [n]-th call of a run: identifiers
    [u<n>-<k>], clock readings [1000 * n + k]. *)
Definition env (n : nat) (answer : Search.HttpOutcome) : Env :=
  {| uuidv4 := fun k => "u" ++ showNat n ++ "-" ++ showNat k;
     now := fun k => Z.of_nat (1000 * n + k);
     http := answer |}.

Definition found : Search.HttpOutcome :=
  Search.HttpResponse
    (Some [Search.mkRaw (Some "Solar power") (Some "http://s.example")
             (Some "Solar energy comes from the sun. It is renewable.")]).

Definition timeout : Search.HttpOutcome := Search.HttpFailure "timeout".

Definition tool0 : Tool := newTool "key".

Definition startWith (question : string) (limit : option Z) : Params :=
  {| query := Some question; maxSubQuestions := limit; researchId := None;
     action := None |}.

Definition call (name rid : string) : Params :=
  {| query := None; maxSubQuestions := None; researchId := Some rid;
     action := Some name |}.

(** A call without [query] and without [action], with some [researchId]. *)
Definition startWithoutQuery : Params :=
  {| query := None; maxSubQuestions := None; researchId := Some "abc";
     action := None |}.

(** A session on two sub-questions, started. *)
Definition started : Tool :=
  snd (run tool0 [(env 0 found, startWith "Compare solar and wind energy" None)]).

(** The same session after one search that failed. *)
Definition failedOnce : Tool :=
  snd (run started [(env 1 timeout, call "continue" "u0-0")]).

(** A session on one sub-question, run to its end: start, search, synthesis. *)
Definition finished : Tool :=
  snd (run tool0
         [(env 0 found, startWith "solar" (Some 1%Z));
          (env 1 found, call "continue" "u0-0");
          (env 4 found, call "continue" "u0-0")]).

(** The same session after a second search that failed. *)
Definition failedTwice : Tool :=
  snd (run failedOnce [(env 2 timeout, call "continue" "u0-0")]).

(** A run in which one search fails: a start and a continue that fails,
    then a continue that succeeds. *)
Definition oneFailure : list (Env * Params) :=
  [(env 0 found, startWith "Compare solar and wind energy" None);
   (env 1 timeout, call "continue" "u0-0")].

Definition thenSuccess : list (Env * Params) :=
  [(env 2 found, call "continue" "u0-0")].

(** The session stored under [key]. *)
Definition session (tool : Tool) (key : string) : ResearchData :=
  default (mkResearch EmptyString None [] [] PLANNING None 0 None)
    (researches tool !! key).

Definition startedSession : ResearchData :=
  Eval vm_compute in session started "u0-0".

Definition failedOnceSession : ResearchData :=
  Eval vm_compute in session failedOnce "u0-0".

Definition finishedSession : ResearchData :=
  Eval vm_compute in session finished "u0-0".

(** The first sub-question of the session of [started]. *)
Definition firstSub : SubQuestion :=
  mkSub "u0-2" "Compare solar?" pending None None.

(** What the search for it finds in the answer [found]. *)
Definition firstResults : list SearchResult :=
  Eval vm_compute in
    match Search.performSearch "Compare solar?" "key" 10 found with
    | Resolved results => results
    | Rejected _ => []
    end.

(** A session on one sub-question, searched: the synthesis is next. *)
Definition searched : Tool :=
  snd (run tool0
         [(env 0 found, startWith "solar" (Some 1%Z));
          (env 1 found, call "continue" "u0-0")]).

Definition searchedSession : ResearchData :=
  Eval vm_compute in session searched "u0-0".

Definition searchedReport : string :=
  Eval vm_compute in
    Synthesis.synthesizeReport "solar" (subQuestions searchedSession).

End Sample.

(** ** Further observations on the utilities *)

Module Facts.
Import Js Types.

(** Every character of [s] satisfies [p]. *)
Fixpoint allChars (p : ascii -> bool) (s : string) : bool :=
  match s with
  | EmptyString => true
  | String c r => p c && allChars p r
  end.

(** A raw result has the two fields [calculateRelevance] reads. *)
Definition complete (result : Search.RawResult) : bool :=
  match Search.raw_title result, Search.raw_description result with
  | Some _, Some _ => true
  | _, _ => false
  end.

(** The request has what [performSearch] needs and the answer can be
    parsed. *)
Definition searchable (query apiKey : string) (http : Search.HttpOutcome)
    : bool :=
  negb (isEmpty query) && negb (isEmpty apiKey)
  && match http with
     | Search.HttpFailure _ => false
     | Search.HttpResponse None => true
     | Search.HttpResponse (Some results) => forallb complete results
     end.

(** The entries of the payload, none when it has no result list. *)
Definition rawResults (http : Search.HttpOutcome) : list Search.RawResult :=
  match http with
  | Search.HttpResponse (Some results) => results
  | _ => []
  end.

Definition orEmpty (s : option string) : string :=
  match s with Some v => v | None => EmptyString end.

(** The relevance is a number between 0 and 1. *)
Definition scored (r : SearchResult) : Prop :=
  exists v, relevance r = Some v /\ (0 <= v <= 1)%Q.



(** The character is its own lower case. *)
Definition isLower (c : ascii) : bool := Ascii.eqb (lowerChar c) c.

Definition notSpace (c : ascii) : bool := negb (isWhiteSpace c).

Definition notTerminator (c : ascii) : bool := negb (Analysis.isTerminator c).

(** The sentences of a text that [selectRelevantSentences] scores. *)
Definition sentencesOf (text : string) : list string :=
  List.filter (fun s => (0 <? String.length (trim s))%nat)
    (splitOn Analysis.isTerminator text).

(** The string is empty or begins with a character that is not white
    space. *)
Definition headSolid (s : string) : bool :=
  match s with
  | EmptyString => true
  | String c _ => negb (isWhiteSpace c)
  end.

(** The closing note of an analysis over [n] results. *)
Definition closingNote (n : nat) : string :=
  "This analysis is based on the top " ++ showNat (Nat.min 5 n)
  ++ " most relevant results." ++ nl.

End Facts.

(** ** Words and substrings, as the specification words them *)

Module Wording.
Import Js.

(** [word] is a substring of [text]. *)
Definition substringOf (word text : string) : Prop :=
  exists a b, text = a ++ word ++ b.

(** The string is empty or begins with white space. *)
Definition headSpace (s : string) : bool :=
  match s with
  | EmptyString => true
  | String c _ => isWhiteSpace c
  end.

(** [words] are the words of [text]: what stands between its runs of
    white space, from left to right.  A word is not empty, has no white
    space, and ends where the text ends or white space follows. *)
Inductive Words : string -> list string -> Prop :=
| words_none (gap : string) :
    Facts.allChars isWhiteSpace gap = true -> Words gap []
| words_cons (gap word rest : string) (words : list string) :
    Facts.allChars isWhiteSpace gap = true ->
    isEmpty word = false ->
    Facts.allChars Facts.notSpace word = true ->
    headSpace rest = true ->
    Words rest words ->
    Words (gap ++ word ++ rest) (word :: words).

(** The connectors a question is split on. *)
Definition connectors : list string :=
  ["and"; "or"; "versus"; "vs"; "compared to"].

(** A separator: white space, a connector in any case, white space. *)
Definition Separator (sep : string) : Prop :=
  exists before word after,
    sep = before ++ word ++ after
    /\ isEmpty before = false
    /\ Facts.allChars isWhiteSpace before = true
    /\ In (toLowerCase word) connectors
    /\ isEmpty after = false
    /\ Facts.allChars isWhiteSpace after = true.

(** A separator begins in [text] before the position [n]. *)
Definition startsBefore (n : nat) (text : string) : Prop :=
  exists a sep b,
    text = a ++ sep ++ b /\ Separator sep /\ String.length a < n.

(** A separator stands somewhere in [text]. *)
Definition separated (text : string) : Prop :=
  exists a sep b, text = a ++ sep ++ b /\ Separator sep.

(** [parts] are the parts of [text] between its separators, from left to
    right: each separator is the first one from the left in what is left
    of the text and takes all the white space behind its connector, and
    the last part has no separator. *)
Inductive Split : string -> list string -> Prop :=
| split_last (text : string) : ~ separated text -> Split text [text]
| split_part (part sep rest : string) (parts : list string) :
    Separator sep ->
    ~ startsBefore (String.length part) (part ++ sep ++ rest) ->
    Facts.headSolid rest = true ->
    Split rest parts ->
    Split (part ++ sep ++ rest) (part :: parts).

End Wording.

(** ** The sessions after each kind of step *)

Module Session.
Import Js Types DeepResearch.

Definition pendingCount (r : ResearchData) : nat :=
  List.length (List.filter isPending (subQuestions r)).

(** The sub-question [sq] once searched and analysed. *)
Definition completedSub (results : list SearchResult) (sq : SubQuestion)
    : SubQuestion :=
  {| sq_id := sq_id sq; sq_question := sq_question sq;
     sq_status := completed; searchResults := Some results;
     analysis := Some (Analysis.analyzeResults results (sq_question sq)) |}.

(** The search step with the content it has after the search. *)
Definition searchedStep (env : Env) (text : string) (found : nat)
    : ResearchStep :=
  {| step_id := uuidv4 env 0; step_type := SEARCH;
     step_content :=
       "Searched for: " ++ dquote ++ text ++ dquote ++ nl
       ++ "Found " ++ showNat found ++ " results";
     step_timestamp := now env 0 |}.

(** The analysis step with the content it has after the analysis. *)
Definition analysedStep (env : Env) (text : string) : ResearchStep :=
  {| step_id := uuidv4 env 1; step_type := RESULT_ANALYSIS;
     step_content := "Analyzed results for: " ++ dquote ++ text ++ dquote;
     step_timestamp := now env 1 |}.

(** The session [r] after the sub-question [sq] at index [i] has been
    searched and analysed. *)
Definition afterSearch (env : Env) (results : list SearchResult) (i : nat)
    (sq : SubQuestion) (r : ResearchData) : ResearchData :=
  {| id := id r; question := question r;
     subQuestions := <[i := completedSub results sq]> (subQuestions r);
     steps :=
       (steps r
        ++ [searchedStep env (sq_question sq) (List.length results);
            analysedStep env (sq_question sq)])%list;
     status := status r; report := report r;
     startTime := startTime r; endTime := endTime r |}.

(** The session [r] after the search for the sub-question at index [i]
    has failed. *)
Definition afterFailure (env : Env) (i : nat) (sq : SubQuestion)
    (r : ResearchData) : ResearchData :=
  {| id := id r; question := question r;
     subQuestions := <[i := setSubStatus in_progress sq]> (subQuestions r);
     steps :=
       (steps r
        ++ [ {| step_id := uuidv4 env 0; step_type := SEARCH;
                step_content :=
                  "Searching for: " ++ dquote ++ sq_question sq ++ dquote;
                step_timestamp := now env 0 |} ])%list;
     status := status r; report := report r;
     startTime := startTime r; endTime := endTime r |}.

(** The session [r] after its report [text] has been written. *)
Definition afterSynthesis (env : Env) (text : string) (r : ResearchData)
    : ResearchData :=
  {| id := id r; question := question r; subQuestions := subQuestions r;
     steps :=
       (steps r
        ++ [ {| step_id := uuidv4 env 0; step_type := SYNTHESIS;
                step_content := "Synthesized research results";
                step_timestamp := now env 0 |} ])%list;
     status := COMPLETED; report := Some text;
     startTime := startTime r; endTime := Some (now env 1) |}.

(** The session [r] after the writing of its report has failed. *)
Definition afterSynthesisFailure (env : Env) (r : ResearchData)
    : ResearchData :=
  {| id := id r; question := question r; subQuestions := subQuestions r;
     steps :=
       (steps r
        ++ [ {| step_id := uuidv4 env 0; step_type := SYNTHESIS;
                step_content := "Synthesizing research results";
                step_timestamp := now env 0 |} ])%list;
     status := SYNTHESIZING; report := report r;
     startTime := startTime r; endTime := endTime r |}.

(** The session [r] with other sub-questions, steps, status, report and
    end time. *)
Definition rebuilt (subs : list SubQuestion) (log : list ResearchStep)
    (st : ResearchStatus) (rep : option string) (finish : option Z)
    (r : ResearchData) : ResearchData :=
  {| id := id r; question := question r; subQuestions := subs; steps := log;
     status := st; report := rep; startTime := startTime r;
     endTime := finish |}.

(** The report of the session [r], or the error of its writing. *)
Definition reportOf (r : ResearchData) : Outcome string :=
  match question r with
  | Some q => Resolved (Synthesis.synthesizeReport q (subQuestions r))
  | None => Synthesis.synthesizeReportUndefined (subQuestions r)
  end.

(** The sub-questions a start makes of the texts [texts]. *)
Definition newSubs (env : Env) (texts : list string) : list SubQuestion :=
  imap (fun i text =>
          {| sq_id := uuidv4 env (2 + i); sq_question := text;
             sq_status := pending; searchResults := None;
             analysis := None |})
    texts.

(** The texts of the sub-questions a start with the query [q] creates. *)
Definition plannedTexts (params : Params) (q : string) : list string :=
  slice0 (subQuestionLimit params) (Question.analyzeQuestion q).

(** The session a start with the query [q] stores. *)
Definition startedSession (env : Env) (params : Params) (q : string)
    : ResearchData :=
  {| id := uuidv4 env 0; question := Some q;
     subQuestions := newSubs env (plannedTexts params q);
     steps :=
       [ {| step_id := uuidv4 env 1; step_type := QUESTION_ANALYSIS;
            step_content :=
              "Analyzed question: " ++ dquote ++ q ++ dquote ++ nl
              ++ "Generated "
              ++ showNat (List.length (plannedTexts params q))
              ++ " sub-questions:" ++ nl
              ++ join nl (map (fun text => "- " ++ text) (plannedTexts params q));
            step_timestamp := now env 1 |} ];
     status := SEARCHING; report := None;
     startTime := now env 0; endTime := None |}.

(** The session a start without query leaves behind. *)
Definition abandonedSession (env : Env) : ResearchData :=
  {| id := uuidv4 env 0; question := None; subQuestions := [];
     steps :=
       [ {| step_id := uuidv4 env 1; step_type := QUESTION_ANALYSIS;
            step_content :=
              "Analyzing question: " ++ dquote ++ "undefined" ++ dquote;
            step_timestamp := now env 1 |} ];
     status := PLANNING; report := None;
     startTime := now env 0; endTime := None |}.

(** One step of a stored session [r], to [r2]. *)
Inductive Step (tool : Tool) (env : Env) (r r2 : ResearchData) : Prop :=
| Searched (i : nat) (sq : SubQuestion) (results : list SearchResult) :
    findPending (subQuestions r) = Some i ->
    subQuestions r !! i = Some sq ->
    sq_status sq = pending ->
    Search.performSearch (sq_question sq) (apiKey tool) 10 (http env)
    = Resolved results ->
    r2 = afterSearch env results i sq r ->
    Step tool env r r2
| SearchFailed (i : nat) (sq : SubQuestion) (m : string) :
    findPending (subQuestions r) = Some i ->
    subQuestions r !! i = Some sq ->
    sq_status sq = pending ->
    Search.performSearch (sq_question sq) (apiKey tool) 10 (http env)
    = Rejected m ->
    r2 = afterFailure env i sq r ->
    Step tool env r r2
| Synthesised (text : string) :
    findPending (subQuestions r) = None ->
    reportOf r = Resolved text ->
    r2 = afterSynthesis env text r ->
    Step tool env r r2
| SynthesisFailed (m : string) :
    findPending (subQuestions r) = None ->
    reportOf r = Rejected m ->
    r2 = afterSynthesisFailure env r ->
    Step tool env r r2.

(** The outcome that goes with a step. *)
Definition outcomeOf (key : string) (env : Env) (tool : Tool)
    (r : ResearchData) : Outcome MCPToolResponse :=
  match findPending (subQuestions r) with
  | Some i =>
      match subQuestions r !! i with
      | Some sq =>
          match
            Search.performSearch (sq_question sq) (apiKey tool) 10 (http env)
          with
          | Resolved results =>
              Resolved
                (success
                   (Progress key (question r) (sq_question sq)
                      (pendingCount r - 1) (status r)))
          | Rejected m => Rejected m
          end
      | None => Rejected EmptyString
      end
  | None =>
      match reportOf r with
      | Resolved text =>
          Resolved
            (success
               (Synthesized (id r) (question r) COMPLETED
                  "Research completed" (substring0 500 text ++ "...")))
      | Rejected m => Rejected m
      end
  end.

(** What holds of every session of a tool that began empty, between two
    calls. *)
Record WellFormed (key : string) (r : ResearchData) : Prop := {
  wf_id : id r = key;
  wf_status :
    status r = PLANNING \/ status r = SEARCHING \/ status r = COMPLETED;
  wf_question : question r = None -> subQuestions r = [];
  wf_report :
    match status r with
    | COMPLETED =>
        (exists text, report r = Some text /\ reportOf r = Resolved text)
        /\ is_Some (endTime r)
    | _ => report r = None /\ endTime r = None
    end;
  wf_subs :
    Forall
      (fun sq =>
         match sq_status sq with
         | completed =>
             exists results,
               searchResults sq = Some results
               /\ analysis sq
                  = Some (Analysis.analyzeResults results (sq_question sq))
         | _ => searchResults sq = None /\ analysis sq = None
         end)
      (subQuestions r);
  wf_steps :
    exists first rest,
      steps r = first :: rest
      /\ step_type first = QUESTION_ANALYSIS
      /\ Forall
           (fun s =>
              step_type s = SEARCH \/ step_type s = RESULT_ANALYSIS
              \/ step_type s = SYNTHESIS)
           rest
}.

(** The session [r2] is a later state of the session [r]. *)
Record Extends (r r2 : ResearchData) : Prop := {
  ext_id : id r2 = id r;
  ext_question : question r2 = question r;
  ext_start : startTime r2 = startTime r;
  ext_ids : map sq_id (subQuestions r2) = map sq_id (subQuestions r);
  ext_texts :
    map sq_question (subQuestions r2) = map sq_question (subQuestions r);
  ext_settled :
    forall (i : nat) (sq : SubQuestion),
      subQuestions r !! i = Some sq -> sq_status sq <> pending ->
      subQuestions r2 !! i = Some sq;
  ext_steps : exists added, steps r2 = (steps r ++ added)%list
}.

(** Every search of a sub-question of [r] succeeds in the environment. *)
Definition searchesSucceed (tool : Tool) (r : ResearchData) (env : Env)
    : bool :=
  forallb (fun text => Facts.searchable text (apiKey tool) (http env))
    (map sq_question (subQuestions r)).

(** The calls that continue the session [key], one per environment. *)
Definition continues (params : Params) (envs : list Env)
    : list (Env * Params) :=
  map (fun env => (env, params)) envs.

End Session.

(** ** tools/braveSearch.ts *)

Module BraveWebSearchTool.
Import Js Types.

(** The fields of [params] the two search tools read; the numbers are
    integers. *)
Record Params := mkParams {
  query : option string;
  count : option Z;
  offset : option Z
}.

(** The [result] of a successful response; the local search gives no
    [offset]. *)
Record Listing := mkListing {
  l_query : string;
  l_count : nat;
  l_offset : option Z;
  l_results : list SearchResult
}.

Inductive MCPToolResponse :=
| success (result : Listing)
| error (message : string).

(** [n || d] on a number. *)
Definition orDefault (n : option Z) (d : Z) : Z :=
  match n with
  | Some v => if (v =? 0)%Z then d else v
  | None => d
  end.

(** [Math.min(Math.max(n, lo), hi)] *)
Definition clamp (lo hi n : Z) : Z := Z.min (Z.max n lo) hi.

(** [result => ({ title, description, url, relevance })] *)
Definition copyResult (r : SearchResult) : SearchResult :=
  {| title := title r; description := description r; url := url r;
     relevance := relevance r |}.

(** The search is awaited inside the [try]: what it throws is caught and
    returned as an error response. *)
Definition execute (apiKey : string) (params : Params)
    (http : Search.HttpOutcome) : Outcome MCPToolResponse :=
  if negb (truthy (query params)) then
    Resolved (error "Search query is required")
  else
    let query := substring0 400 (showOpt (query params)) in
    let count := clamp 1 20 (orDefault (count params) 10) in
    let offset := clamp 0 9 (orDefault (offset params) 0) in
    match Search.performSearch query apiKey count http with
    | Rejected m => Resolved (error m)
    | Resolved results =>
        Resolved
          (success
             {| l_query := query; l_count := List.length results;
                l_offset := Some offset;
                l_results := map copyResult results |})
    end.

End BraveWebSearchTool.

Module BraveLocalSearchTool.
Import Js Types BraveWebSearchTool.

Definition execute (apiKey : string) (params : Params)
    (http : Search.HttpOutcome) : Outcome MCPToolResponse :=
  if negb (truthy (query params)) then
    Resolved (error "Search query is required")
  else
    let query := substring0 400 (showOpt (query params)) in
    let count := clamp 1 20 (orDefault (count params) 5) in
    match Search.performSearch (query ++ " near me") apiKey count http with
    | Rejected m => Resolved (error m)
    | Resolved results =>
        Resolved
          (success
             {| l_query := query; l_count := List.length results;
                l_offset := None;
                l_results := map copyResult results |})
    end.

End BraveLocalSearchTool.

(** ** tools/sequentialThinking.ts *)

Module SequentialThinkingTool.
Import Js.

(** The fields of [params]; the numbers are integers. *)
Record Params := mkParams {
  thought : option string;
  nextThoughtNeeded : option bool;
  thoughtNumber : option Z;
  totalThoughts : option Z;
  isRevision : option bool;
  revisesThought : option Z;
  branchFromThought : option Z;
  branchId : option string;
  needsMoreThoughts : option bool
}.

(** A stored thought. *)
Record Thought := mkThought {
  t_thoughtNumber : Z;
  t_totalThoughts : Z;
  t_content : string;
  t_nextThoughtNeeded : option bool;
  t_isRevision : bool;
  t_revisesThought : option Z;
  t_branchFromThought : option Z;
  t_branchId : option string;
  t_needsMoreThoughts : bool;
  t_timestamp : Z
}.

(** An entry of [previousThoughts]. *)
Record Previous := mkPrevious {
  p_thoughtNumber : Z;
  p_content : string;
  p_isRevision : bool;
  p_revisesThought : option Z
}.

Record Result := mkResult {
  sessionId : string;
  r_thoughtNumber : Z;
  r_totalThoughts : Z;
  r_nextThoughtNeeded : option bool;
  previousThoughts : list Previous
}.

Inductive MCPToolResponse :=
| success (result : Result)
| error (message : string).

(** The map [thoughts]: its entries in the order of their insertion, which
    is the order in which [entries()] goes through them. *)
Definition Thoughts := list (string * list Thought).

Fixpoint get (store : Thoughts) (key : string) : option (list Thought) :=
  match store with
  | [] => None
  | (k, v) :: rest => if String.eqb k key then Some v else get rest key
  end.

(** [set] keeps the place of a key that is there and puts a new key at
    the end. *)
Fixpoint set (store : Thoughts) (key : string) (value : list Thought)
    : Thoughts :=
  match store with
  | [] => [(key, value)]
  | (k, v) :: rest =>
      if String.eqb k key then (k, value) :: rest
      else (k, v) :: set rest key value
  end.

(** [thoughts.some(t => t.thoughtNumber === n)] *)
Definition hasNumber (n : Z) (thoughts : list Thought) : bool :=
  existsb (fun t => (t_thoughtNumber t =? n)%Z) thoughts.

(** The loop over the entries: the id of the first session that has the
    thought before number [n], the empty string when there is none.  The
    source computes [n - 1] on doubles, which is exact for [n] up to 2^53;
    what depends on the comparison is stated for such numbers. *)
Fixpoint findSession (store : Thoughts) (n : Z) : string :=
  match store with
  | [] => EmptyString
  | (id, thoughts) :: rest =>
      if (0 <? List.length thoughts)%nat && hasNumber (n - 1) thoughts then id
      else findSession rest n
  end.

(** [b || false] *)
Definition orFalse (b : option bool) : bool :=
  match b with Some v => v | None => false end.

(** The thought that is stored for [params]. *)
Definition thoughtOf (env : DeepResearch.Env) (params : Params) (n total : Z)
    : Thought :=
  {| t_thoughtNumber := n; t_totalThoughts := total;
     t_content := showOpt (thought params);
     t_nextThoughtNeeded := nextThoughtNeeded params;
     t_isRevision := orFalse (isRevision params);
     t_revisesThought := revisesThought params;
     t_branchFromThought := branchFromThought params;
     t_branchId := branchId params;
     t_needsMoreThoughts := orFalse (needsMoreThoughts params);
     t_timestamp := DeepResearch.now env 0 |}.

Definition summary (t : Thought) : Previous :=
  {| p_thoughtNumber := t_thoughtNumber t; p_content := t_content t;
     p_isRevision := t_isRevision t; p_revisesThought := t_revisesThought t |}.

(** Nothing in the body throws: the promise always resolves, and the
    function is given as the response it resolves to, with the map
    afterwards. *)
Definition execute (env : DeepResearch.Env) (params : Params)
    (store : Thoughts) : MCPToolResponse * Thoughts :=
  if negb (truthy (thought params)) then
    (error "Thought content is required", store)
  else
    match thoughtNumber params with
    | None => (error "Valid thought number is required", store)
    | Some n =>
        if (n <? 1)%Z then (error "Valid thought number is required", store)
        else
          match totalThoughts params with
          | None => (error "Valid total thoughts is required", store)
          | Some total =>
              if (total <? 1)%Z then
                (error "Valid total thoughts is required", store)
              else
                let found :=
                  if (n =? 1)%Z then EmptyString else findSession store n in
                let sessionId :=
                  if isEmpty found then DeepResearch.uuidv4 env 0 else found in
                let store :=
                  if isEmpty found then set store sessionId [] else store in
                let thoughts :=
                  (match get store sessionId with
                   | Some l => l
                   | None => []
                   end ++ [thoughtOf env params n total])%list in
                let store := set store sessionId thoughts in
                (success
                   {| sessionId := sessionId; r_thoughtNumber := n;
                      r_totalThoughts := total;
                      r_nextThoughtNeeded := nextThoughtNeeded params;
                      previousThoughts :=
                        map summary
                          (List.filter
                             (fun t => (t_thoughtNumber t <? n)%Z) thoughts) |},
                 store)
          end
    end.

(** A sequence of calls on one tool. *)
Fixpoint run (store : Thoughts) (calls : list (DeepResearch.Env * Params))
    : list MCPToolResponse * Thoughts :=
  match calls with
  | [] => ([], store)
  | (env, params) :: rest =>
      let (response, store') := execute env params store in
      let (responses, final) := run store' rest in
      (response :: responses, final)
  end.

End SequentialThinkingTool.

(** ** The tool calls of the WebSocket server *)

Module WebSocketMCPServer.
Import Js.

(** The [arguments] object of a request, as each tool reads it. *)
Record Arguments := mkArguments {
  asSearch : BraveWebSearchTool.Params;
  asThought : SequentialThinkingTool.Params;
  asResearch : DeepResearch.Params
}.

(** What the handler returns: the response of a tool, or a text with
    [isError]. *)
Inductive ToolResult :=
| searchResponse (response : BraveWebSearchTool.MCPToolResponse)
| thoughtResponse (response : SequentialThinkingTool.MCPToolResponse)
| researchResponse (response : DeepResearch.MCPToolResponse)
| isError (text : string).

(** Each of the four methods makes a new tool and calls it. *)
Definition callBraveWebSearch (apiKey : string) (env : DeepResearch.Env)
    (args : Arguments) : Outcome BraveWebSearchTool.MCPToolResponse :=
  BraveWebSearchTool.execute apiKey (asSearch args) (DeepResearch.http env).

Definition callBraveLocalSearch (apiKey : string) (env : DeepResearch.Env)
    (args : Arguments) : Outcome BraveWebSearchTool.MCPToolResponse :=
  BraveLocalSearchTool.execute apiKey (asSearch args) (DeepResearch.http env).

Definition callSequentialThinking (env : DeepResearch.Env) (args : Arguments)
    : Outcome SequentialThinkingTool.MCPToolResponse :=
  Resolved (fst (SequentialThinkingTool.execute env (asThought args) [])).

Definition callDeepResearch (apiKey : string) (env : DeepResearch.Env)
    (args : Arguments) : Outcome DeepResearch.MCPToolResponse :=
  fst (DeepResearch.execute env (asResearch args) (DeepResearch.newTool apiKey)).

(** What the [catch] of the handler makes of a rejection. *)
Definition caught {A : Type} (wrap : A -> ToolResult) (o : Outcome A)
    : ToolResult :=
  match o with
  | Resolved response => wrap response
  | Rejected m => isError m
  end.

(** The handler of [CallToolRequestSchema]. *)
Definition callTool (apiKey : string) (env : DeepResearch.Env)
    (name : string) (arguments : option Arguments) : ToolResult :=
  match arguments with
  | None => isError "No arguments provided"
  | Some args =>
      if String.eqb name "brave_web_search" then
        caught searchResponse (callBraveWebSearch apiKey env args)
      else if String.eqb name "brave_local_search" then
        caught searchResponse (callBraveLocalSearch apiKey env args)
      else if String.eqb name "sequentialthinking" then
        caught thoughtResponse (callSequentialThinking env args)
      else if String.eqb name "deep_research" then
        caught researchResponse (callDeepResearch apiKey env args)
      else isError ("Unknown tool: " ++ name)
  end.

End WebSocketMCPServer.

(** ** Observations on the other tools *)

Module ToolFacts.
Import Js Types.

(** The response without the [offset] it repeats. *)
Definition withoutOffset (o : Outcome BraveWebSearchTool.MCPToolResponse)
    : Outcome BraveWebSearchTool.MCPToolResponse :=
  match o with
  | Resolved (BraveWebSearchTool.success l) =>
      Resolved
        (BraveWebSearchTool.success
           {| BraveWebSearchTool.l_query := BraveWebSearchTool.l_query l;
              BraveWebSearchTool.l_count := BraveWebSearchTool.l_count l;
              BraveWebSearchTool.l_offset := None;
              BraveWebSearchTool.l_results :=
                BraveWebSearchTool.l_results l |})
  | other => other
  end.

(** The parameters with another [offset]. *)
Definition atOffset (o : option Z) (params : BraveWebSearchTool.Params)
    : BraveWebSearchTool.Params :=
  {| BraveWebSearchTool.query := BraveWebSearchTool.query params;
     BraveWebSearchTool.count := BraveWebSearchTool.count params;
     BraveWebSearchTool.offset := o |}.

(** The parameters pass the three checks of the thinking tool. *)
Definition valid (params : SequentialThinkingTool.Params) : bool :=
  truthy (SequentialThinkingTool.thought params)
  && match SequentialThinkingTool.thoughtNumber params with
     | Some n => (1 <=? n)%Z
     | None => false
     end
  && match SequentialThinkingTool.totalThoughts params with
     | Some n => (1 <=? n)%Z
     | None => false
     end.

(** The thought number is at most 2^53: the subtraction [n - 1] of the
    source, on a double, is then the exact one. *)
Definition exact (n : Z) : bool := (n <=? 2 ^ 53)%Z.

(** The thought number of the call, when it has one, is at most 2^53. *)
Definition exactCall (params : SequentialThinkingTool.Params) : bool :=
  match SequentialThinkingTool.thoughtNumber params with
  | Some n => exact n
  | None => true
  end.

(** The thoughts of a session after its first have a number above 1 and
    come behind a thought with the number before theirs. *)
Fixpoint chained (before : list SequentialThinkingTool.Thought)
    (rest : list SequentialThinkingTool.Thought) : Prop :=
  match rest with
  | [] => True
  | t :: rest' =>
      (1 < SequentialThinkingTool.t_thoughtNumber t)%Z
      /\ SequentialThinkingTool.hasNumber
           (SequentialThinkingTool.t_thoughtNumber t - 1) before = true
      /\ chained (before ++ [t]) rest'
  end.

(** A session of the thinking tool: it has a first thought, and the
    others are chained to it. *)
Definition sessionOk (entry : string * list SequentialThinkingTool.Thought)
    : Prop :=
  match snd entry with
  | [] => False
  | first :: rest => chained [first] rest
  end.

(** Every stored thought has a number and a total of 1 or more and a text
    that is not empty. *)
Definition thoughtOk (t : SequentialThinkingTool.Thought) : Prop :=
  (1 <= SequentialThinkingTool.t_thoughtNumber t)%Z
  /\ (1 <= SequentialThinkingTool.t_totalThoughts t)%Z
  /\ isEmpty (SequentialThinkingTool.t_content t) = false.

Definition storeOk (store : SequentialThinkingTool.Thoughts) : Prop :=
  List.NoDup (map fst store)
  /\ Forall sessionOk store
  /\ Forall (fun entry => Forall thoughtOk (snd entry)) store.

End ToolFacts.

(** ** Sample calls of the thinking tool *)

Module ToolSample.
Import Js SequentialThinkingTool.

(** The thought [text] with the number [n], of 3. *)
Definition think (n : Z) (text : string) : Params :=
  {| thought := Some text; nextThoughtNeeded := Some true;
     thoughtNumber := Some n; totalThoughts := Some 3%Z;
     isRevision := None; revisesThought := None; branchFromThought := None;
     branchId := None; needsMoreThoughts := None |}.

(** Two sessions, each with its first thought. *)
Definition twoSessions : Thoughts :=
  Eval vm_compute in
    snd (run []
           [(Sample.env 0 Sample.found, think 1 "first of a");
            (Sample.env 1 Sample.found, think 1 "first of b")]).

(** Two sessions opened, then two second thoughts. *)
Definition fourThoughts : list (DeepResearch.Env * Params) :=
  [(Sample.env 0 Sample.found, think 1 "first of a");
   (Sample.env 1 Sample.found, think 1 "first of b");
   (Sample.env 2 Sample.found, think 2 "second");
   (Sample.env 3 Sample.found, think 2 "second again")].

Definition firstOfA : Thought :=
  Eval vm_compute in
    thoughtOf (Sample.env 0 Sample.found) (think 1 "first of a") 1 3.

Definition firstOfB : Thought :=
  Eval vm_compute in
    thoughtOf (Sample.env 1 Sample.found) (think 1 "first of b") 1 3.

End ToolSample.

(** * Properties *)

Section Counting.

Lemma countMatches_le (text : string) (words : list string) :
  Search.countMatches text words <= List.length words.
Proof.
  unfold Search.countMatches.
  induction words as [|w ws IH]; simpl; [lia|].
  destruct (Js.includes text w); simpl; lia.
Qed.

Lemma ratio_bounds (n d : nat) :
  n <= d -> 0 < d -> (0 <= Search.ratio n d <= 1)%Q.
Proof.
  intros Hle Hd. unfold Search.ratio, Qdiv, Qle, Qmult, Qinv, inject_Z.
  destruct d as [|d]; [lia|].
  cbn [Qnum Qden Z.of_nat]. simpl. nia.
Qed.

End Counting.

(** ** Relevance scores *)

Section Scores.

Lemma queryWords_long (query : string) :
  Forall (fun word => 2 < String.length word) (Search.queryWords query).
Proof.
  unfold Search.queryWords. apply List.Forall_forall. intros w Hw.
  apply List.filter_In in Hw. destruct Hw as [_ Hw].
  apply Nat.ltb_lt in Hw. exact Hw.
Qed.

Lemma matchPercentage_bounds (sentence query : string) :
  (0 <= Analysis.matchPercentage sentence query <= 1)%Q.
Proof.
  unfold Analysis.matchPercentage.
  destruct (0 <? List.length (Analysis.queryWords query))%nat eqn:E.
  - apply ratio_bounds.
    + apply countMatches_le.
    + apply Nat.ltb_lt. exact E.
  - split; [apply Qle_refl | discriminate].
Qed.

Lemma lengthFactor_bounds (sentence : string) :
  (1 # 2 <= Analysis.lengthFactor sentence <= 1)%Q.
Proof.
  unfold Analysis.lengthFactor.
  set (len := inject_Z (Z.of_nat (String.length (Js.toLowerCase sentence)))).
  set (d := (Qabs (len - 100) / 100)%Q).
  assert (Hd : (0 <= d)%Q).
  { unfold d. apply Qle_shift_div_l; [reflexivity|].
    rewrite Qmult_0_l. apply Qabs_nonneg. }
  assert (Hhi : (Qmin d (1 # 2) <= 1 # 2)%Q) by apply Q.le_min_r.
  assert (Hlo : (0 <= Qmin d (1 # 2))%Q).
  { apply Q.min_glb; [exact Hd | discriminate]. }
  split; lra.
Qed.

End Scores.

(** C10.  Whatever the sentence and the query, the relevance of a sentence
    lies between 0.15 and 1, and the length factor is at least 0.5: a
    sentence without any matching token still scores 0.15 or more. *)
Theorem calculateSentenceRelevance_bounds (sentence query : string) :
  (15 # 100 <= Analysis.calculateSentenceRelevance sentence query <= 1)%Q
  /\ (1 # 2 <= Analysis.lengthFactor sentence)%Q
  /\ (0 < Analysis.calculateSentenceRelevance sentence query)%Q.
Proof.
  pose proof (matchPercentage_bounds sentence query) as [Hm0 Hm1].
  pose proof (lengthFactor_bounds sentence) as [Hl0 Hl1].
  unfold Analysis.calculateSentenceRelevance.
  repeat split; try exact Hl0; lra.
Qed.

(** ** The session store *)

Section Store.
Import Js Types DeepResearch.

Lemma findResearch_Some (tool : Tool) (key : string) (r : ResearchData) :
  key <> EmptyString ->
  researches tool !! key = Some r ->
  findResearch tool (Some key) = Some (key, r).
Proof.
  intros Hk Hr. unfold findResearch.
  destruct key as [|c k]; [congruence|]. simpl. rewrite Hr. reflexivity.
Qed.

Lemma actionOf_Some (params : Params) (name : string) :
  name <> EmptyString -> action params = Some name -> actionOf params = name.
Proof.
  intros Hn Ha. unfold actionOf. rewrite Ha.
  destruct name; [congruence | reflexivity].
Qed.

Lemma truthy_Some (s : string) : s <> EmptyString -> truthy (Some s) = true.
Proof. destruct s; [congruence | reflexivity]. Qed.

End Store.

Lemma execute_report (env : DeepResearch.Env)
    (params : DeepResearch.Params) (tool : DeepResearch.Tool) (key : string) :
  key <> EmptyString ->
  DeepResearch.researchId params = Some key ->
  DeepResearch.action params = Some "report" ->
  DeepResearch.execute env params tool
  = DeepResearch.generateReport params tool.
Proof.
  intros Hk Hid Hact. unfold DeepResearch.execute.
  rewrite Hid, (truthy_Some key Hk), andb_false_r.
  rewrite (actionOf_Some params "report") by (congruence || exact Hact).
  reflexivity.
Qed.

Lemma generateReport_found (params : DeepResearch.Params)
    (tool : DeepResearch.Tool) (key : string) (r : Types.ResearchData) :
  DeepResearch.findResearch tool (DeepResearch.researchId params)
  = Some (key, r) ->
  DeepResearch.generateReport params tool
  = (Js.Resolved
       (if Types.ResearchStatus_eqb (Types.status r) Types.COMPLETED then
          DeepResearch.success
            (DeepResearch.Report key (Types.question r) (Types.report r)
               (List.length (Types.subQuestions r))
               (List.length (Types.steps r))
               (Types.startTime r) (Types.endTime r)
               (DeepResearch.durationOf r))
        else DeepResearch.error "Research is not yet completed"),
     tool).
Proof.
  intros Hf. unfold DeepResearch.generateReport. rewrite Hf.
  destruct (Types.ResearchStatus_eqb (Types.status r) Types.COMPLETED);
    reflexivity.
Qed.

Lemma durationOf_seconds (r : Types.ResearchData) :
  DeepResearch.durationOf r
  = option_map (fun e => (inject_Z (e - Types.startTime r) / 1000)%Q)
      (Types.endTime r).
Proof. unfold DeepResearch.durationOf. destruct (Types.endTime r); reflexivity. Qed.

(** C7, as the code has it.  For a session stored under a non-empty
    identifier, the report operation returns the error "Research is not
    yet completed" whenever the status is not COMPLETED; otherwise it
    returns the stored report, and the duration is
    (endTime - startTime) / 1000: the difference of the two time stamps,
    which are in milliseconds, expressed in seconds.  The store is left as
    it is. *)
Theorem generateReport_spec (env : DeepResearch.Env)
    (params : DeepResearch.Params) (tool : DeepResearch.Tool)
    (key : string) (r : Types.ResearchData) :
  key <> EmptyString ->
  DeepResearch.researches tool !! key = Some r ->
  DeepResearch.researchId params = Some key ->
  DeepResearch.action params = Some "report" ->
  DeepResearch.execute env params tool
  = (Js.Resolved
       (if Types.ResearchStatus_eqb (Types.status r) Types.COMPLETED then
          DeepResearch.success
            (DeepResearch.Report key (Types.question r) (Types.report r)
               (List.length (Types.subQuestions r))
               (List.length (Types.steps r))
               (Types.startTime r) (Types.endTime r)
               (option_map
                  (fun e => (inject_Z (e - Types.startTime r) / 1000)%Q)
                  (Types.endTime r)))
        else DeepResearch.error "Research is not yet completed"),
     tool).
Proof.
  intros Hk Hr Hid Hact.
  rewrite (execute_report env params tool key Hk Hid Hact).
  rewrite (generateReport_found params tool key r).
  - rewrite durationOf_seconds. reflexivity.
  - rewrite Hid. apply findResearch_Some; assumption.
Qed.

Lemma generateReport_spec_witness :
  DeepResearch.execute (Sample.env 5 Sample.found)
    (Sample.call "report" "u0-0") Sample.finished
  = (Js.Resolved
       (DeepResearch.success
          (DeepResearch.Report "u0-0" (Some "solar")
             (Types.report Sample.finishedSession) 1 4 0%Z (Some 4001%Z)
             (Some (4001 # 1000)%Q))),
     Sample.finished).
Proof.
  apply (generateReport_spec (Sample.env 5 Sample.found)
           (Sample.call "report" "u0-0") Sample.finished "u0-0"
           Sample.finishedSession).
  - discriminate.
  - vm_compute. reflexivity.
  - reflexivity.
  - reflexivity.
Defined.

(** C7, as the specification words it, fails: for the session of [Sample.finished],
    started at 0 and ended at 4001, the duration returned is 4001 / 1000
    and not 4001. *)
Lemma generateReport_duration_counterexample :
  exists rid q text n m d,
    fst (DeepResearch.execute (Sample.env 5 Sample.found)
           (Sample.call "report" "u0-0") Sample.finished)
    = Js.Resolved
        (DeepResearch.success
           (DeepResearch.Report rid q text n m 0%Z (Some 4001%Z) (Some d)))
    /\ (d == 4001 # 1000)%Q
    /\ ~ (d == inject_Z (4001 - 0))%Q.
Proof.
  do 6 eexists. split; [vm_compute; reflexivity|].
  split; [reflexivity | discriminate].
Qed.

(** C8, as the code has it.  For a session stored under a non-empty
    identifier whose status is COMPLETED, a continue operation returns a
    success response that carries the identifier, the question, the status
    and the message "Research is already completed", and neither a report
    nor a preview of it.  The tool after the call is the tool before it:
    no step is appended and no field of the session changes.  The report
    operation returns the stored report after the call as before it. *)
Theorem continue_completed_noop (env : DeepResearch.Env)
    (params : DeepResearch.Params) (tool : DeepResearch.Tool)
    (key : string) (r : Types.ResearchData) :
  key <> EmptyString ->
  DeepResearch.researches tool !! key = Some r ->
  Types.status r = Types.COMPLETED ->
  DeepResearch.researchId params = Some key ->
  DeepResearch.action params = Some "continue" ->
  let after := snd (DeepResearch.execute env params tool) in
  let reportCall :=
    {| DeepResearch.query := None; DeepResearch.maxSubQuestions := None;
       DeepResearch.researchId := Some key;
       DeepResearch.action := Some "report" |} in
  fst (DeepResearch.execute env params tool)
  = Js.Resolved
      (DeepResearch.success
         (DeepResearch.AlreadyCompleted key (Types.question r)
            Types.COMPLETED "Research is already completed"))
  /\ Observe.returnedReport (fst (DeepResearch.execute env params tool)) = None
  /\ Observe.returnedPreview (fst (DeepResearch.execute env params tool)) = None
  /\ after = tool
  /\ DeepResearch.researches after !! key = Some r
  /\ (forall env',
        DeepResearch.execute env' reportCall after
        = DeepResearch.execute env' reportCall tool
        /\ fst (DeepResearch.execute env' reportCall after)
           = Js.Resolved
               (DeepResearch.success
                  (DeepResearch.Report key (Types.question r)
                     (Types.report r)
                     (List.length (Types.subQuestions r))
                     (List.length (Types.steps r))
                     (Types.startTime r) (Types.endTime r)
                     (option_map
                        (fun e => (inject_Z (e - Types.startTime r) / 1000)%Q)
                        (Types.endTime r))))).
Proof.
  intros Hk Hr Hs Hid Hact after reportCall.
  assert (E : DeepResearch.execute env params tool
              = (Js.Resolved
                   (DeepResearch.success
                      (DeepResearch.AlreadyCompleted key (Types.question r)
                         Types.COMPLETED "Research is already completed")),
                 tool)).
  { unfold DeepResearch.execute.
    rewrite Hid, (truthy_Some key Hk), andb_false_r.
    rewrite (actionOf_Some params "continue") by (congruence || exact Hact).
    cbn [String.eqb Ascii.eqb Bool.eqb].
    unfold DeepResearch.continueResearch.
    rewrite Hid, (findResearch_Some tool key r Hk Hr), Hs.
    reflexivity. }
  subst after. rewrite E. cbn [fst snd].
  repeat split; try assumption.
  rewrite (execute_report env' reportCall tool key Hk eq_refl eq_refl).
  rewrite (generateReport_found reportCall tool key r)
    by (apply findResearch_Some; assumption).
  rewrite Hs, durationOf_seconds. reflexivity.
Qed.

Lemma continue_completed_noop_witness :
  fst (DeepResearch.execute (Sample.env 5 Sample.found)
         (Sample.call "continue" "u0-0") Sample.finished)
  = Js.Resolved
      (DeepResearch.success
         (DeepResearch.AlreadyCompleted "u0-0" (Some "solar")
            Types.COMPLETED "Research is already completed"))
  /\ snd (DeepResearch.execute (Sample.env 5 Sample.found)
            (Sample.call "continue" "u0-0") Sample.finished)
     = Sample.finished.
Proof.
  pose proof (continue_completed_noop (Sample.env 5 Sample.found)
                (Sample.call "continue" "u0-0") Sample.finished "u0-0"
                Sample.finishedSession) as H.
  destruct H as (H1 & _ & _ & H2 & _).
  - discriminate.
  - vm_compute. reflexivity.
  - reflexivity.
  - reflexivity.
  - reflexivity.
  - split; [exact H1 | exact H2].
Defined.

(** C8, as the specification words it, fails on its last part.  The session of
    [Sample.finished] is completed and has a report; the continue
    operation on it returns the message only, without the report. *)
Lemma continue_completed_counterexample :
  DeepResearch.researches Sample.finished !! "u0-0"
  = Some Sample.finishedSession
  /\ Types.status Sample.finishedSession = Types.COMPLETED
  /\ (exists text,
        Types.report Sample.finishedSession = Some text
        /\ Js.isEmpty text = false)
  /\ fst (DeepResearch.execute (Sample.env 5 Sample.found)
            (Sample.call "continue" "u0-0") Sample.finished)
     = Js.Resolved
         (DeepResearch.success
            (DeepResearch.AlreadyCompleted "u0-0" (Some "solar")
               Types.COMPLETED "Research is already completed"))
  /\ Observe.returnedReport
       (fst (DeepResearch.execute (Sample.env 5 Sample.found)
               (Sample.call "continue" "u0-0") Sample.finished))
     <> Types.report Sample.finishedSession.
Proof.
  split; [vm_compute; reflexivity|]. split; [reflexivity|].
  split; [eexists; split; reflexivity|].
  split; [vm_compute; reflexivity|].
  vm_compute. discriminate.
Qed.

(** C9.  A start request without a query is to be answered with an error
    response, and no session is to be created.  The code does otherwise
    at the request [{ researchId: "abc" }] (no query, no action): the
    guard of [execute] lets it through, because a researchId is there, and
    the default action is start.  [startResearch] stores a new session and
    then fails in [analyzeQuestion]: the promise is rejected with a
    TypeError, and the session stays in the store, in status PLANNING and
    without a question. *)
Lemma start_without_query_creates_session :
  DeepResearch.researches Sample.tool0 = ∅
  /\ fst (DeepResearch.execute (Sample.env 0 Sample.found)
            Sample.startWithoutQuery Sample.tool0)
     = Js.Rejected "Cannot read properties of undefined (reading 'replace')"
  /\ DeepResearch.researches
       (snd (DeepResearch.execute (Sample.env 0 Sample.found)
               Sample.startWithoutQuery Sample.tool0))
     !! "u0-0"
     = Some
         {| Types.id := "u0-0"; Types.question := None;
            Types.subQuestions := [];
            Types.steps :=
              [ {| Types.step_id := "u0-1";
                   Types.step_type := Types.QUESTION_ANALYSIS;
                   Types.step_content :=
                     "Analyzing question: " ++ Js.dquote ++ "undefined"
                     ++ Js.dquote;
                   Types.step_timestamp := 1 |} ];
            Types.status := Types.PLANNING; Types.report := None;
            Types.startTime := 0; Types.endTime := None |}.
Proof.
  split; [reflexivity|]. split; vm_compute; reflexivity.
Qed.

(** ** One step of a session *)

Section Steps.
Import Js Types DeepResearch Observe.

Lemma findPending_Some (l : list SubQuestion) (i : nat) :
  findPending l = Some i ->
  exists sq, l !! i = Some sq /\ sq_status sq = pending.
Proof.
  revert i. induction l as [|x l IH]; intros i H; simpl in H; [discriminate|].
  destruct (isPending x) eqn:E.
  - injection H as <-. exists x. split; [reflexivity|].
    unfold isPending in E. destruct (sq_status x); try discriminate. reflexivity.
  - destruct (findPending l) as [j|]; [|discriminate].
    injection H as <-. destruct (IH j eq_refl) as (sq & Hsq & Hp).
    exists sq. split; assumption.
Qed.

Lemma count_insert {A : Type} (P : A -> bool) (l : list A) (i : nat) (x y : A) :
  l !! i = Some x -> P x = false ->
  List.length (List.filter P (<[i := y]> l))
  = List.length (List.filter P l) + (if P y then 1 else 0).
Proof.
  revert i. induction l as [|a l IH]; intros i Hi Hx; [discriminate|].
  destruct i as [|i]; simpl in *.
  - injection Hi as ->. rewrite Hx. destruct (P y); simpl; lia.
  - specialize (IH i Hi Hx). destruct (P a); simpl; lia.
Qed.

Lemma subQuestions_updateLastStep (text : string) (r : ResearchData) :
  subQuestions (updateLastStep text r) = subQuestions r
  /\ status (updateLastStep text r) = status r.
Proof.
  unfold updateLastStep. destruct (List.rev (steps r)); split; reflexivity.
Qed.

Lemma updateSub_at (i : nat) (f : SubQuestion -> SubQuestion)
    (r : ResearchData) (sq : SubQuestion) :
  subQuestions r !! i = Some sq ->
  updateSub i f r = setSubQuestions (<[i := f sq]> (subQuestions r)) r.
Proof. intros H. unfold updateSub. rewrite H. reflexivity. Qed.

Lemma synthesizeResults_shape (env : Env) (key : string) (r : ResearchData)
    (tool : Tool) :
  ResearchStatus_eqb (status r) COMPLETED = false ->
  exists r2,
    snd (synthesizeResults env key r tool) = store tool key r2
    /\ subQuestions r2 = subQuestions r
    /\ rank (status r) <= rank (status r2)
    /\ 3 <= rank (status r2).
Proof.
  intros Hs. unfold synthesizeResults.
  destruct (match question (setStatus SYNTHESIZING (pushStep _ r)) with
            | Some q => _ | None => _ end) as [text|m].
  - eexists. split; [reflexivity|].
    cbn [snd subQuestions status setEndTime setStatus rank].
    split; [|split; [destruct (status r); simpl; lia | lia]].
    destruct (subQuestions_updateLastStep "Synthesized research results"
                (setReport text (setStatus SYNTHESIZING
                   (pushStep
                      {| step_id := uuidv4 env 0; step_type := SYNTHESIS;
                         step_content := "Synthesizing research results";
                         step_timestamp := now env 0 |} r)))) as [-> _].
    reflexivity.
  - eexists. split; [reflexivity|].
    cbn. split; [reflexivity|].
    split; [destruct (status r); simpl; (lia || discriminate) | lia].
Qed.

Lemma SubsAt_init (r0 : ResearchData) (i : nat) (sq : SubQuestion) :
  subQuestions r0 !! i = Some sq -> SubsAt r0 i sq r0.
Proof.
  intros H. repeat split.
  - symmetry. apply list_insert_id. exact H.
  - apply lookup_lt_Some in H. exact H.
Qed.

Lemma SubsAt_updateSub (r0 r : ResearchData) (i : nat) (x : SubQuestion)
    (f : SubQuestion -> SubQuestion) :
  SubsAt r0 i x r -> SubsAt r0 i (f x) (updateSub i f r).
Proof.
  intros (Hs & Hst & Hi).
  assert (Hx : subQuestions r !! i = Some x).
  { rewrite Hs. apply list_lookup_insert_eq. exact Hi. }
  rewrite (updateSub_at i f r x Hx). repeat split; try assumption.
  cbn [subQuestions setSubQuestions]. rewrite Hs.
  apply list_insert_insert_eq.
Qed.

Lemma SubsAt_pushStep (r0 r : ResearchData) (i : nat) (x : SubQuestion)
    (step : ResearchStep) :
  SubsAt r0 i x r -> SubsAt r0 i x (pushStep step r).
Proof. intros H. exact H. Qed.

Lemma SubsAt_updateLastStep (r0 r : ResearchData) (i : nat) (x : SubQuestion)
    (text : string) :
  SubsAt r0 i x r -> SubsAt r0 i x (updateLastStep text r).
Proof.
  intros (Hs & Hst & Hi).
  destruct (subQuestions_updateLastStep text r) as [E1 E2].
  repeat split; [rewrite E1 | rewrite E2 |]; assumption.
Qed.

Lemma continueResearch_shape (env : Env) (params : Params) (tool : Tool)
    (key : string) (r : ResearchData) :
  key <> EmptyString ->
  researches tool !! key = Some r ->
  researchId params = Some key ->
  (status r = COMPLETED /\ snd (continueResearch env params tool) = tool)
  \/ (exists r2,
        snd (continueResearch env params tool) = store tool key r2
        /\ Continued r (fst (continueResearch env params tool)) r2).
Proof.
  intros Hk Hr Hid. unfold continueResearch.
  rewrite Hid, (findResearch_Some tool key r Hk Hr).
  destruct (ResearchStatus_eqb (status r) COMPLETED) eqn:Es.
  { left. split; [destruct (status r); try discriminate; reflexivity|].
    reflexivity. }
  right.
  destruct (findPending (subQuestions r)) as [i|] eqn:Ef.
  - destruct (findPending_Some _ _ Ef) as (sq & Hsq & Hp).
    rewrite Hsq.
    pose proof (SubsAt_init r i sq Hsq) as H0.
    destruct (Search.performSearch (sq_question sq) (apiKey tool) 10 (http env))
      as [results|m].
    + eexists. split; [reflexivity|]. cbn [fst].
      match goal with
      | |- Continued r _ ?r2 =>
          assert (H : SubsAt r i
                        (setSubStatus completed
                           (setAnalysis
                              (Analysis.analyzeResults results (sq_question sq))
                              (setSearchResults results
                                 (setSubStatus in_progress sq)))) r2)
      end.
      { repeat first [ apply SubsAt_updateSub | apply SubsAt_updateLastStep
                     | apply SubsAt_pushStep ]. exact H0. }
      destruct H as (Hs & Hst & _).
      eapply (ContinuedSearch r _ _ i sq); try eassumption. reflexivity.
    + eexists. split; [reflexivity|]. cbn [fst].
      match goal with
      | |- Continued r _ ?r2 =>
          assert (H : SubsAt r i (setSubStatus in_progress sq) r2)
      end.
      { repeat first [ apply SubsAt_updateSub | apply SubsAt_updateLastStep
                     | apply SubsAt_pushStep ]. exact H0. }
      destruct H as (Hs & Hst & _).
      eapply (ContinuedSearch r _ _ i sq); try eassumption. reflexivity.
  - destruct (synthesizeResults_shape env key r tool Es) as (r2 & E & Hs & Hrk & _).
    exists r2. split; [exact E|].
    apply ContinuedSynthesis; assumption.
Qed.

Lemma execute_continue (env : Env) (params : Params) (tool : Tool)
    (key : string) :
  key <> EmptyString ->
  researchId params = Some key ->
  action params = Some "continue" ->
  execute env params tool = continueResearch env params tool.
Proof.
  intros Hk Hid Hact. unfold execute.
  rewrite Hid, (truthy_Some key Hk), andb_false_r.
  rewrite (actionOf_Some params "continue") by (congruence || exact Hact).
  reflexivity.
Qed.

Lemma imap_none_in_progress {A : Type} (f : nat -> A -> SubQuestion)
    (l : list A) :
  (forall i x, isInProgress (f i x) = false) ->
  List.filter isInProgress (imap f l) = [].
Proof.
  revert f. induction l as [|x l IH]; intros f Hf; [reflexivity|].
  cbn [imap List.filter]. rewrite Hf. apply IH. intros i y. apply Hf.
Qed.

Lemma startResearch_shape (env : Env) (params : Params) (tool : Tool) :
  exists r2,
    snd (startResearch env params tool) = store tool (uuidv4 env 0) r2
    /\ inProgressCount r2 = 0.
Proof.
  unfold startResearch. destruct (query params) as [q|].
  - eexists. split; [reflexivity|].
    unfold inProgressCount. cbn [subQuestions setStatus].
    rewrite (proj1 (subQuestions_updateLastStep _ _)).
    cbn [subQuestions setSubQuestions].
    rewrite imap_none_in_progress; reflexivity.
  - eexists. split; reflexivity.
Qed.

(** The effect of one call on the store: none, a new session under the
    identifier drawn, or a continue on a stored session. *)
Lemma execute_effect (env : Env) (params : Params) (tool : Tool) :
  snd (execute env params tool) = tool
  \/ (actionOf params = "start"
      /\ exists r2,
           snd (execute env params tool) = store tool (uuidv4 env 0) r2
           /\ inProgressCount r2 = 0)
  \/ (exists key r r2,
        researches tool !! key = Some r
        /\ snd (execute env params tool) = store tool key r2
        /\ Continued r (fst (execute env params tool)) r2).
Proof.
  unfold execute.
  destruct (negb (truthy (query params)) && negb (truthy (researchId params)));
    [left; reflexivity|].
  destruct (String.eqb (actionOf params) "start") eqn:E1.
  { right; left. split; [apply String.eqb_eq; exact E1|].
    apply startResearch_shape. }
  destruct (String.eqb (actionOf params) "status").
  { left. unfold getResearchStatus.
    destruct (findResearch tool (researchId params)) as [[k r]|]; reflexivity. }
  destruct (String.eqb (actionOf params) "continue").
  { destruct (researchId params) as [key|] eqn:Hid;
      [|left; unfold continueResearch; rewrite Hid; reflexivity].
    destruct (String.eqb key EmptyString) eqn:Ek.
    { apply String.eqb_eq in Ek. subst key. left.
      unfold continueResearch. rewrite Hid. reflexivity. }
    apply String.eqb_neq in Ek.
    destruct (researches tool !! key) as [r|] eqn:Hr.
    - destruct (continueResearch_shape env params tool key r Ek Hr Hid)
        as [[_ H]|(r2 & H1 & H2)].
      + left. exact H.
      + right; right. exists key, r, r2. repeat split; assumption.
    - left. unfold continueResearch, findResearch. rewrite Hid.
      destruct key; [congruence|]. cbn [isEmpty]. rewrite Hr. reflexivity. }
  destruct (String.eqb (actionOf params) "report"); [|left; reflexivity].
  left. unfold generateReport.
  destruct (findResearch tool (researchId params)) as [[k r]|]; [|reflexivity].
  destruct (negb (ResearchStatus_eqb (status r) COMPLETED)); reflexivity.
Qed.

Lemma Continued_count (r r2 : ResearchData) (o : Outcome MCPToolResponse) :
  Continued r o r2 ->
  inProgressCount r2
  <= inProgressCount r + (if isRejected o then 1 else 0).
Proof.
  intros [Hf Hs _|i sq sq2 Hf Hsq Hp Hs _ Hst]; unfold inProgressCount.
  - rewrite Hs. lia.
  - rewrite Hs. rewrite (count_insert isInProgress _ i sq sq2 Hsq).
    + unfold isInProgress at 2. rewrite Hst.
      destruct (isRejected o); simpl; lia.
    + unfold isInProgress. rewrite Hp. reflexivity.
Qed.

Lemma Continued_rank (r r2 : ResearchData) (o : Outcome MCPToolResponse) :
  Continued r o r2 -> rank (status r) <= rank (status r2).
Proof.
  intros [_ _ H|i sq sq2 _ _ _ _ Hst _]; [exact H | rewrite Hst; lia].
Qed.

Lemma Continued_stuck (r r2 : ResearchData) (o : Outcome MCPToolResponse)
    (j : nat) (x : SubQuestion) :
  Continued r o r2 ->
  subQuestions r !! j = Some x -> sq_status x = in_progress ->
  subQuestions r2 !! j = Some x.
Proof.
  intros [_ Hs _|i sq sq2 _ Hsq Hp Hs _ _] Hj Hx; rewrite Hs; [exact Hj|].
  rewrite list_lookup_insert_ne; [exact Hj|].
  intros ->. rewrite Hsq in Hj. injection Hj as ->. congruence.
Qed.

Lemma step_count (env : Env) (params : Params) (tool : Tool) (bound : nat) :
  (forall key r, researches tool !! key = Some r -> inProgressCount r <= bound) ->
  forall key r,
    researches (snd (execute env params tool)) !! key = Some r ->
    inProgressCount r
    <= bound + (if isRejected (fst (execute env params tool)) then 1 else 0).
Proof.
  intros Hb key r.
  destruct (execute_effect env params tool)
    as [E|[(_ & r2 & E & Hc)|(k & r0 & r2 & Hr0 & E & Hc)]]; rewrite E.
  - intros H. specialize (Hb key r H). lia.
  - cbn [researches store]. destruct (decide (uuidv4 env 0 = key)) as [->|Hne].
    + rewrite lookup_insert_eq. intros [= <-]. lia.
    + rewrite lookup_insert_ne by exact Hne. intros H.
      specialize (Hb key r H). lia.
  - cbn [researches store]. destruct (decide (k = key)) as [->|Hne].
    + rewrite lookup_insert_eq. intros [= <-].
      pose proof (Continued_count _ _ _ Hc). specialize (Hb key r0 Hr0). lia.
    + rewrite lookup_insert_ne by exact Hne. intros H.
      specialize (Hb key r H). lia.
Qed.

Lemma step_rank (env : Env) (params : Params) (tool : Tool) :
  freshCall tool (env, params) = true ->
  forall key r,
    researches tool !! key = Some r ->
    exists r',
      researches (snd (execute env params tool)) !! key = Some r'
      /\ rank (status r) <= rank (status r').
Proof.
  intros Hfresh key r Hr.
  destruct (execute_effect env params tool)
    as [E|[(Ha & r2 & E & _)|(k & r0 & r2 & Hr0 & E & Hc)]]; rewrite E.
  - exists r. split; [exact Hr | lia].
  - unfold freshCall in Hfresh. cbn [fst snd] in Hfresh.
    rewrite Ha in Hfresh. cbn in Hfresh.
    destruct (researches tool !! uuidv4 env 0) eqn:Hu; [discriminate|].
    exists r. split; [|lia]. cbn [researches store].
    rewrite lookup_insert_ne; [exact Hr|]. intros Heq.
    rewrite Heq in Hu. congruence.
  - cbn [researches store]. destruct (decide (k = key)) as [->|Hne].
    + exists r2. rewrite lookup_insert_eq. split; [reflexivity|].
      rewrite Hr in Hr0. injection Hr0 as <-.
      exact (Continued_rank _ _ _ Hc).
    + exists r. rewrite lookup_insert_ne by exact Hne. split; [exact Hr | lia].
Qed.

Lemma run_cons (tool : Tool) (env : Env) (params : Params)
    (rest : list (Env * Params)) :
  run tool ((env, params) :: rest)
  = (fst (execute env params tool)
       :: fst (run (snd (execute env params tool)) rest),
     snd (run (snd (execute env params tool)) rest)).
Proof.
  cbn [run]. destruct (execute env params tool) as [o t]. cbn [fst snd].
  destruct (run t rest). reflexivity.
Qed.

Lemma run_count (calls : list (Env * Params)) :
  forall (tool : Tool) (bound : nat),
    (forall key r,
        researches tool !! key = Some r -> inProgressCount r <= bound) ->
    forall key r,
      researches (snd (run tool calls)) !! key = Some r ->
      inProgressCount r <= bound + rejections (fst (run tool calls)).
Proof.
  induction calls as [|[env params] rest IH]; intros tool bound Hb key r.
  - cbn. intros H. specialize (Hb key r H). lia.
  - rewrite run_cons. cbn [fst snd]. intros H.
    pose proof (IH (snd (execute env params tool))
                  (bound + (if isRejected (fst (execute env params tool))
                            then 1 else 0))
                  (step_count env params tool bound Hb) key r H) as IH'.
    unfold rejections in *. cbn [List.filter].
    destruct (isRejected (fst (execute env params tool))); cbn [List.length]; lia.
Qed.

Lemma rejections_failures (outcomes : list (Outcome MCPToolResponse)) :
  rejections outcomes <= failures outcomes.
Proof.
  unfold rejections, failures.
  induction outcomes as [|o rest IH]; [reflexivity|]. cbn [List.filter].
  destruct o as [[r|m]|m]; cbn [isRejected isSuccess negb List.length]; lia.
Qed.

Lemma run_rank (calls : list (Env * Params)) :
  forall tool : Tool,
    freshCalls tool calls = true ->
    forall key r,
      researches tool !! key = Some r ->
      exists r',
        researches (snd (run tool calls)) !! key = Some r'
        /\ rank (status r) <= rank (status r').
Proof.
  induction calls as [|[env params] rest IH]; intros tool Hf key r Hr.
  - exists r. split; [exact Hr | lia].
  - cbn [freshCalls fst snd] in Hf. apply andb_prop in Hf as [Hf1 Hf2].
    destruct (step_rank env params tool Hf1 key r Hr) as (r1 & Hr1 & Hle1).
    destruct (IH _ Hf2 key r1 Hr1) as (r2 & Hr2 & Hle2).
    exists r2. rewrite run_cons. cbn [snd]. split; [exact Hr2 | lia].
Qed.

Lemma run_app (before after : list (Env * Params)) :
  forall tool : Tool,
    snd (run tool (before ++ after)) = snd (run (snd (run tool before)) after).
Proof.
  induction before as [|[env params] rest IH]; intros tool; [reflexivity|].
  rewrite <- app_comm_cons, !run_cons. cbn [snd]. apply IH.
Qed.

Lemma freshCalls_app (before after : list (Env * Params)) :
  forall tool : Tool,
    freshCalls tool (before ++ after) = true ->
    freshCalls (snd (run tool before)) after = true.
Proof.
  induction before as [|[env params] rest IH]; intros tool H; [exact H|].
  rewrite <- app_comm_cons in H. cbn [freshCalls fst snd] in H.
  apply andb_prop in H as [_ H]. rewrite run_cons. cbn [snd].
  apply IH. exact H.
Qed.

Lemma step_stuck (env : Env) (params : Params) (tool : Tool) :
  freshCall tool (env, params) = true ->
  forall key r j x,
    researches tool !! key = Some r ->
    subQuestions r !! j = Some x -> sq_status x = in_progress ->
    exists r',
      researches (snd (execute env params tool)) !! key = Some r'
      /\ subQuestions r' !! j = Some x.
Proof.
  intros Hfresh key r j x Hr Hj Hx.
  destruct (execute_effect env params tool)
    as [E|[(Ha & r2 & E & _)|(k & r0 & r2 & Hr0 & E & Hc)]]; rewrite E.
  - exists r. split; assumption.
  - unfold freshCall in Hfresh. cbn [fst snd] in Hfresh.
    rewrite Ha in Hfresh. cbn in Hfresh.
    destruct (researches tool !! uuidv4 env 0) eqn:Hu; [discriminate|].
    exists r. split; [|exact Hj]. cbn [researches store].
    rewrite lookup_insert_ne; [exact Hr|]. intros Heq.
    rewrite Heq in Hu. congruence.
  - cbn [researches store]. destruct (decide (k = key)) as [->|Hne].
    + exists r2. rewrite lookup_insert_eq. split; [reflexivity|].
      rewrite Hr in Hr0. injection Hr0 as <-.
      exact (Continued_stuck _ _ _ j x Hc Hj Hx).
    + exists r. rewrite lookup_insert_ne by exact Hne. split; assumption.
Qed.

Lemma run_stuck (calls : list (Env * Params)) :
  forall tool : Tool,
    freshCalls tool calls = true ->
    forall key r j x,
      researches tool !! key = Some r ->
      subQuestions r !! j = Some x -> sq_status x = in_progress ->
      exists r',
        researches (snd (run tool calls)) !! key = Some r'
        /\ subQuestions r' !! j = Some x.
Proof.
  induction calls as [|[env params] rest IH]; intros tool Hf key r j x Hr Hj Hx.
  - exists r. split; assumption.
  - cbn [freshCalls fst snd] in Hf. apply andb_prop in Hf as [Hf1 Hf2].
    destruct (step_stuck env params tool Hf1 key r j x Hr Hj Hx)
      as (r1 & Hr1 & Hj1).
    destruct (IH _ Hf2 key r1 j x Hr1 Hj1 Hx) as (r2 & Hr2 & Hj2).
    exists r2. rewrite run_cons. cbn [snd]. split; assumption.
Qed.

End Steps.

(** C1, as the code has it.  When the search of a continue operation
    fails, [continueResearch] fails with the error of [performSearch]; the
    session keeps the search step that was pushed, and the sub-question
    that was being searched stays 'in-progress'.  Whatever is called
    afterwards (every start drawing an identifier that is not in use),
    that sub-question is left as it is: no later continue searches it
    again.  ([analyzeResults] does not throw on what [performSearch]
    returns.) *)
Theorem failed_search_stays_in_progress (env : DeepResearch.Env)
    (params : DeepResearch.Params) (tool : DeepResearch.Tool)
    (key : string) (r : Types.ResearchData) (i : nat)
    (sq : Types.SubQuestion) (m : string) :
  key <> EmptyString ->
  DeepResearch.researches tool !! key = Some r ->
  Types.status r <> Types.COMPLETED ->
  DeepResearch.findPending (Types.subQuestions r) = Some i ->
  Types.subQuestions r !! i = Some sq ->
  Search.performSearch (Types.sq_question sq) (DeepResearch.apiKey tool) 10
    (DeepResearch.http env) = Js.Rejected m ->
  DeepResearch.researchId params = Some key ->
  DeepResearch.action params = Some "continue" ->
  let stuck := DeepResearch.setSubStatus Types.in_progress sq in
  let tool1 := snd (DeepResearch.execute env params tool) in
  fst (DeepResearch.continueResearch env params tool) = Js.Rejected m
  /\ DeepResearch.researches tool1 !! key
     = Some
         (DeepResearch.pushStep
            (Observe.searchStepOf env (Types.sq_question sq))
            (DeepResearch.setSubQuestions
               (<[i := stuck]> (Types.subQuestions r)) r))
  /\ forall later : list (DeepResearch.Env * DeepResearch.Params),
       Observe.freshCalls tool1 later = true ->
       exists r2,
         DeepResearch.researches (snd (DeepResearch.run tool1 later)) !! key
         = Some r2
         /\ Types.subQuestions r2 !! i = Some stuck.
Proof.
  intros Hk Hr Hs Hf Hsq Hp Hid Hact stuck tool1.
  assert (E : DeepResearch.execute env params tool
              = (Js.Rejected m,
                 DeepResearch.store tool key
                   (DeepResearch.pushStep
                      (Observe.searchStepOf env (Types.sq_question sq))
                      (DeepResearch.setSubQuestions
                         (<[i := stuck]> (Types.subQuestions r)) r)))).
  { rewrite (execute_continue env params tool key Hk Hid Hact).
    unfold DeepResearch.continueResearch.
    rewrite Hid, (findResearch_Some tool key r Hk Hr).
    replace (Types.ResearchStatus_eqb (Types.status r) Types.COMPLETED)
      with false
      by (destruct (Types.status r) eqn:Est; try reflexivity; congruence).
    rewrite Hf, Hsq, Hp.
    rewrite (updateSub_at i _ r sq Hsq). reflexivity. }
  assert (H1 : DeepResearch.researches tool1 !! key
               = Some
                   (DeepResearch.pushStep
                      (Observe.searchStepOf env (Types.sq_question sq))
                      (DeepResearch.setSubQuestions
                         (<[i := stuck]> (Types.subQuestions r)) r))).
  { subst tool1. rewrite E. cbn [snd DeepResearch.researches DeepResearch.store].
    apply lookup_insert_eq. }
  split.
  { rewrite <- (execute_continue env params tool key Hk Hid Hact), E.
    reflexivity. }
  split; [exact H1|].
  intros later Hfresh.
  apply (run_stuck later tool1 Hfresh key _ i stuck H1); [|reflexivity].
  cbn. apply list_lookup_insert_eq. apply lookup_lt_Some in Hsq. exact Hsq.
Qed.

Lemma failed_search_stays_in_progress_witness :
  fst (DeepResearch.continueResearch (Sample.env 1 Sample.timeout)
         (Sample.call "continue" "u0-0") Sample.started)
  = Js.Rejected "Failed to perform search: timeout"
  /\ exists r2,
       DeepResearch.researches
         (snd (DeepResearch.run
                 (snd (DeepResearch.execute (Sample.env 1 Sample.timeout)
                         (Sample.call "continue" "u0-0") Sample.started))
                 Sample.thenSuccess))
       !! "u0-0" = Some r2
       /\ Types.subQuestions r2 !! 0
          = Some (Types.mkSub "u0-2" "Compare solar?" Types.in_progress
                    None None).
Proof.
  pose proof (failed_search_stays_in_progress
                (Sample.env 1 Sample.timeout)
                (Sample.call "continue" "u0-0") Sample.started "u0-0"
                Sample.startedSession 0
                (Types.mkSub "u0-2" "Compare solar?" Types.pending None None)
                "Failed to perform search: timeout") as H.
  destruct H as (H1 & _ & H3).
  - discriminate.
  - vm_compute. reflexivity.
  - discriminate.
  - reflexivity.
  - reflexivity.
  - reflexivity.
  - reflexivity.
  - reflexivity.
  - split; [exact H1 | exact (H3 Sample.thenSuccess eq_refl)].
Defined.

(** C1, as the specification words it, fails.  In the session on "Compare solar?"
    and "wind energy?", the search for the first sub-question fails.
    After the call the first sub-question is 'in-progress' and not
    'pending'; the next continue searches "wind energy?", and the first
    sub-question is 'in-progress' after it as well. *)
Lemma failed_search_counterexample :
  Search.performSearch "Compare solar?" "key" 10 Sample.timeout
  = Js.Rejected "Failed to perform search: timeout"
  /\ map Types.sq_status
       (Types.subQuestions (Sample.session Sample.started "u0-0"))
     = [Types.pending; Types.pending]
  /\ map Types.sq_status
       (Types.subQuestions
          (Sample.session
             (snd (DeepResearch.execute (Sample.env 1 Sample.timeout)
                     (Sample.call "continue" "u0-0") Sample.started))
             "u0-0"))
     = [Types.in_progress; Types.pending]
  /\ fst (DeepResearch.execute (Sample.env 2 Sample.found)
            (Sample.call "continue" "u0-0") Sample.failedOnce)
     = Js.Resolved
         (DeepResearch.success
            (DeepResearch.Progress "u0-0"
               (Some "Compare solar and wind energy") "wind energy?" 0
               Types.SEARCHING))
  /\ map Types.sq_status
       (Types.subQuestions
          (Sample.session
             (snd (DeepResearch.execute (Sample.env 2 Sample.found)
                     (Sample.call "continue" "u0-0") Sample.failedOnce))
             "u0-0"))
     = [Types.in_progress; Types.completed].
Proof. repeat split; vm_compute; reflexivity. Qed.

(** C2, as the specification words it, fails.  In the session on "Compare solar?"
    and "wind energy?", two searches fail one after the other; between
    the calls that follow, both sub-questions are 'in-progress'. *)
Lemma two_in_progress_counterexample :
  map Types.sq_status
    (Types.subQuestions (Sample.session Sample.failedTwice "u0-0"))
  = [Types.in_progress; Types.in_progress]
  /\ Observe.inProgressCount (Sample.session Sample.failedTwice "u0-0") = 2
  /\ ~ Observe.inProgressCount (Sample.session Sample.failedTwice "u0-0") <= 1.
Proof.
  assert (E : Observe.inProgressCount
                (Sample.session Sample.failedTwice "u0-0") = 2)
    by (vm_compute; reflexivity).
  split; [vm_compute; reflexivity | split; [exact E | rewrite E; lia]].
Qed.

(** ** Strings *)

Section Strings.
Import Js.

Lemma append_assoc (a b c : string) : (a ++ b) ++ c = a ++ (b ++ c).
Proof.
  induction a as [|x a IH]; simpl; [reflexivity | f_equal; exact IH].
Qed.

Lemma length_append (a b : string) :
  String.length (a ++ b) = String.length a + String.length b.
Proof.
  induction a as [|x a IH]; simpl; [reflexivity | f_equal; exact IH].
Qed.

Lemma prefix_append (a b : string) : String.prefix a (a ++ b) = true.
Proof.
  induction a as [|c a IH]; simpl; [destruct b; reflexivity|].
  destruct (ascii_dec c c); [exact IH | congruence].
Qed.

Lemma endsWith_append (a b : string) : endsWith (a ++ b) b = true.
Proof.
  induction a as [|c a IH]; simpl.
  - destruct b; simpl; [reflexivity|].
    rewrite Ascii.eqb_refl, String.eqb_refl. reflexivity.
  - rewrite IH. apply orb_true_r.
Qed.

Lemma lacks_removeChar (c : ascii) (s : string) : lacks c (removeChar c s) = true.
Proof.
  induction s as [|d r IH]; simpl; [reflexivity|].
  destruct (Ascii.eqb d c) eqn:E; simpl; [exact IH|].
  rewrite E, IH. reflexivity.
Qed.

Lemma lacks_trimStart (c : ascii) (s : string) :
  lacks c s = true -> lacks c (trimStart s) = true.
Proof.
  induction s as [|d r IH]; simpl; [reflexivity|]. intros H.
  apply andb_prop in H as [H1 H2].
  destruct (isWhiteSpace d); [apply IH; exact H2|].
  simpl. rewrite H1, H2. reflexivity.
Qed.

Lemma lacks_trimEnd (c : ascii) (s : string) :
  lacks c s = true -> lacks c (trimEnd s) = true.
Proof.
  induction s as [|d r IH]; simpl; [reflexivity|]. intros H.
  apply andb_prop in H as [H1 H2].
  destruct (isEmpty (trimEnd r) && isWhiteSpace d); [reflexivity|].
  simpl. rewrite H1, (IH H2). reflexivity.
Qed.

Lemma lacks_trim (c : ascii) (s : string) :
  lacks c s = true -> lacks c (trim s) = true.
Proof. intros H. apply lacks_trimEnd, lacks_trimStart, H. Qed.

End Strings.

(** ** The list of sources *)

Section Sources.
Import Js Types Synthesis Reference.

Lemma filter_filter_comm {A : Type} (p q : A -> bool) (l : list A) :
  List.filter p (List.filter q l) = List.filter q (List.filter p l).
Proof.
  induction l as [|x l IH]; [reflexivity|]. simpl.
  destruct (p x) eqn:Ep, (q x) eqn:Eq; simpl;
    rewrite ?Ep, ?Eq, IH; reflexivity.
Qed.

Lemma filter_id {A : Type} (p : A -> bool) (l : list A) :
  (forall x, In x l -> p x = true) -> List.filter p l = l.
Proof.
  induction l as [|x l IH]; intros H; [reflexivity|]. simpl.
  rewrite (H x (or_introl eq_refl)). f_equal. apply IH.
  intros y Hy. apply H. right. exact Hy.
Qed.

Lemma firstSeenBy_subset {A : Type} (key : A -> string) (l : list A) (x : A) :
  In x (firstSeenBy key l) -> In x l.
Proof.
  revert x. induction l as [|a l IH]; intros x; simpl; [tauto|].
  intros [->|H]; [left; reflexivity|].
  apply List.filter_In in H as [H _]. right. apply IH. exact H.
Qed.

(** [firstSeenBy] commutes with a filter that only looks at the key. *)
Lemma firstSeenBy_filter {A : Type} (key : A -> string) (p : A -> bool)
    (l : list A) :
  (forall x y, key x = key y -> p x = p y) ->
  firstSeenBy key (List.filter p l) = List.filter p (firstSeenBy key l).
Proof.
  intros Hp. induction l as [|a l IH]; [reflexivity|]. simpl.
  destruct (p a) eqn:Ea; simpl; rewrite ?Ea, IH.
  - f_equal. apply filter_filter_comm.
  - rewrite filter_filter_comm. symmetry. apply filter_id.
    intros y Hy. apply List.filter_In in Hy as [_ Hy].
    destruct (String.eqb (key y) (key a)) eqn:E; [|reflexivity].
    apply String.eqb_eq in E. rewrite (Hp y a E) in Hy. congruence.
Qed.

Lemma firstSeenBy_NoDup {A : Type} (key : A -> string) (l : list A) :
  List.NoDup (map key (firstSeenBy key l)).
Proof.
  induction l as [|a l IH]; simpl; [constructor|]. constructor.
  - intros H. apply List.in_map_iff in H as (y & Hy & Hin).
    apply List.filter_In in Hin as [_ Hne].
    rewrite Hy, String.eqb_refl in Hne. discriminate.
  - clear -IH. induction (firstSeenBy key l) as [|x t IHt]; [constructor|].
    simpl in *. inversion IH as [|? ? Hx Ht]; subst.
    destruct (negb (String.eqb (key x) (key a))); [|apply IHt; exact Ht].
    simpl. constructor; [|apply IHt; exact Ht].
    intros H. apply Hx. apply List.in_map_iff in H as (y & Hy & Hin).
    apply List.filter_In in Hin as [Hin _].
    apply List.in_map_iff. exists y. split; assumption.
Qed.

Lemma firstSeenBy_keys {A : Type} (key : A -> string) (l : list A) (k : string) :
  In k (map key (firstSeenBy key l)) <-> In k (map key l).
Proof.
  split.
  - intros H. apply List.in_map_iff in H as (y & Hy & Hin).
    apply List.in_map_iff. exists y. split; [exact Hy|].
    apply firstSeenBy_subset in Hin. exact Hin.
  - induction l as [|a l IH]; simpl; [tauto|].
    destruct (String.eqb k (key a)) eqn:E.
    + apply String.eqb_eq in E. intros _. left. symmetry. exact E.
    + intros [H|H]; [rewrite H, String.eqb_refl in E; discriminate|].
      right. apply IH in H. apply List.in_map_iff in H as (y & Hy & Hin).
      apply List.in_map_iff. exists y. split; [exact Hy|].
      apply List.filter_In. split; [exact Hin|].
      rewrite Hy, E. reflexivity.
Qed.

Lemma unseen_snoc (m : SourceMap) (r : SearchResult) (s : Source) :
  unseen (m ++ [(url r, sourceOf r)])%list s
  = unseen m s && negb (String.eqb (snd s) (snd (sourceOf r))).
Proof.
  unfold unseen, mapHas. rewrite List.existsb_app. cbn [existsb fst snd sourceOf].
  rewrite orb_false_r, negb_orb, (String.eqb_sym (url r)). reflexivity.
Qed.

Lemma filter_andb {A : Type} (p q : A -> bool) (l : list A) :
  List.filter (fun x => p x && q x) l = List.filter q (List.filter p l).
Proof.
  induction l as [|x l IH]; [reflexivity|]. simpl.
  destruct (p x); simpl; [destruct (q x)|]; rewrite IH; reflexivity.
Qed.

(** The loop over the results, against the reference: the values of the
    map are those it had, then the sources not yet in it, first seen
    first. *)
Lemma addSource_fold (results : list SearchResult) :
  forall m : SourceMap,
    map snd (fold_left addSource results m)
    = (map snd m
       ++ firstSeenBy snd (List.filter (unseen m) (map sourceOf results)))%list.
Proof.
  induction results as [|r rest IH]; intros m.
  - simpl. rewrite List.app_nil_r. reflexivity.
  - cbn [fold_left map List.filter].
    assert (Hu : unseen m (sourceOf r) = negb (mapHas m (url r)))
      by reflexivity.
    rewrite Hu. unfold addSource at 2.
    destruct (mapHas m (url r)) eqn:E; cbn [negb].
    + apply IH.
    + rewrite IH, List.map_app. cbn [map snd firstSeenBy].
      rewrite <- List.app_assoc. cbn [List.app]. do 2 f_equal.
      rewrite (List.filter_ext _ _ (unseen_snoc m r)), filter_andb.
      apply firstSeenBy_filter. intros x y Hxy. rewrite Hxy. reflexivity.
Qed.

Lemma addSources_fold (subQuestions : list SubQuestion) :
  forall m : SourceMap,
    fold_left addSources subQuestions m
    = fold_left addSource (flat_map resultsOf subQuestions) m.
Proof.
  induction subQuestions as [|sq rest IH]; intros m; [reflexivity|].
  cbn [fold_left flat_map]. rewrite List.fold_left_app, IH.
  unfold addSources, resultsOf. destruct (searchResults sq); reflexivity.
Qed.

Lemma citedSources_flat (subQuestions : list SubQuestion) :
  map sourceOf (flat_map resultsOf subQuestions) = citedSources subQuestions.
Proof.
  unfold citedSources. induction subQuestions as [|sq rest IH]; [reflexivity|].
  cbn [flat_map]. rewrite List.map_app, IH. reflexivity.
Qed.

Lemma collectSources_firstSeen (subQuestions : list SubQuestion) :
  map snd (collectSources subQuestions)
  = firstSeenBy snd (citedSources subQuestions).
Proof.
  unfold collectSources. rewrite addSources_fold, addSource_fold.
  cbn [map List.app]. rewrite filter_id, citedSources_flat; reflexivity.
Qed.

Lemma sectionOf_header (sq : SubQuestion) :
  String.prefix (sectionHeader (sq_question sq) ++ nl) (sectionOf sq) = true.
Proof.
  unfold sectionOf, generateSection.
  rewrite <- (append_assoc (sectionHeader (sq_question sq)) nl).
  apply prefix_append.
Qed.

End Sources.

(** C6, as the code has it.  For every main question and every list of
    sub-questions, with [done] the sub-questions that are 'completed' and
    have a non-empty analysis: on the empty list [synthesizeReport]
    returns the message "No research data available ..."; on a non-empty
    list without any such sub-question it returns the in-progress
    placeholder; otherwise it returns a text made of the title line, the
    introduction, the sections, the conclusion, and the line
    "## Sources" with the source lines behind it.  There is one section
    per sub-question of [done], in order: the header "## " followed by
    the question without "?" and trimmed, then the analysis, then the
    citations.  There is one source line per source of [done], numbered
    from 1; the sources are those of the results of [done], each URL once,
    in the order in which the URLs are first seen. *)
Theorem synthesizeReport_spec (mainQuestion : string)
    (subQuestions : list Types.SubQuestion) :
  let done :=
    List.filter
      (fun sq =>
         Types.SubStatus_eqb (Types.sq_status sq) Types.completed
         && Js.truthy (Types.analysis sq))
      subQuestions in
  match subQuestions, done with
  | [], _ =>
      Synthesis.synthesizeReport mainQuestion subQuestions
      = "No research data available for question: "
        ++ Js.dquote ++ mainQuestion ++ Js.dquote
  | _ :: _, [] =>
      Synthesis.synthesizeReport mainQuestion subQuestions
      = "Research is still in progress for question: "
        ++ Js.dquote ++ mainQuestion ++ Js.dquote
  | _ :: _, _ :: _ =>
      exists (introduction conclusion : string) (sections : list string)
             (sources : list Synthesis.Source),
        Synthesis.synthesizeReport mainQuestion subQuestions
        = Js.nl ++ "# Research Report: " ++ mainQuestion ++ Js.nl
          ++ Js.nl ++ "## Introduction" ++ Js.nl
          ++ introduction ++ Js.nl
          ++ Js.nl ++ Js.join (Js.nl ++ Js.nl) sections ++ Js.nl
          ++ Js.nl ++ "## Conclusion" ++ Js.nl
          ++ conclusion ++ Js.nl
          ++ Js.nl ++ "## Sources" ++ Js.nl
          ++ Js.join Js.nl
               (imap (fun index source =>
                        Js.showNat (index + 1) ++ ". " ++ fst source
                        ++ " - " ++ snd source)
                  sources)
          ++ Js.nl
        /\ Forall2
             (fun sq section =>
                exists citations,
                  section
                  = "## "
                    ++ Js.trim (Js.removeChar "?" (Types.sq_question sq))
                    ++ Js.nl ++ Js.nl
                    ++ Js.showOpt (Types.analysis sq)
                    ++ Js.nl ++ Js.nl ++ citations)
             done sections
        /\ Forall
             (fun sq =>
                Js.lacks "?"
                  (Js.trim (Js.removeChar "?" (Types.sq_question sq)))
                = true)
             done
        /\ sources
           = Reference.firstSeenBy snd (Reference.citedSources done)
        /\ List.NoDup (map snd sources)
        /\ (forall u : string,
              In u (map snd sources)
              <-> In u (map snd (Reference.citedSources done)))
  end.
Proof.
  intros done.
  change done with (List.filter Synthesis.isCompleted subQuestions).
  clear done. unfold Synthesis.synthesizeReport.
  destruct subQuestions as [|sq0 rest]; [reflexivity|].
  set (done := List.filter Synthesis.isCompleted (sq0 :: rest)).
  assert (Hdone : Forall (fun sq => Synthesis.isCompleted sq = true) done).
  { apply List.Forall_forall. intros sq H.
    apply List.filter_In in H. apply H. }
  destruct done as [|sq1 more] eqn:E; [reflexivity|]. rewrite <- E in *.
  clear E sq1 more.
  exists (Synthesis.generateIntroduction mainQuestion),
    (Synthesis.generateConclusion mainQuestion done),
    (map Synthesis.sectionOf done),
    (map snd (Synthesis.collectSources done)).
  assert (Hs : map snd (Synthesis.collectSources done)
               = Reference.firstSeenBy snd (Reference.citedSources done))
    by apply collectSources_firstSeen.
  split; [reflexivity|]. split; [|split; [|split; [exact Hs|split]]].
  - clear Hs.
    induction Hdone as [|sq l Hsq _ IH]; cbn [map]; [constructor|].
    constructor; [|exact IH].
    exists (Synthesis.generateCitations
              (match Types.analysis sq with
               | Some a => a
               | None => EmptyString
               end)
              (match Types.searchResults sq with
               | Some rs => rs
               | None => []
               end)).
    unfold Synthesis.isCompleted in Hsq.
    apply andb_true_iff in Hsq as [_ Hsq].
    unfold Synthesis.sectionOf, Synthesis.generateSection,
      Synthesis.sectionHeader, Synthesis.sectionTitle.
    destruct (Types.analysis sq) as [a|]; [|discriminate].
    cbn [Js.showOpt]. rewrite !append_assoc. reflexivity.
  - apply List.Forall_forall. intros sq _.
    apply lacks_trim, lacks_removeChar.
  - rewrite Hs. apply firstSeenBy_NoDup.
  - intros u. rewrite Hs. apply firstSeenBy_keys.
Qed.

(** C6, as the specification words it, fails on the empty list: no sub-question is
    completed, and what comes back is not the in-progress placeholder. *)
Lemma synthesizeReport_empty_counterexample :
  List.filter Synthesis.isCompleted [] = []
  /\ Synthesis.synthesizeReport "Is it so?" []
     = "No research data available for question: " ++ Js.dquote
       ++ "Is it so?" ++ Js.dquote
  /\ Synthesis.synthesizeReport "Is it so?" []
     <> Synthesis.inProgressMessage "Is it so?".
Proof.
  split; [reflexivity|]. split; [reflexivity|]. vm_compute. discriminate.
Qed.

(** ** The decomposition of a question *)

Section Decomposition.
Import Js Question.

Lemma append_nil_r (s : string) : s ++ EmptyString = s.
Proof. induction s as [|c s IH]; simpl; [reflexivity | f_equal; exact IH]. Qed.

Lemma removeChar_app (c : ascii) (a b : string) :
  removeChar c (a ++ b) = removeChar c a ++ removeChar c b.
Proof.
  induction a as [|d a IH]; simpl; [reflexivity|].
  destruct (Ascii.eqb d c); simpl; [exact IH | f_equal; exact IH].
Qed.

Lemma removeChar_lacks (c : ascii) (s : string) :
  lacks c s = true -> removeChar c s = s.
Proof.
  induction s as [|d s IH]; simpl; [reflexivity|]. intros H.
  apply andb_prop in H as [H1 H2]. apply negb_true_iff in H1.
  rewrite H1. f_equal. apply IH. exact H2.
Qed.

Lemma trimEnd_idem (s : string) : trimEnd (trimEnd s) = trimEnd s.
Proof.
  induction s as [|d s IH]; simpl; [reflexivity|].
  destruct (isEmpty (trimEnd s) && isWhiteSpace d) eqn:E; [reflexivity|].
  simpl. rewrite IH, E. reflexivity.
Qed.

Lemma isEmpty_append (a b : string) :
  isEmpty b = false -> isEmpty (a ++ b) = false.
Proof. destruct a; simpl; [tauto | reflexivity]. Qed.

Lemma trimEnd_app (a b : string) :
  isEmpty (trimEnd b) = false -> trimEnd (a ++ b) = a ++ trimEnd b.
Proof.
  intros Hb. induction a as [|d a IH]; simpl; [reflexivity|].
  rewrite IH, (isEmpty_append a _ Hb). reflexivity.
Qed.

Lemma lacks_stripLiteral (c : ascii) (w s r : string) :
  stripLiteral w s = Some r -> lacks c s = true -> lacks c r = true.
Proof.
  revert s. induction w as [|a w IH]; intros s; simpl.
  - intros [= ->]. tauto.
  - destruct s as [|d s]; [discriminate|].
    destruct (Ascii.eqb (lowerChar d) a); [|discriminate].
    intros H Hs. simpl in Hs. apply andb_prop in Hs as [_ Hs].
    exact (IH s H Hs).
Qed.

Lemma lacks_stripWord (c : ascii) (alts : list string) (s r : string) :
  stripWord alts s = Some r -> lacks c s = true -> lacks c r = true.
Proof.
  induction alts as [|w alts IH]; simpl; [discriminate|].
  destruct (stripLiteral w s) as [u|] eqn:Eu; [|exact IH].
  destruct (stripSpaces u) as [v|] eqn:Ev; [|exact IH].
  intros [= <-] Hs. pose proof (lacks_stripLiteral c w s u Eu Hs) as Hu.
  destruct u as [|d u]; [discriminate|]. simpl in Ev.
  destruct (isWhiteSpace d); [|discriminate]. injection Ev as <-.
  simpl in Hu. apply andb_prop in Hu as [_ Hu].
  apply lacks_trimStart. exact Hu.
Qed.

Lemma lacks_removeLeadingWord (c : ascii) (alts : list string) (s : string) :
  lacks c s = true -> lacks c (removeLeadingWord alts s) = true.
Proof.
  intros Hs. unfold removeLeadingWord.
  destruct (stripWord alts s) as [r|] eqn:E; [|exact Hs].
  exact (lacks_stripWord c alts s r E Hs).
Qed.

(** What [extractMainTopic] returns has no question mark (when the
    question has none), no white space at its end, and is not empty. *)
Lemma extractMainTopic_tidy (s t : string) :
  lacks "?" s = true ->
  extractMainTopic s = Some t ->
  lacks "?" t = true /\ trimEnd t = t /\ isEmpty t = false.
Proof.
  unfold extractMainTopic. intros Hs.
  set (u := trim (removeLeadingWord articles
                    (trim (removeLeadingWord questionWords s)))).
  destruct (0 <? String.length u)%nat eqn:E; [|discriminate].
  intros [= <-]. split; [|split].
  - apply lacks_trim, lacks_removeLeadingWord, lacks_trim,
      lacks_removeLeadingWord, Hs.
  - unfold u, trim. apply trimEnd_idem.
  - destruct u; [discriminate | reflexivity].
Qed.

(** The topic extracted from a template question built on the topic [t]
    is longer than [t]: the template is not the question it comes from. *)
Lemma template_topic (p t : string) :
  In p ["is "; "are the key features of "; "are the applications of "] ->
  lacks "?" t = true -> trimEnd t = t -> isEmpty t = false ->
  extractMainTopic (cleanQuestion ("What " ++ p ++ t ++ "?")) = Some (p ++ t).
Proof.
  intros Hp Hq Ht He.
  assert (Hc : cleanQuestion ("What " ++ p ++ t ++ "?") = "What " ++ p ++ t).
  { unfold cleanQuestion.
    rewrite !removeChar_app, (removeChar_lacks "?" t Hq).
    replace (removeChar "?" "What ") with "What " by reflexivity.
    replace (removeChar "?" p) with p
      by (destruct Hp as [<-|[<-|[<-|[]]]]; reflexivity).
    replace (removeChar "?" "?") with EmptyString by reflexivity.
    rewrite append_nil_r. unfold trim.
    replace (trimStart ("What " ++ p ++ t)) with ("What " ++ p ++ t)
      by reflexivity.
    rewrite <- !append_assoc, trimEnd_app, Ht; [reflexivity|].
    rewrite Ht. exact He. }
  rewrite Hc. unfold extractMainTopic.
  assert (H1 : removeLeadingWord questionWords ("What " ++ p ++ t) = p ++ t)
    by (destruct Hp as [<-|[<-|[<-|[]]]]; reflexivity).
  assert (H2 : trim (p ++ t) = p ++ t).
  { unfold trim.
    replace (trimStart (p ++ t)) with (p ++ t)
      by (destruct Hp as [<-|[<-|[<-|[]]]]; reflexivity).
    rewrite trimEnd_app, Ht; [reflexivity | rewrite Ht; exact He]. }
  assert (H3 : removeLeadingWord articles (p ++ t) = p ++ t)
    by (destruct Hp as [<-|[<-|[<-|[]]]]; reflexivity).
  rewrite H1, H2, H3, H2.
  replace (0 <? String.length (p ++ t))%nat with true; [reflexivity|].
  symmetry. apply Nat.ltb_lt. rewrite length_append.
  destruct Hp as [<-|[<-|[<-|[]]]]; simpl; lia.
Qed.

Lemma question_is_no_template (question t : string) :
  extractMainTopic (cleanQuestion question) = Some t ->
  ~ In question (aspectQuestions t).
Proof.
  intros Ht Hin.
  destruct (extractMainTopic_tidy (cleanQuestion question) t) as (Hq & Hr & He);
    [apply lacks_trim, lacks_removeChar | exact Ht |].
  assert (H : exists p,
             In p ["is "; "are the key features of "; "are the applications of "]
             /\ question = "What " ++ p ++ t ++ "?").
  { destruct Hin as [<-|[<-|[<-|[]]]].
    - exists "is ". split; [simpl; tauto | reflexivity].
    - exists "are the key features of ". split; [simpl; tauto | reflexivity].
    - exists "are the applications of ". split; [simpl; tauto | reflexivity]. }
  destruct H as (p & Hp & ->).
  rewrite (template_topic p t Hp Hq Hr He) in Ht. injection Ht as Ht.
  apply (f_equal String.length) in Ht. rewrite length_append in Ht.
  destruct Hp as [<-|[<-|[<-|[]]]]; simpl in Ht; lia.
Qed.

Lemma aspectQuestions_NoDup (t : string) : List.NoDup (aspectQuestions t).
Proof.
  unfold aspectQuestions.
  repeat constructor; simpl; intros H;
    repeat (destruct H as [H|H]; [discriminate H|]); exact H.
Qed.

Lemma unique_NoDup (l : list string) : List.NoDup l -> unique l = l.
Proof.
  unfold unique.
  assert (G : forall seen,
             List.NoDup (seen ++ l) ->
             fold_left
               (fun seen x =>
                  if existsb (String.eqb x) seen then seen
                  else (seen ++ [x])%list) l seen
             = (seen ++ l)%list).
  { induction l as [|x l IH]; intros seen Hnd; simpl.
    - rewrite List.app_nil_r. reflexivity.
    - assert (Hx : existsb (String.eqb x) seen = false).
      { destruct (existsb (String.eqb x) seen) eqn:E; [|reflexivity].
        apply List.existsb_exists in E as (y & Hy & Exy).
        apply String.eqb_eq in Exy. subst y.
        apply List.NoDup_remove_2 in Hnd. exfalso. apply Hnd.
        apply List.in_or_app. left. exact Hy. }
      rewrite Hx, IH, <- List.app_assoc; [reflexivity|].
      rewrite <- List.app_assoc. exact Hnd. }
  intros H. apply (G []). exact H.
Qed.

Lemma endsWith_all (parts : list string) :
  Forall (fun s => endsWith s "?" = true)
    (map (fun part => trim part ++ "?") parts).
Proof.
  apply List.Forall_forall. intros s Hs.
  apply List.in_map_iff in Hs as (part & <- & _). apply endsWith_append.
Qed.

Lemma splitSeparator_single (s : string) :
  anySuffix separatorAt s = false ->
  forall skip cur, List.length (splitSeparator skip cur s) = 1.
Proof.
  induction s as [|c r IH]; intros H skip cur; [reflexivity|].
  cbn [anySuffix] in H. apply orb_false_elim in H as [H1 H2].
  cbn [splitSeparator]. destruct skip as [|k]; [|apply IH; exact H2].
  unfold separatorAt in H1.
  destruct (stripSeparator (String c r)); [discriminate|].
  apply IH. exact H2.
Qed.

Lemma includes_cons (c : ascii) (s w : string) :
  includes s w = true -> includes (String c s) w = true.
Proof. intros H. cbn [includes]. rewrite H. apply orb_true_r. Qed.

Lemma prefix_includes (s w : string) :
  String.prefix w s = true -> includes s w = true.
Proof. intros H. destruct s; cbn [includes]; rewrite H; reflexivity. Qed.

Lemma includes_trimStart (s w : string) :
  includes (toLowerCase (trimStart s)) w = true ->
  includes (toLowerCase s) w = true.
Proof.
  induction s as [|c r IH]; [tauto|]. cbn [trimStart].
  destruct (isWhiteSpace c); [|tauto].
  intros H. cbn [toLowerCase]. apply includes_cons, IH, H.
Qed.

Lemma stripLiteral_prefix (w s r : string) :
  stripLiteral w s = Some r -> String.prefix w (toLowerCase s) = true.
Proof.
  revert s. induction w as [|a w IH]; intros s H.
  - destruct (toLowerCase s); reflexivity.
  - destruct s as [|c s]; [discriminate|]. cbn [stripLiteral] in H.
    destruct (Ascii.eqb (lowerChar c) a) eqn:E; [|discriminate].
    apply Ascii.eqb_eq in E. cbn [toLowerCase String.prefix]. rewrite E.
    destruct (ascii_dec a a); [apply (IH s H) | congruence].
Qed.

Lemma stripWord_includes (alts : list string) (s r : string) :
  stripWord alts s = Some r ->
  existsb (fun w => includes (toLowerCase s) w) alts = true.
Proof.
  induction alts as [|w alts IH]; [discriminate|]. cbn [stripWord existsb].
  destruct (stripLiteral w s) as [u|] eqn:Eu.
  - rewrite (prefix_includes _ _ (stripLiteral_prefix w s u Eu)). reflexivity.
  - intros H. rewrite (IH H). apply orb_true_r.
Qed.

Lemma existsb_includes_mono (alts : list string) (s t : string) :
  (forall w, includes s w = true -> includes t w = true) ->
  existsb (fun w => includes s w) alts = true ->
  existsb (fun w => includes t w) alts = true.
Proof.
  intros Hst H. apply List.existsb_exists in H as (w & Hw & Hi).
  apply List.existsb_exists. exists w. split; [exact Hw | apply Hst, Hi].
Qed.

Lemma separatorAt_includes (s : string) :
  anySuffix separatorAt s = true ->
  existsb (fun w => includes (toLowerCase s) w) separatorWords = true.
Proof.
  induction s as [|c r IH]; [discriminate|]. cbn [anySuffix].
  intros H. apply orb_prop in H as [H|H].
  - unfold separatorAt, stripSeparator in H. cbn [stripSpaces] in H.
    destruct (isWhiteSpace c); [|discriminate].
    destruct (stripWord separatorWords (trimStart r)) as [rest|] eqn:E;
      [|discriminate].
    apply (existsb_includes_mono _ (toLowerCase (trimStart r))).
    + intros w Hw. cbn [toLowerCase]. apply includes_cons, includes_trimStart, Hw.
    + exact (stripWord_includes _ _ _ E).
  - apply (existsb_includes_mono _ (toLowerCase r)); [|exact (IH H)].
    intros w Hw. cbn [toLowerCase]. apply includes_cons, Hw.
Qed.

(** A question that splits contains a connector. *)
Lemma split_hasConjunction (question : string) :
  2 <= List.length (splitParts (cleanQuestion question)) ->
  hasConjunction question = true.
Proof.
  intros H. unfold hasConjunction.
  change conjunctions with (separatorWords ++ ["differences between"])%list.
  rewrite List.existsb_app. apply orb_true_intro. left.
  apply separatorAt_includes.
  destruct (anySuffix separatorAt (cleanQuestion question)) eqn:E;
    [reflexivity|].
  unfold splitParts in H.
  rewrite (splitSeparator_single _ E) in H. lia.
Qed.

End Decomposition.

(** C3, as the specification words it, fails.  The lower-cased text of "History"
    contains the connector "or", but nothing splits; the question goes to
    the templates, and the first sub-question returned is the question
    itself, which does not end in "?". *)
Lemma analyzeQuestion_connector_counterexample :
  Js.includes (Js.toLowerCase "History") "or" = true
  /\ Question.hasConjunction "History" = true
  /\ Question.splitParts (Question.cleanQuestion "History") = ["History"]
  /\ Question.analyzeQuestion "History"
     = ["History"; "What is History?";
        "What are the key features of History?";
        "What are the applications of History?"]
  /\ ~ Forall (fun s => Js.endsWith s "?" = true)
         (Question.analyzeQuestion "History").
Proof.
  repeat (split; [vm_compute; reflexivity|]).
  intros H. apply List.Forall_inv in H. vm_compute in H. discriminate.
Qed.



(** * Further properties of the utilities *)

(** ** The search *)

Section SearchFacts.
Import Js Types Search Facts.

Lemma calculateRelevance_unit (query t d : string) :
  (0 <= calculateRelevance query t d <= 1)%Q.
Proof.
  unfold calculateRelevance.
  destruct (0 <? List.length (queryWords query) * 4)%nat eqn:E.
  - apply ratio_bounds; [|apply Nat.ltb_lt; exact E].
    pose proof (countMatches_le (toLowerCase t) (queryWords query)).
    pose proof (countMatches_le (toLowerCase d) (queryWords query)).
    unfold titleMatches, descriptionMatches. lia.
  - split; [apply Qle_refl | discriminate].
Qed.

Lemma parseResult_cases (query : string) (raw : RawResult) :
  match parseResult query raw with
  | Resolved r =>
      complete raw = true
      /\ title r = orEmpty (raw_title raw)
      /\ url r = orEmpty (raw_url raw)
      /\ description r = orEmpty (raw_description raw)
      /\ relevance r = Some (calculateRelevance query (title r) (description r))
  | Rejected m =>
      complete raw = false /\ m = typeErrorUndefined "toLowerCase"
  end.
Proof.
  unfold parseResult, complete.
  destruct (raw_title raw), (raw_description raw); cbn;
    repeat split; reflexivity.
Qed.

Lemma parseResults_cases (query : string) (raws : list RawResult) :
  match parseResults query raws with
  | Resolved rs =>
      forallb complete raws = true
      /\ Forall2
           (fun raw r =>
              title r = orEmpty (raw_title raw)
              /\ url r = orEmpty (raw_url raw)
              /\ description r = orEmpty (raw_description raw)
              /\ relevance r
                 = Some (calculateRelevance query (title r) (description r)))
           raws rs
  | Rejected m =>
      forallb complete raws = false /\ m = typeErrorUndefined "toLowerCase"
  end.
Proof.
  induction raws as [|raw rest IH]; cbn [parseResults forallb].
  - split; [reflexivity | constructor].
  - pose proof (parseResult_cases query raw) as H.
    destruct (parseResult query raw) as [r|m].
    + destruct H as (Hc & H). rewrite Hc. cbn [andb].
      destruct (parseResults query rest) as [rs|m'].
      * destruct IH as (Ha & Hf). split; [exact Ha|].
        constructor; assumption.
      * exact IH.
    + destruct H as (Hc & ->). rewrite Hc. split; reflexivity.
Qed.

End SearchFacts.

(** X1.  [performSearch] succeeds exactly when the query and the API key
    are not empty, the request is answered, and every entry of the answer
    has a title and a description.  It then returns one result per entry,
    in order, with the fields of the entry (a missing URL is the empty
    string) and a relevance between 0 and 1 computed from the query, the
    title and the description.  Otherwise the error is "Search query is
    required", "Brave Search API key is required", or begins with "Failed
    to perform search: ". *)
Theorem performSearch_cases (query apiKey : string) (count : Z)
    (http : Search.HttpOutcome) :
  match Search.performSearch query apiKey count http with
  | Js.Resolved results =>
      Facts.searchable query apiKey http = true
      /\ Forall2
           (fun raw r =>
              Types.title r = Facts.orEmpty (Search.raw_title raw)
              /\ Types.url r = Facts.orEmpty (Search.raw_url raw)
              /\ Types.description r
                 = Facts.orEmpty (Search.raw_description raw)
              /\ Types.relevance r
                 = Some (Search.calculateRelevance query (Types.title r)
                           (Types.description r)))
           (Facts.rawResults http) results
      /\ Forall Facts.scored results
  | Js.Rejected m =>
      Facts.searchable query apiKey http = false
      /\ (m = "Search query is required"
          \/ m = "Brave Search API key is required"
          \/ String.prefix "Failed to perform search: " m = true)
  end.
Proof.
  unfold Search.performSearch, Facts.searchable.
  destruct (Js.isEmpty query); [split; [reflexivity | tauto]|].
  destruct (Js.isEmpty apiKey); [split; [reflexivity | tauto]|].
  cbn [negb andb].
  destruct http as [m|[raws|]]; cbn [Facts.rawResults].
  - split; [reflexivity|]. right; right. apply prefix_append.
  - pose proof (parseResults_cases query raws) as H.
    destruct (Search.parseResults query raws) as [rs|m].
    + destruct H as (Ha & Hf). split; [exact Ha|]. split; [exact Hf|].
      clear Ha. induction Hf as [|raw r raws rs (_ & _ & _ & Hr) _ IH];
        constructor; [|exact IH].
      eexists. split; [exact Hr | apply calculateRelevance_unit].
    + destruct H as (Ha & ->). split; [exact Ha|]. right; right.
      apply prefix_append.
  - repeat split; constructor.
Qed.

Section RelevanceFacts.
Import Js Search.

Lemma ratio_one (n d : nat) : 0 < d -> (ratio n d == 1)%Q <-> n = d.
Proof.
  intros Hd. unfold ratio, Qdiv, Qeq, Qmult, Qinv, inject_Z.
  destruct d as [|d]; [lia|].
  cbn [Qnum Qden Z.of_nat]. simpl. split; intros H; nia.
Qed.

Lemma ratio_zero (n d : nat) : 0 < d -> (ratio n d == 0)%Q <-> n = 0.
Proof.
  intros Hd. unfold ratio, Qdiv, Qeq, Qmult, Qinv, inject_Z.
  destruct d as [|d]; [lia|].
  cbn [Qnum Qden Z.of_nat]. simpl. split; intros H; nia.
Qed.

Lemma countMatches_all (text : string) (words : list string) :
  countMatches text words = List.length words
  <-> forallb (includes text) words = true.
Proof.
  unfold countMatches. induction words as [|w ws IH]; [tauto|].
  cbn [List.filter forallb List.length].
  pose proof (countMatches_le text ws) as Hle. unfold countMatches in Hle.
  destruct (includes text w); cbn [List.length andb].
  - rewrite <- IH. lia.
  - split; [lia | discriminate].
Qed.

Lemma countMatches_none (text : string) (words : list string) :
  countMatches text words = 0 <-> existsb (includes text) words = false.
Proof.
  unfold countMatches. induction words as [|w ws IH]; [tauto|].
  cbn [List.filter existsb List.length].
  destruct (includes text w); cbn [List.length orb].
  - split; [lia | discriminate].
  - exact IH.
Qed.

End RelevanceFacts.

(** X2.  The extreme scores of [calculateRelevance].  The relevance is 1
    exactly when the query has a token and every token occurs both in the
    lower-cased title and in the lower-cased description; it is 0 exactly
    when no token occurs in either (in particular when there is no
    token). *)
Theorem calculateRelevance_extremes (query title description : string) :
  let tokens := Search.queryWords query in
  let t := Js.toLowerCase title in
  let d := Js.toLowerCase description in
  ((Search.calculateRelevance query title description == 1)%Q
   <-> tokens <> []
       /\ forallb (Js.includes t) tokens = true
       /\ forallb (Js.includes d) tokens = true)
  /\ ((Search.calculateRelevance query title description == 0)%Q
      <-> existsb (Js.includes t) tokens = false
          /\ existsb (Js.includes d) tokens = false).
Proof.
  intros tokens t d.
  pose proof (countMatches_le t tokens) as Ht.
  pose proof (countMatches_le d tokens) as Hd.
  pose proof (countMatches_all t tokens) as At.
  pose proof (countMatches_all d tokens) as Ad.
  pose proof (countMatches_none t tokens) as Nt.
  pose proof (countMatches_none d tokens) as Nd.
  unfold Search.calculateRelevance, Search.titleMatches,
    Search.descriptionMatches.
  fold tokens; fold t; fold d.
  destruct tokens as [|w ws] eqn:E.
  - cbn. split; split; try (intros (H & _); congruence);
      try discriminate; try reflexivity; intros _; split; reflexivity.
  - rewrite <- E in *.
    assert (Hn : 0 < List.length tokens) by (rewrite E; simpl; lia).
    replace (0 <? List.length tokens * 4)%nat with true
      by (symmetry; apply Nat.ltb_lt; lia).
    split.
    + rewrite ratio_one by lia. rewrite <- At, <- Ad.
      split; [intros H | intros (_ & H1 & H2)]; [|lia].
      split; [rewrite E; discriminate | lia].
    + rewrite ratio_zero by lia. rewrite <- Nt, <- Nd. lia.
Qed.

(** ** The ranking *)

Section Ranking.
Import Analysis Facts.
Context {A : Type} (key : A -> Q).

Lemma insertDesc_perm (x : A) (l : list A) :
  Permutation (x :: l) (insertDesc key x l).
Proof.
  induction l as [|y l IH]; cbn [insertDesc]; [reflexivity|].
  destruct (Qle_bool (key y) (key x)); [reflexivity|].
  rewrite perm_swap. apply perm_skip. exact IH.
Qed.

Lemma sortDesc_perm (l : list A) : Permutation l (sortDesc key l).
Proof.
  induction l as [|x l IH]; cbn [sortDesc fold_right]; [reflexivity|].
  rewrite <- insertDesc_perm. apply perm_skip. exact IH.
Qed.





End Ranking.

Section RankingCuts.
Import Analysis Facts.
Context {A : Type} (key : A -> Q).


End RankingCuts.

Section TopResults.
Import Js Types Analysis Facts.





End TopResults.



(** ** Parts of a split *)

Section Splits.
Import Js Facts.

Lemma allChars_append (p : ascii -> bool) (a b : string) :
  allChars p (a ++ b) = allChars p a && allChars p b.
Proof.
  induction a as [|c a IH]; simpl; [reflexivity|].
  rewrite IH. apply andb_assoc.
Qed.

Lemma splitRuns_allChars (p sep : ascii -> bool) (s : string) :
  forall cur inRun,
    allChars p cur = true -> allChars p s = true ->
    Forall (fun part => allChars p part = true) (splitRuns sep cur inRun s).
Proof.
  induction s as [|c r IH]; intros cur inRun Hc Hs; cbn [splitRuns].
  - constructor; [exact Hc | constructor].
  - cbn [allChars] in Hs. apply andb_prop in Hs as [Hpc Hr].
    destruct (sep c).
    + destruct inRun; [apply IH; assumption|].
      constructor; [exact Hc|]. apply IH; [reflexivity | exact Hr].
    + apply IH; [|exact Hr]. rewrite allChars_append, Hc. cbn. rewrite Hpc.
      reflexivity.
Qed.

Lemma splitRuns_free (sep : ascii -> bool) (s : string) :
  forall cur inRun,
    allChars (fun c => negb (sep c)) cur = true ->
    Forall (fun part => allChars (fun c => negb (sep c)) part = true)
      (splitRuns sep cur inRun s).
Proof.
  induction s as [|c r IH]; intros cur inRun Hc; cbn [splitRuns].
  - constructor; [exact Hc | constructor].
  - destruct (sep c) eqn:E.
    + destruct inRun; [apply IH; assumption|].
      constructor; [exact Hc|]. apply IH. reflexivity.
    + apply IH. rewrite allChars_append, Hc. cbn. rewrite E. reflexivity.
Qed.

Lemma includes_middle (a p b : string) : includes (a ++ p ++ b) p = true.
Proof.
  induction a as [|c a IH].
  - change (EmptyString ++ p ++ b) with (p ++ b).
    apply prefix_includes. apply prefix_append.
  - apply includes_cons. exact IH.
Qed.

Lemma splitRuns_substring (sep : ascii -> bool) (s : string) :
  forall cur inRun,
    (inRun = true -> cur = EmptyString) ->
    Forall (fun part => exists a b, cur ++ s = a ++ part ++ b)
      (splitRuns sep cur inRun s).
Proof.
  induction s as [|c r IH]; intros cur inRun Hrun; cbn [splitRuns].
  - constructor; [|constructor]. exists EmptyString, EmptyString.
    rewrite append_nil_r. reflexivity.
  - destruct (sep c).
    + destruct inRun.
      * rewrite (Hrun eq_refl).
        specialize (IH EmptyString true (fun _ => eq_refl)).
        eapply List.Forall_impl; [|exact IH].
        intros part (a & b & E). exists (String c a), b.
        simpl in *. rewrite E. reflexivity.
      * constructor.
        -- exists EmptyString, (String c r). reflexivity.
        -- specialize (IH EmptyString true (fun _ => eq_refl)).
           eapply List.Forall_impl; [|exact IH].
           intros part (a & b & E). exists (cur ++ String c a), b.
           simpl in E. rewrite append_assoc. simpl. rewrite E. reflexivity.
    + specialize (IH (cur ++ String c EmptyString) false
                    (fun H => False_ind _ (diff_false_true H))).
      eapply List.Forall_impl; [|exact IH].
      intros part (a & b & E). exists a, b. rewrite <- E, append_assoc.
      reflexivity.
Qed.

Lemma lowerChar_idem (c : ascii) : lowerChar (lowerChar c) = lowerChar c.
Proof. destruct c as [[] [] [] [] [] [] [] []]; reflexivity. Qed.

Lemma toLowerCase_isLower (s : string) : allChars isLower (toLowerCase s) = true.
Proof.
  induction s as [|c s IH]; [reflexivity|]. cbn [toLowerCase allChars].
  rewrite IH. unfold isLower. rewrite lowerChar_idem, Ascii.eqb_refl.
  reflexivity.
Qed.

Lemma isLower_fixed (s : string) :
  allChars isLower s = true -> toLowerCase s = s.
Proof.
  induction s as [|c s IH]; [reflexivity|]. cbn [toLowerCase allChars].
  intros H. apply andb_prop in H as [Hc Hs]. apply Ascii.eqb_eq in Hc.
  rewrite Hc, (IH Hs). reflexivity.
Qed.

End Splits.

(** X4.  The tokens of a query, as [calculateRelevance] takes them: each
    is longer than 2 characters, has no white space, is in lower case, and
    occurs in the lower-cased query. *)
Theorem queryWords_tokens (query : string) :
  Forall
    (fun word =>
       2 < String.length word
       /\ Facts.allChars Facts.notSpace word = true
       /\ Js.toLowerCase word = word
       /\ Js.includes (Js.toLowerCase query) word = true)
    (Search.queryWords query).
Proof.
  unfold Search.queryWords. apply List.Forall_forall. intros w Hw.
  apply List.filter_In in Hw as [Hin Hlen]. apply Nat.ltb_lt in Hlen.
  unfold Js.splitOn in Hin.
  split; [exact Hlen|]. split; [|split].
  - exact (proj1 (List.Forall_forall _ _)
             (splitRuns_free Js.isWhiteSpace (Js.toLowerCase query)
                EmptyString false eq_refl) w Hin).
  - apply isLower_fixed.
    exact (proj1 (List.Forall_forall _ _)
             (splitRuns_allChars Facts.isLower Js.isWhiteSpace
                (Js.toLowerCase query) EmptyString false eq_refl
                (toLowerCase_isLower query)) w Hin).
  - destruct (proj1 (List.Forall_forall _ _)
                (splitRuns_substring Js.isWhiteSpace (Js.toLowerCase query)
                   EmptyString false
                   (fun H => False_ind _ (diff_false_true H))) w Hin)
      as (a & b & E).
    simpl in E. rewrite E. apply includes_middle.
Qed.

(** ** Words, tokens and matches *)

Section Tokens.
Import Js Facts Wording.

Lemma prefix_split (p s : string) :
  String.prefix p s = true -> exists b, s = p ++ b.
Proof.
  revert s. induction p as [|c p IH]; intros s H; [exists s; reflexivity|].
  destruct s as [|d s]; [discriminate|]. cbn [String.prefix] in H.
  destruct (ascii_dec c d) as [->|]; [|discriminate].
  destruct (IH s H) as (b & ->). exists b. reflexivity.
Qed.

Lemma includes_substring (text word : string) :
  includes text word = true <-> substringOf word text.
Proof.
  split.
  - induction text as [|c r IH]; cbn [includes]; intros H.
    + rewrite orb_false_r in H. destruct (prefix_split _ _ H) as (b & E).
      exists EmptyString, b. exact E.
    + apply orb_true_iff in H as [H|H].
      * destruct (prefix_split _ _ H) as (b & E).
        exists EmptyString, b. exact E.
      * destruct (IH H) as (a & b & ->). exists (String c a), b. reflexivity.
  - intros (a & b & ->). apply includes_middle.
Qed.

Lemma Words_space (c : ascii) (text : string) (words : list string) :
  isWhiteSpace c = true -> Words text words -> Words (String c text) words.
Proof.
  intros Hc [gap Hg|gap word rest ws Hg Hw Hs Hr Hrest].
  - apply words_none. cbn [allChars]. rewrite Hc, Hg. reflexivity.
  - apply (words_cons (String c gap) word rest ws); try assumption.
    cbn [allChars]. rewrite Hc, Hg. reflexivity.
Qed.

Lemma splitRuns_words (s : string) :
  forall (cur : string) (inRun : bool),
    allChars notSpace cur = true ->
    (inRun = true -> cur = EmptyString) ->
    Words (cur ++ s)
      (List.filter (fun w => negb (isEmpty w))
         (splitRuns isWhiteSpace cur inRun s)).
Proof.
  induction s as [|c r IH]; intros cur inRun Hcur Hrun; cbn [splitRuns].
  - cbn [List.filter]. destruct cur as [|d cur]; cbn [isEmpty negb].
    + apply words_none. reflexivity.
    + apply (words_cons EmptyString (String d cur) EmptyString []);
        try reflexivity; [exact Hcur | apply words_none; reflexivity].
  - destruct (isWhiteSpace c) eqn:Ec.
    + assert (Hrest : Words (String c r)
                        (List.filter (fun w => negb (isEmpty w))
                           (splitRuns isWhiteSpace EmptyString true r))).
      { apply Words_space; [exact Ec|].
        apply (IH EmptyString true); [reflexivity | reflexivity]. }
      destruct inRun.
      * rewrite (Hrun eq_refl). exact Hrest.
      * cbn [List.filter]. destruct cur as [|d cur]; cbn [isEmpty negb].
        -- exact Hrest.
        -- apply (words_cons EmptyString (String d cur) (String c r));
             try reflexivity; [exact Hcur | exact Ec | exact Hrest].
    + replace (cur ++ String c r)
        with ((cur ++ String c EmptyString) ++ r)
        by (rewrite append_assoc; reflexivity).
      apply IH; [|discriminate].
      rewrite allChars_append, Hcur. cbn [allChars]. unfold notSpace at 1.
      rewrite Ec. reflexivity.
Qed.

Lemma filter_absorbs {A : Type} (p q : A -> bool) (l : list A) :
  (forall x, p x = true -> q x = true) ->
  List.filter p (List.filter q l) = List.filter p l.
Proof.
  intros H. induction l as [|x l IH]; [reflexivity|]. cbn [List.filter].
  destruct (q x) eqn:Eq; cbn [List.filter].
  - rewrite IH. reflexivity.
  - destruct (p x) eqn:Ep; [|exact IH].
    rewrite (H x Ep) in Eq. discriminate.
Qed.

Lemma queryWords_words (query : string) :
  exists words,
    Words (toLowerCase query) words
    /\ Search.queryWords query
       = List.filter (fun w => (2 <? String.length w)%nat) words.
Proof.
  exists (List.filter (fun w => negb (isEmpty w))
            (splitOn isWhiteSpace (toLowerCase query))).
  split.
  - apply (splitRuns_words (toLowerCase query) EmptyString false);
      [reflexivity | discriminate].
  - unfold Search.queryWords. symmetry. apply filter_absorbs.
    intros [|c w] H; [discriminate | reflexivity].
Qed.

End Tokens.

(** C5.  Whatever the query, the title and the description, the relevance
    of a result lies between 0 and 1.  The tokens of the query are the
    words of the lower-cased query (what stands between its runs of white
    space) that are longer than 2 characters, in order.  With [n] the
    number of tokens, [t] the number of tokens that are substrings of the
    lower-cased title and [d] the number of tokens that are substrings of
    the lower-cased description (a token counts in both when it is in
    both), the relevance is 0 when [n] is 0 and (t * 3 + d) / (n * 4)
    otherwise. *)
Theorem calculateRelevance_bounds_formula (query title description : string) :
  let tokens := Search.queryWords query in
  let n := List.length tokens in
  let t :=
    List.length (List.filter (Js.includes (Js.toLowerCase title)) tokens) in
  let d :=
    List.length
      (List.filter (Js.includes (Js.toLowerCase description)) tokens) in
  (0 <= Search.calculateRelevance query title description <= 1)%Q
  /\ (Search.calculateRelevance query title description
      == if (n =? 0)%nat then 0
         else inject_Z (Z.of_nat t * 3 + Z.of_nat d)
              / inject_Z (Z.of_nat n * 4))%Q
  /\ (forall text word,
        Js.includes text word = true <-> Wording.substringOf word text)
  /\ (exists words,
        Wording.Words (Js.toLowerCase query) words
        /\ tokens
           = List.filter (fun w => (2 <? String.length w)%nat) words)
  /\ Forall (fun word => 2 < String.length word) tokens.
Proof.
  intros tokens n t d.
  assert (Ht : t <= n) by apply countMatches_le.
  assert (Hd : d <= n) by apply countMatches_le.
  assert (Et : Search.titleMatches query title = t) by reflexivity.
  assert (Ed : Search.descriptionMatches query description = d)
    by reflexivity.
  unfold Search.calculateRelevance. rewrite Et, Ed. fold tokens. fold n.
  split; [|split; [|split; [exact includes_substring|split]]].
  - destruct (0 <? n * 4)%nat eqn:E.
    + apply ratio_bounds; [lia | apply Nat.ltb_lt; exact E].
    + split; [apply Qle_refl | discriminate].
  - clearbody t d. destruct n as [|k]; [reflexivity|].
    replace (0 <? S k * 4)%nat with true by (symmetry; apply Nat.ltb_lt; lia).
    replace (S k =? 0)%nat with false by reflexivity.
    unfold Search.ratio.
    replace (Z.of_nat (t * 3 + d)) with (Z.of_nat t * 3 + Z.of_nat d)%Z by lia.
    replace (Z.of_nat (S k * 4)) with (Z.of_nat (S k) * 4)%Z by lia.
    reflexivity.
  - apply queryWords_words.
  - apply queryWords_long.
Qed.

(** ** Trimming *)

Section Trimming.
Import Js Facts.

Lemma trimStart_headSolid (s : string) : headSolid (trimStart s) = true.
Proof.
  induction s as [|c r IH]; [reflexivity|]. cbn [trimStart].
  destruct (isWhiteSpace c) eqn:E; [exact IH|]. cbn. rewrite E. reflexivity.
Qed.

Lemma trimStart_fixed (s : string) : headSolid s = true -> trimStart s = s.
Proof.
  destruct s as [|c r]; [reflexivity|]. cbn. intros H.
  apply negb_true_iff in H. rewrite H. reflexivity.
Qed.

Lemma trimEnd_headSolid (s : string) :
  headSolid s = true -> headSolid (trimEnd s) = true.
Proof.
  destruct s as [|c r]; [reflexivity|]. cbn [headSolid trimEnd]. intros H.
  apply negb_true_iff in H. rewrite H, andb_false_r. cbn. rewrite H.
  reflexivity.
Qed.

Lemma trim_headSolid (s : string) : headSolid (trim s) = true.
Proof. apply trimEnd_headSolid, trimStart_headSolid. Qed.

Lemma trim_idem (s : string) : trim (trim s) = trim s.
Proof.
  unfold trim at 1. rewrite (trimStart_fixed _ (trim_headSolid s)).
  unfold trim. apply trimEnd_idem.
Qed.

Lemma trimEnd_trim (s : string) : trimEnd (trim s) = trim s.
Proof. unfold trim. apply trimEnd_idem. Qed.

Lemma allChars_trimStart (p : ascii -> bool) (s : string) :
  allChars p s = true -> allChars p (trimStart s) = true.
Proof.
  induction s as [|c r IH]; [tauto|]. cbn [allChars trimStart]. intros H.
  destruct (isWhiteSpace c); [|exact H].
  apply andb_prop in H as [_ H]. exact (IH H).
Qed.

Lemma allChars_trimEnd (p : ascii -> bool) (s : string) :
  allChars p s = true -> allChars p (trimEnd s) = true.
Proof.
  induction s as [|c r IH]; [tauto|]. cbn [allChars trimEnd]. intros H.
  apply andb_prop in H as [Hc Hr].
  destruct (isEmpty (trimEnd r) && isWhiteSpace c); [reflexivity|].
  cbn [allChars]. rewrite Hc, (IH Hr). reflexivity.
Qed.

Lemma allChars_trim (p : ascii -> bool) (s : string) :
  allChars p s = true -> allChars p (trim s) = true.
Proof. intros H. apply allChars_trimEnd, allChars_trimStart, H. Qed.

(** Both sides say that [s] has a character that is not white space. *)
Lemma isEmpty_trim (s : string) : isEmpty (trim s) = isEmpty (trimEnd s).
Proof.
  unfold trim. induction s as [|c r IH]; [reflexivity|].
  cbn [trimStart trimEnd]. destruct (isWhiteSpace c) eqn:E.
  - rewrite IH, andb_true_r. destruct (isEmpty (trimEnd r)); reflexivity.
  - cbn [trimEnd]. rewrite E, !andb_false_r. reflexivity.
Qed.

End Trimming.

(** ** Sentences *)

Section Sentences.
Import Js Analysis Facts.

Lemma sentencesOf_free (text : string) :
  Forall (fun s => allChars notTerminator s = true) (splitOn isTerminator text).
Proof. apply (splitRuns_free isTerminator text EmptyString false eq_refl). Qed.

Lemma endsWith_skip (a b c : string) :
  endsWith b c = true -> endsWith (a ++ b) c = true.
Proof.
  intros H. induction a as [|x a IH]; [exact H|].
  simpl. rewrite IH. apply orb_true_r.
Qed.

Lemma endsWith_refl (s : string) : endsWith s s = true.
Proof. destruct s; simpl; rewrite ?Ascii.eqb_refl, ?String.eqb_refl; reflexivity. Qed.

Lemma firstn_subset {A : Type} (n : nat) (l : list A) (x : A) :
  In x (firstn n l) -> In x l.
Proof.
  intros H. rewrite <- (firstn_skipn n l). apply List.in_or_app. left. exact H.
Qed.

Lemma isEmpty_append_l (a b : string) :
  isEmpty a = false -> isEmpty (a ++ b) = false.
Proof. destruct a; [discriminate | reflexivity]. Qed.

End Sentences.

(** X5.  [selectRelevantSentences] gives back the text itself when the
    text has no sentence (no part between runs of ".", "!" and "?" that
    is not blank).  Otherwise it gives back as many sentences as asked
    for, or all of them when there are fewer; each is a sentence of the
    text, trimmed, not empty and without ".", "!" or "?". *)
Theorem selectRelevantSentences_shape (text query : string)
    (maxSentences : nat) :
  let out := Analysis.selectRelevantSentences text query maxSentences in
  match Facts.sentencesOf text with
  | [] => out = [text]
  | _ :: _ =>
      List.length out
      = Nat.min maxSentences (List.length (Facts.sentencesOf text))
      /\ Forall
           (fun s =>
              Js.isEmpty s = false
              /\ Js.trim s = s
              /\ Facts.allChars Facts.notTerminator s = true
              /\ exists part,
                   In part (Js.splitOn Analysis.isTerminator text)
                   /\ s = Js.trim part)
           out
  end.
Proof.
  intros out. subst out. unfold Analysis.selectRelevantSentences.
  fold (Facts.sentencesOf text).
  destruct (Facts.sentencesOf text) as [|s0 rest] eqn:E; [reflexivity|].
  rewrite <- E. clear s0 rest E.
  set (scored := map (fun sentence =>
                        (sentence,
                         Analysis.calculateSentenceRelevance sentence query))
                   (Facts.sentencesOf text)).
  split.
  - rewrite List.length_map, List.length_firstn.
    rewrite <- (Permutation_length (sortDesc_perm snd scored)).
    unfold scored. rewrite List.length_map. reflexivity.
  - apply List.Forall_forall. intros s Hs.
    apply List.in_map_iff in Hs as ([sentence score] & <- & Hin).
    apply firstn_subset in Hin.
    apply (Permutation_in _ (Permutation_sym (sortDesc_perm snd scored)))
      in Hin.
    unfold scored in Hin. apply List.in_map_iff in Hin as (x & [= <- _] & Hx).
    unfold Facts.sentencesOf in Hx. apply List.filter_In in Hx as [Hx Hlen].
    cbn [fst]. split; [|split; [|split]].
    + apply Nat.ltb_lt in Hlen. destruct (Js.trim x); [simpl in Hlen; lia|].
      reflexivity.
    + apply trim_idem.
    + apply allChars_trim.
      exact (proj1 (List.Forall_forall _ _) (sentencesOf_free text) x Hx).
    + exists x. split; [exact Hx | reflexivity].
Qed.

(** X6.  [analyzeResults] never returns the empty string.  On an empty
    list it returns the message [No results found for query: "Q"]; on a
    list of [n] results the text ends with the note that the analysis is
    based on the top min(5, n) results. *)
Theorem analyzeResults_note (results : list Types.SearchResult)
    (query : string) :
  Js.isEmpty (Analysis.analyzeResults results query) = false
  /\ match results with
     | [] =>
         Analysis.analyzeResults results query
         = "No results found for query: " ++ Js.dquote ++ query ++ Js.dquote
     | _ :: _ =>
         Js.endsWith (Analysis.analyzeResults results query)
           (Facts.closingNote (List.length results)) = true
     end.
Proof.
  destruct results as [|r rest]; [split; reflexivity|].
  split; [reflexivity|].
  unfold Analysis.analyzeResults, Facts.closingNote.
  rewrite List.length_firstn.
  rewrite <- (Permutation_length
                (sortDesc_perm Analysis.resultRelevance (r :: rest))).
  do 12 apply endsWith_skip. apply endsWith_refl.
Qed.

(** ** Topics *)

Section Topics.
Import Js Question Facts.

(** In a string without white space at its end, what follows any point is
    not blank. *)
Lemma trimEnd_suffix (a b : string) :
  trimEnd (a ++ b) = a ++ b -> isEmpty b = false ->
  isEmpty (trimEnd b) = false.
Proof.
  induction a as [|c a IH]; intros H Hb.
  - simpl in H. rewrite H. exact Hb.
  - apply IH; [|exact Hb]. simpl in H.
    destruct (isEmpty (trimEnd (a ++ b)) && isWhiteSpace c); [discriminate|].
    injection H as H. exact H.
Qed.

Lemma stripLiteral_suffix (w s u : string) :
  stripLiteral w s = Some u -> exists a, s = a ++ u.
Proof.
  revert s. induction w as [|x w IH]; intros s H; cbn [stripLiteral] in H.
  - injection H as <-. exists EmptyString. reflexivity.
  - destruct s as [|c s]; [discriminate|].
    destruct (Ascii.eqb (lowerChar c) x); [|discriminate].
    destruct (IH s H) as (a & ->). exists (String c a). reflexivity.
Qed.

Lemma stripWord_solid (alts : list string) (s v : string) :
  trimEnd s = s -> stripWord alts s = Some v -> isEmpty (trim v) = false.
Proof.
  intros Hs. induction alts as [|w alts IH]; cbn [stripWord]; [discriminate|].
  destruct (stripLiteral w s) as [u|] eqn:Eu; [|exact IH].
  destruct (stripSpaces u) as [v'|] eqn:Ev; [|exact IH].
  intros [= <-]. destruct u as [|c u']; [discriminate|]. cbn in Ev.
  destruct (isWhiteSpace c) eqn:Ec; [|discriminate]. injection Ev as <-.
  destruct (stripLiteral_suffix w s _ Eu) as (a & Ea).
  assert (H : isEmpty (trimEnd (String c u')) = false).
  { apply (trimEnd_suffix a); [rewrite <- Ea; exact Hs | reflexivity]. }
  cbn [trimEnd] in H. rewrite Ec, andb_true_r in H.
  rewrite isEmpty_trim.
  assert (E : isEmpty (trimEnd (trimStart u')) = isEmpty (trimEnd u')).
  { rewrite <- (isEmpty_trim u'). unfold trim. reflexivity. }
  rewrite E. destruct (isEmpty (trimEnd u')); [discriminate H | reflexivity].
Qed.

Lemma removeLeadingWord_solid (alts : list string) (s : string) :
  trimEnd s = s -> isEmpty s = false ->
  isEmpty (trim (removeLeadingWord alts s)) = false.
Proof.
  intros Hs He. unfold removeLeadingWord.
  destruct (stripWord alts s) as [v|] eqn:E.
  - exact (stripWord_solid alts s v Hs E).
  - rewrite isEmpty_trim, Hs. exact He.
Qed.

Lemma extractMainTopic_trimmed (s : string) :
  match extractMainTopic (trim s) with
  | Some t => isEmpty (trim s) = false /\ isEmpty t = false /\ trim t = t
  | None => isEmpty (trim s) = true
  end.
Proof.
  destruct (isEmpty (trim s)) eqn:E.
  - destruct (trim s); [reflexivity | discriminate].
  - unfold extractMainTopic.
    set (t1 := trim (removeLeadingWord questionWords (trim s))).
    assert (H1 : isEmpty t1 = false)
      by (apply removeLeadingWord_solid; [apply trimEnd_trim | exact E]).
    set (t2 := trim (removeLeadingWord articles t1)).
    assert (H2 : isEmpty t2 = false)
      by (apply removeLeadingWord_solid; [apply trimEnd_trim | exact H1]).
    assert (H3 : trim t2 = t2) by apply trim_idem.
    clearbody t2. destruct t2 as [|c r]; [discriminate|].
    cbn [String.length Nat.ltb Nat.leb]. repeat split; assumption.
Qed.

Lemma Question_unique_templates (question t : string) :
  extractMainTopic (cleanQuestion question) = Some t ->
  unique (question :: aspectQuestions t) = question :: aspectQuestions t.
Proof.
  intros H. apply unique_NoDup. constructor.
  - apply question_is_no_template. exact H.
  - apply aspectQuestions_NoDup.
Qed.

End Topics.

(** X7.  [extractMainTopic] on a trimmed text (as [analyzeQuestion] and
    the report call it).  The one of the question module returns null
    exactly when the text is empty; a topic it returns is not empty and is
    itself trimmed.  The one of the synthesis module returns that topic,
    and the text itself where the other returns null. *)
Theorem extractMainTopic_cases (text : string) :
  match Question.extractMainTopic (Js.trim text) with
  | Some topic =>
      Js.isEmpty (Js.trim text) = false
      /\ Js.isEmpty topic = false
      /\ Js.trim topic = topic
      /\ Synthesis.extractMainTopic (Js.trim text) = topic
  | None =>
      Js.isEmpty (Js.trim text) = true
      /\ Synthesis.extractMainTopic (Js.trim text) = Js.trim text
  end.
Proof.
  pose proof (extractMainTopic_trimmed text) as H.
  unfold Synthesis.extractMainTopic.
  unfold Question.extractMainTopic in *.
  destruct (0 <? String.length
                   (Js.trim
                      (Js.removeLeadingWord Question.articles
                         (Js.trim
                            (Js.removeLeadingWord Question.questionWords
                               (Js.trim text))))))%nat.
  - destruct H as (H1 & H2 & H3). repeat split; assumption.
  - split; [exact H | reflexivity].
Qed.

(** X8.  The number of sub-questions [analyzeQuestion] returns: the number
    of parts when the text splits into 2 parts or more; else 1 (the
    question itself) when the question has nothing but question marks and
    white space; else 4.  It is never 0, and without a split the first
    sub-question is the question as it was asked. *)
Theorem analyzeQuestion_count (question : string) :
  let parts := Question.splitParts (Question.cleanQuestion question) in
  List.length (Question.analyzeQuestion question)
  = (if (2 <=? List.length parts)%nat then List.length parts
     else if Js.isEmpty (Question.cleanQuestion question) then 1
     else 4)
  /\ 1 <= List.length (Question.analyzeQuestion question)
  /\ ((2 <=? List.length parts)%nat = true
      \/ List.hd_error (Question.analyzeQuestion question) = Some question).
Proof.
  intros parts.
  destruct (2 <=? List.length parts)%nat eqn:E.
  - apply Nat.leb_le in E.
    assert (H : Question.analyzeQuestion question
                = map (fun part => Js.trim part ++ "?") parts).
    { unfold Question.analyzeQuestion. fold parts.
      rewrite (split_hasConjunction question E).
      replace (1 <? List.length parts)%nat with true; [reflexivity|].
      symmetry. apply Nat.ltb_lt. lia. }
    rewrite H, List.length_map. repeat split; [lia | left; reflexivity].
  - apply Nat.leb_gt in E.
    assert (H : Question.analyzeQuestion question
                = Question.unique
                    (question ::
                     match Question.extractMainTopic
                             (Question.cleanQuestion question) with
                     | Some t => Question.aspectQuestions t
                     | None => []
                     end)).
    { unfold Question.analyzeQuestion. fold parts.
      replace (1 <? List.length parts)%nat with false;
        [rewrite andb_false_r; reflexivity|].
      symmetry. apply Nat.ltb_ge. lia. }
    pose proof (extractMainTopic_trimmed
                  (Js.removeChar "?" question)) as Ht.
    fold (Question.cleanQuestion question) in Ht.
    destruct (Question.extractMainTopic (Question.cleanQuestion question))
      as [t|] eqn:Et.
    + destruct Ht as (He & _). rewrite He.
      rewrite Question_unique_templates in H by exact Et.
      rewrite H. repeat split; [simpl; lia | right; reflexivity].
    + rewrite Ht, H. repeat split; [simpl; lia | right; reflexivity].
Qed.

(** ** The split of a question *)

Section SplitFacts.
Import Js Facts Wording Question.

Lemma length_app_inv (a b c d : string) :
  a ++ b = c ++ d -> String.length a = String.length c -> a = c /\ b = d.
Proof.
  revert c. induction a as [|x a IH]; intros [|y c] H Hl;
    try discriminate; [split; [reflexivity | exact H]|].
  cbn in H. injection H as -> H. injection Hl as Hl.
  destruct (IH c H Hl) as [-> ->]. split; reflexivity.
Qed.

Lemma space_lower (c : ascii) :
  isWhiteSpace (lowerChar c) = isWhiteSpace c.
Proof. destruct c as [[] [] [] [] [] [] [] []]; reflexivity. Qed.

Lemma connector_solid (word rest : string) :
  In (toLowerCase word) connectors -> headSolid (word ++ rest) = true
                                      /\ isEmpty word = false.
Proof.
  destruct word as [|c w]; cbn [toLowerCase].
  - intros [H|[H|[H|[H|[H|[]]]]]]; discriminate.
  - intros H. split; [|reflexivity]. cbn [String.append headSolid].
    rewrite <- space_lower.
    destruct H as [H|[H|[H|[H|[H|[]]]]]]; injection H as <- _; reflexivity.
Qed.

Lemma trimStart_split (s : string) :
  exists ws, s = ws ++ trimStart s /\ allChars isWhiteSpace ws = true.
Proof.
  induction s as [|c r (ws & E & Hws)]; [exists EmptyString; split; reflexivity|].
  cbn [trimStart]. destruct (isWhiteSpace c) eqn:Ec.
  - exists (String c ws). cbn [String.append allChars].
    rewrite <- E, Ec, Hws. split; reflexivity.
  - exists EmptyString. split; reflexivity.
Qed.

Lemma trimStart_gap (ws rest : string) :
  allChars isWhiteSpace ws = true -> headSolid rest = true ->
  trimStart (ws ++ rest) = rest.
Proof.
  intros Hws Hr. induction ws as [|c ws IH]; [apply trimStart_fixed, Hr|].
  cbn [allChars] in Hws. apply andb_true_iff in Hws as [Hc Hws].
  cbn [String.append trimStart]. rewrite Hc. apply IH, Hws.
Qed.

Lemma stripSpaces_sound (s r : string) :
  stripSpaces s = Some r ->
  exists ws,
    s = ws ++ r /\ isEmpty ws = false /\ allChars isWhiteSpace ws = true
    /\ headSolid r = true.
Proof.
  destruct s as [|c t]; [discriminate|]. cbn [stripSpaces].
  destruct (isWhiteSpace c) eqn:Ec; [|discriminate]. intros [= <-].
  destruct (trimStart_split t) as (ws & E & Hws).
  exists (String c ws). cbn [String.append allChars isEmpty].
  rewrite <- E, Ec, Hws. repeat split. apply trimStart_headSolid.
Qed.

Lemma stripSpaces_gap (ws rest : string) :
  isEmpty ws = false -> allChars isWhiteSpace ws = true ->
  headSolid rest = true ->
  stripSpaces (ws ++ rest) = Some rest.
Proof.
  destruct ws as [|c ws]; [discriminate|]. intros _ Hws Hr.
  cbn [allChars] in Hws. apply andb_true_iff in Hws as [Hc Hws].
  cbn [String.append stripSpaces]. rewrite Hc.
  rewrite (trimStart_gap ws rest Hws Hr). reflexivity.
Qed.

Lemma stripSpaces_some (ws rest : string) :
  isEmpty ws = false -> allChars isWhiteSpace ws = true ->
  stripSpaces (ws ++ rest) <> None.
Proof.
  destruct ws as [|c ws]; [discriminate|]. intros _ Hws.
  cbn [allChars] in Hws. apply andb_true_iff in Hws as [Hc _].
  cbn [String.append stripSpaces]. rewrite Hc. discriminate.
Qed.

Lemma stripLiteral_sound (w s r : string) :
  stripLiteral w s = Some r -> exists u, s = u ++ r /\ toLowerCase u = w.
Proof.
  revert s. induction w as [|a w IH]; intros s H.
  - injection H as <-. exists EmptyString. split; reflexivity.
  - destruct s as [|c s]; [discriminate|]. cbn [stripLiteral] in H.
    destruct (Ascii.eqb (lowerChar c) a) eqn:E; [|discriminate].
    apply Ascii.eqb_eq in E. destruct (IH s H) as (u & -> & <-).
    exists (String c u). cbn [String.append toLowerCase]. rewrite E.
    split; reflexivity.
Qed.

Lemma stripLiteral_complete (u r : string) :
  stripLiteral (toLowerCase u) (u ++ r) = Some r.
Proof.
  induction u as [|c u IH]; [reflexivity|].
  cbn [toLowerCase String.append stripLiteral].
  rewrite Ascii.eqb_refl. exact IH.
Qed.

Lemma stripWord_sound (alts : list string) (s r : string) :
  stripWord alts s = Some r ->
  exists word ws,
    s = word ++ ws ++ r /\ In (toLowerCase word) alts
    /\ isEmpty ws = false /\ allChars isWhiteSpace ws = true
    /\ headSolid r = true.
Proof.
  induction alts as [|w alts IH]; [discriminate|]. cbn [stripWord].
  assert (Hrest : stripWord alts s = Some r ->
                  exists word ws,
                    s = word ++ ws ++ r /\ In (toLowerCase word) (w :: alts)
                    /\ isEmpty ws = false /\ allChars isWhiteSpace ws = true
                    /\ headSolid r = true).
  { intros H. destruct (IH H) as (word & ws & E & Hin & Hrest).
    exists word, ws. split; [exact E|]. split; [right; exact Hin|].
    exact Hrest. }
  destruct (stripLiteral w s) as [t|] eqn:Et; [|exact Hrest].
  destruct (stripSpaces t) as [t'|] eqn:Es; [|exact Hrest].
  intros [= <-].
  destruct (stripLiteral_sound _ _ _ Et) as (u & -> & Hu).
  destruct (stripSpaces_sound _ _ Es) as (ws & -> & Hws).
  exists u, ws. split; [reflexivity|]. split; [left; symmetry; exact Hu|].
  exact Hws.
Qed.

Lemma stripWord_complete (alts : list string) (word ws rest : string) :
  In (toLowerCase word) alts ->
  isEmpty ws = false -> allChars isWhiteSpace ws = true ->
  stripWord alts (word ++ ws ++ rest) <> None.
Proof.
  intros Hin He Hws.
  induction alts as [|w alts IH]; [destruct Hin|]. cbn [stripWord].
  destruct Hin as [->|Hin].
  - rewrite stripLiteral_complete.
    destruct (stripSpaces (ws ++ rest)) eqn:E; [discriminate|].
    exfalso. exact (stripSpaces_some ws rest He Hws E).
  - destruct (stripLiteral w (word ++ ws ++ rest)) as [t|];
      [|apply IH, Hin].
    destruct (stripSpaces t); [discriminate | apply IH, Hin].
Qed.

Lemma stripSeparator_sound (s rest : string) :
  stripSeparator s = Some rest ->
  exists sep, s = sep ++ rest /\ Separator sep /\ headSolid rest = true.
Proof.
  unfold stripSeparator.
  destruct (stripSpaces s) as [r|] eqn:Es; [|discriminate]. intros H.
  destruct (stripSpaces_sound _ _ Es) as (before & -> & Hb1 & Hb2 & _).
  destruct (stripWord_sound _ _ _ H) as (word & after & -> & Hin & Ha1 & Ha2 & Hr).
  exists (before ++ word ++ after). split; [|split; [|exact Hr]].
  - rewrite !append_assoc. reflexivity.
  - exists before, word, after. repeat split; assumption.
Qed.

Lemma stripSeparator_complete (sep rest : string) :
  Separator sep -> stripSeparator (sep ++ rest) <> None.
Proof.
  intros (before & word & after & -> & Hb1 & Hb2 & Hin & Ha1 & Ha2).
  unfold stripSeparator. rewrite !append_assoc.
  rewrite (stripSpaces_gap before _ Hb1 Hb2)
    by apply (connector_solid word _ Hin).
  apply (stripWord_complete separatorWords word after rest Hin Ha1 Ha2).
Qed.

Lemma splitSeparator_skip (u cur rest : string) :
  splitSeparator (String.length u) cur (u ++ rest)
  = splitSeparator 0 cur rest.
Proof.
  induction u as [|c u IH]; [destruct rest; reflexivity|].
  cbn [String.length String.append splitSeparator]. exact IH.
Qed.

Lemma Separator_solid (sep : string) : Separator sep -> isEmpty sep = false.
Proof.
  intros (before & word & after & -> & Hb & _). destruct before;
    [discriminate | reflexivity].
Qed.

Lemma splitSeparator_Split (n : nat) :
  forall (s cur : string),
    String.length s <= n ->
    ~ startsBefore (String.length cur) (cur ++ s) ->
    Split (cur ++ s) (splitSeparator 0 cur s).
Proof.
  induction n as [|n IH]; intros s cur Hn Hleft.
  - destruct s; [|cbn in Hn; lia]. cbn [splitSeparator].
    rewrite append_nil_r in *.
    apply split_last. intros (a & sep & b & E & Hsep).
    apply Hleft. exists a, sep, b. split; [exact E|]. split; [exact Hsep|].
    apply (f_equal String.length) in E.
    rewrite !length_append in E.
    pose proof (Separator_solid sep Hsep) as Hs.
    destruct sep; [discriminate|]. cbn in E. lia.
  - destruct s as [|c r].
    + cbn [splitSeparator]. rewrite append_nil_r in *. apply split_last.
      intros (a & sep & b & E & Hsep).
      apply Hleft. exists a, sep, b. split; [exact E|]. split; [exact Hsep|].
      apply (f_equal String.length) in E.
      rewrite !length_append in E.
      pose proof (Separator_solid sep Hsep) as Hs.
      destruct sep; [discriminate|]. cbn in E. lia.
    + cbn [splitSeparator].
      destruct (stripSeparator (String c r)) as [rest|] eqn:Es.
      * destruct (stripSeparator_sound _ _ Es) as (sep & E & Hsep & Hrest).
        pose proof (Separator_solid sep Hsep) as Hs.
        destruct sep as [|c' u]; [discriminate|].
        cbn [String.append] in E. injection E as <- ->.
        rewrite length_append, Nat.add_sub, splitSeparator_skip.
        apply (split_part cur (String c u) rest); try assumption.
        apply (IH rest EmptyString).
        -- cbn in Hn. rewrite length_append in Hn. lia.
        -- intros (a & sep & b & _ & _ & H). cbn in H. lia.
      * replace (cur ++ String c r)
          with ((cur ++ String c EmptyString) ++ r)
          by (rewrite append_assoc; reflexivity).
        apply IH; [cbn in Hn; lia|].
        intros (a & sep & b & E & Hsep & Hlen).
        rewrite length_append in Hlen. cbn in Hlen.
        rewrite append_assoc in E. cbn [String.append] in E.
        destruct (Nat.eq_dec (String.length a) (String.length cur)) as [Heq|Hne].
        -- symmetry in E. destruct (length_app_inv _ _ _ _ E Heq) as [_ E2].
           apply (stripSeparator_complete sep b Hsep). rewrite E2. exact Es.
        -- apply Hleft. exists a, sep, b. split; [exact E|].
           split; [exact Hsep | lia].
Qed.

Lemma splitParts_Split (text : string) : Split text (splitParts text).
Proof.
  apply (splitSeparator_Split (String.length text) text EmptyString);
    [lia|].
  intros (a & sep & b & _ & _ & H). cbn in H. lia.
Qed.

Lemma Split_parts (text : string) (parts : list string) :
  Split text parts ->
  (separated text /\ 2 <= List.length parts)
  \/ (~ separated text /\ parts = [text]).
Proof.
  intros [t H|part sep rest ps Hsep _ _ Hrest].
  - right. split; [exact H | reflexivity].
  - left. split; [exists part, sep, rest; split; [reflexivity | exact Hsep]|].
    destruct Hrest; cbn [List.length]; lia.
Qed.

End SplitFacts.

(** C3, as the code has it.  Take a question and its text: the question
    without its question marks, trimmed.  A separator is a connector (and,
    or, versus, vs, compared to, in any case) with white space before and
    behind it.  When a separator stands in the text, the lower-cased text
    contains a connector word and [analyzeQuestion] returns one
    sub-question per part of the text between its separators, from left
    to right (each separator being the first one in what is left of the
    text, with all the white space around its connector): the part,
    trimmed, followed by "?".  So there are at least 2 sub-questions and
    each ends in "?".  When no separator stands in the text (no connector,
    or a connector only inside a word or without white space on both
    sides, or only "differences between"), the question goes to the
    templates: the result is the question itself, followed by the three
    template questions on its topic when it has one. *)
Theorem analyzeQuestion_split (question : string) :
  let text := Js.trim (Js.removeChar "?" question) in
  (Wording.separated text ->
   exists parts,
     Wording.Split text parts
     /\ 2 <= List.length parts
     /\ Question.hasConjunction question = true
     /\ Question.analyzeQuestion question
        = map (fun part => Js.trim part ++ "?") parts
     /\ 2 <= List.length (Question.analyzeQuestion question)
     /\ Forall (fun s => Js.endsWith s "?" = true)
          (Question.analyzeQuestion question))
  /\ (~ Wording.separated text ->
      Question.analyzeQuestion question
      = question
        :: match Question.extractMainTopic text with
           | Some topic =>
               ["What is " ++ topic ++ "?";
                "What are the key features of " ++ topic ++ "?";
                "What are the applications of " ++ topic ++ "?"]
           | None => []
           end).
Proof.
  intros text.
  pose proof (splitParts_Split text) as Hsplit.
  destruct (Split_parts _ _ Hsplit) as [(Hsep & Hlen)|(Hno & E)].
  - split; [intros _ | intros H; contradiction].
    exists (Question.splitParts text).
    pose proof (split_hasConjunction question Hlen) as Hc.
    assert (E : Question.analyzeQuestion question
                = map (fun part => Js.trim part ++ "?")
                    (Question.splitParts text)).
    { unfold Question.analyzeQuestion, Question.cleanQuestion. fold text.
      rewrite Hc.
      replace (1 <? List.length (Question.splitParts text))%nat with true;
        [reflexivity|].
      symmetry. apply Nat.ltb_lt. lia. }
    split; [exact Hsplit|]. split; [exact Hlen|]. split; [exact Hc|].
    split; [exact E|]. rewrite E. split.
    + rewrite List.length_map. exact Hlen.
    + apply endsWith_all.
  - split; [intros H; contradiction | intros _].
    unfold Question.analyzeQuestion, Question.cleanQuestion. fold text.
    rewrite E.
    cbn [List.length Nat.ltb Nat.leb]. rewrite andb_false_r.
    destruct (Question.extractMainTopic text) as [topic|] eqn:Et.
    + apply (Question_unique_templates question topic Et).
    + reflexivity.
Qed.

Lemma analyzeQuestion_split_witness :
  exists parts,
    Wording.Split (Question.cleanQuestion "Compare solar and wind energy")
      parts
    /\ Question.analyzeQuestion "Compare solar and wind energy"
       = map (fun part => Js.trim part ++ "?") parts
    /\ Question.analyzeQuestion "Compare solar and wind energy"
       = ["Compare solar?"; "wind energy?"].
Proof.
  destruct (proj1 (analyzeQuestion_split "Compare solar and wind energy"))
    as (parts & Hs & _ & _ & E & _).
  - exists "Compare solar", " and ", "wind energy". split; [reflexivity|].
    exists " ", "and", " ". repeat split; simpl; tauto.
  - exists parts. split; [exact Hs|]. split; [exact E | reflexivity].
Defined.

(** * Further properties of the sessions *)

Section SessionSteps.
Import Js Types DeepResearch Session.

Lemma count_replace {A : Type} (P : A -> bool) (l : list A) (i : nat)
    (x y : A) :
  l !! i = Some x -> P x = true -> P y = false ->
  List.length (List.filter P (<[i := y]> l))
  = List.length (List.filter P l) - 1.
Proof.
  revert i. induction l as [|a l IH]; intros i Hi Hx Hy; [discriminate|].
  destruct i as [|i]; simpl in *.
  - injection Hi as ->. rewrite Hx, Hy. simpl. lia.
  - specialize (IH i Hi Hx Hy). destruct (P a); simpl; [|exact IH].
    rewrite IH.
    assert (0 < List.length (List.filter P l)); [|lia].
    clear IH. revert i Hi. induction l as [|b l IHl]; intros i Hi;
      [discriminate|].
    destruct i as [|i]; simpl in *.
    + injection Hi as ->. rewrite Hx. simpl. lia.
    + specialize (IHl i Hi). destruct (P b); simpl; lia.
Qed.

Lemma status_not_completed (r : ResearchData) :
  status r <> COMPLETED -> ResearchStatus_eqb (status r) COMPLETED = false.
Proof. destruct (status r); try reflexivity. congruence. Qed.

Lemma rev_snoc {A : Type} (l : list A) (x : A) :
  List.rev (l ++ [x]) = x :: List.rev l.
Proof. apply List.rev_unit. Qed.

Section Rebuilt.
Context (subs : list SubQuestion) (log : list ResearchStep)
  (st : ResearchStatus) (rep : option string) (finish : option Z)
  (r : ResearchData).

Lemma updateSub_rebuilt (i : nat) (f : SubQuestion -> SubQuestion)
    (x : SubQuestion) :
  subs !! i = Some x ->
  updateSub i f (rebuilt subs log st rep finish r)
  = rebuilt (<[i := f x]> subs) log st rep finish r.
Proof.
  intros H. unfold updateSub. cbn [rebuilt subQuestions]. rewrite H.
  reflexivity.
Qed.

Lemma pushStep_rebuilt (step : ResearchStep) :
  pushStep step (rebuilt subs log st rep finish r)
  = rebuilt subs (log ++ [step]) st rep finish r.
Proof. reflexivity. Qed.

Lemma updateLastStep_rebuilt (text : string) (step : ResearchStep) :
  updateLastStep text (rebuilt subs (log ++ [step]) st rep finish r)
  = rebuilt subs (log ++ [setContent text step]) st rep finish r.
Proof.
  unfold updateLastStep. cbn [rebuilt steps].
  rewrite List.rev_unit, List.rev_involutive. reflexivity.
Qed.

End Rebuilt.

Lemma updateSub_first (i : nat) (f : SubQuestion -> SubQuestion)
    (r : ResearchData) (x : SubQuestion) :
  subQuestions r !! i = Some x ->
  updateSub i f r
  = rebuilt (<[i := f x]> (subQuestions r)) (steps r) (status r) (report r)
      (endTime r) r.
Proof. intros H. unfold updateSub. rewrite H. reflexivity. Qed.

Lemma pushStep_first (step : ResearchStep) (r : ResearchData) :
  pushStep step r
  = rebuilt (subQuestions r) (steps r ++ [step]) (status r) (report r)
      (endTime r) r.
Proof. reflexivity. Qed.

Lemma continue_search_ok (env : Env) (r : ResearchData) (i : nat)
    (sq : SubQuestion) (results : list SearchResult) :
  subQuestions r !! i = Some sq ->
  updateSub i (setSubStatus completed)
    (updateLastStep
       ("Analyzed results for: " ++ dquote ++ sq_question sq ++ dquote)
       (updateSub i
          (setAnalysis (Analysis.analyzeResults results (sq_question sq)))
          (pushStep
             {| step_id := uuidv4 env 1; step_type := RESULT_ANALYSIS;
                step_content :=
                  "Analyzing results for: " ++ dquote ++ sq_question sq
                  ++ dquote;
                step_timestamp := now env 1 |}
             (updateLastStep
                ("Searched for: " ++ dquote ++ sq_question sq ++ dquote ++ nl
                 ++ "Found " ++ showNat (List.length results) ++ " results")
                (updateSub i (setSearchResults results)
                   (pushStep
                      {| step_id := uuidv4 env 0; step_type := SEARCH;
                         step_content :=
                           "Searching for: " ++ dquote ++ sq_question sq
                           ++ dquote;
                         step_timestamp := now env 0 |}
                      (updateSub i (setSubStatus in_progress) r)))))))
  = afterSearch env results i sq r.
Proof.
  intros Hsq. pose proof (lookup_lt_Some _ _ _ Hsq) as Hi.
  rewrite (updateSub_first i _ r sq Hsq), pushStep_rebuilt.
  rewrite (updateSub_rebuilt _ _ _ _ _ _ i _ (setSubStatus in_progress sq))
    by (apply list_lookup_insert_eq; exact Hi).
  rewrite list_insert_insert_eq, updateLastStep_rebuilt, pushStep_rebuilt.
  rewrite (updateSub_rebuilt _ _ _ _ _ _ i _
             (setSearchResults results (setSubStatus in_progress sq)))
    by (apply list_lookup_insert_eq; exact Hi).
  rewrite list_insert_insert_eq, updateLastStep_rebuilt.
  rewrite (updateSub_rebuilt _ _ _ _ _ _ i _
             (setAnalysis (Analysis.analyzeResults results (sq_question sq))
                (setSearchResults results (setSubStatus in_progress sq))))
    by (apply list_lookup_insert_eq; exact Hi).
  rewrite list_insert_insert_eq, <- List.app_assoc.
  reflexivity.
Qed.

Lemma imap_fmap_texts (env : Env) (texts : list string) :
  map sq_question (newSubs env texts) = texts.
Proof.
  unfold newSubs.
  assert (G : forall (f : nat -> nat) (l : list string),
             map sq_question
               (imap (fun i text =>
                        {| sq_id := uuidv4 env (f i); sq_question := text;
                           sq_status := pending; searchResults := None;
                           analysis := None |}) l) = l).
  { intros f l. revert f. induction l as [|x l IH]; intros f; [reflexivity|].
    cbn [imap map sq_question]. f_equal. apply (IH (fun i => f (S i))). }
  apply (G (fun i => 2 + i)).
Qed.

Lemma length_newSubs (env : Env) (texts : list string) :
  List.length (newSubs env texts) = List.length texts.
Proof. unfold newSubs. apply length_imap. Qed.

Lemma synthesis_ok (env : Env) (text : string) (r : ResearchData) :
  setEndTime (now env 1)
    (setStatus COMPLETED
       (updateLastStep "Synthesized research results"
          (setReport text
             (setStatus SYNTHESIZING
                (pushStep
                   {| step_id := uuidv4 env 0; step_type := SYNTHESIS;
                      step_content := "Synthesizing research results";
                      step_timestamp := now env 0 |} r)))))
  = afterSynthesis env text r.
Proof.
  rewrite pushStep_first.
  change (setReport text (setStatus SYNTHESIZING (rebuilt ?a ?b ?c ?d ?e r)))
    with (rebuilt a b SYNTHESIZING (Some text) e r).
  rewrite updateLastStep_rebuilt. reflexivity.
Qed.

Lemma synthesize_step (env : Env) (key : string) (r : ResearchData)
    (tool : Tool) :
  findPending (subQuestions r) = None ->
  exists r2,
    synthesizeResults env key r tool
    = (outcomeOf key env tool r, store tool key r2)
    /\ Step tool env r r2.
Proof.
  intros Hf. unfold synthesizeResults, outcomeOf. rewrite Hf.
  change (match question (setStatus SYNTHESIZING (pushStep ?s r)) with
          | Some q =>
              Resolved
                (Synthesis.synthesizeReport q
                   (subQuestions (setStatus SYNTHESIZING (pushStep ?s r))))
          | None =>
              Synthesis.synthesizeReportUndefined
                (subQuestions (setStatus SYNTHESIZING (pushStep ?s r)))
          end) with (reportOf r).
  destruct (reportOf r) as [text|m] eqn:E.
  - exists (afterSynthesis env text r). rewrite synthesis_ok.
    split; [reflexivity|]. eapply Synthesised; eauto.
  - exists (afterSynthesisFailure env r). split; [reflexivity|].
    eapply SynthesisFailed; eauto.
Qed.

Lemma continue_step (env : Env) (params : Params) (tool : Tool)
    (key : string) (r : ResearchData) :
  key <> EmptyString ->
  researches tool !! key = Some r ->
  researchId params = Some key ->
  status r <> COMPLETED ->
  exists r2,
    continueResearch env params tool
    = (outcomeOf key env tool r, store tool key r2)
    /\ Step tool env r r2.
Proof.
  intros Hk Hr Hid Hs. unfold continueResearch.
  rewrite Hid, (findResearch_Some tool key r Hk Hr),
    (status_not_completed r Hs).
  destruct (findPending (subQuestions r)) as [i|] eqn:Ef;
    [|apply synthesize_step; exact Ef].
  destruct (findPending_Some _ _ Ef) as (sq & Hsq & Hp).
  unfold outcomeOf. rewrite Ef, Hsq.
  destruct (Search.performSearch (sq_question sq) (apiKey tool) 10 (http env))
    as [results|m] eqn:E.
  - exists (afterSearch env results i sq r).
    rewrite (continue_search_ok env r i sq results Hsq).
    split; [|eapply Searched; eauto].
    cbn [afterSearch question status subQuestions]. do 4 f_equal.
    unfold pendingCount. apply (count_replace isPending _ i sq); [exact Hsq | |].
    + unfold isPending. rewrite Hp. reflexivity.
    + reflexivity.
  - exists (afterFailure env i sq r).
    rewrite (updateSub_first i _ r sq Hsq), pushStep_rebuilt.
    split; [reflexivity|]. eapply SearchFailed; eauto.
Qed.

(** The effect of one call on the store, with the session it leaves. *)
Lemma execute_step (env : Env) (params : Params) (tool : Tool) :
  (exists response, execute env params tool = (Resolved response, tool))
  \/ (exists q,
        actionOf params = "start"
        /\ query params = Some q
        /\ execute env params tool
           = (Resolved
                (success
                   (Started (uuidv4 env 0) (Some q)
                      (plannedTexts params q) SEARCHING)),
              store tool (uuidv4 env 0) (startedSession env params q)))
  \/ (actionOf params = "start"
      /\ query params = None
      /\ execute env params tool
         = (Rejected (typeErrorUndefined "replace"),
            store tool (uuidv4 env 0) (abandonedSession env)))
  \/ (exists key r r2,
        key <> EmptyString
        /\ researches tool !! key = Some r
        /\ researchId params = Some key
        /\ actionOf params = "continue"
        /\ status r <> COMPLETED
        /\ execute env params tool
           = (outcomeOf key env tool r, store tool key r2)
        /\ Step tool env r r2).
Proof.
  unfold execute.
  destruct (negb (truthy (query params)) && negb (truthy (researchId params)));
    [left; eexists; reflexivity|].
  destruct (String.eqb (actionOf params) "start") eqn:Ea.
  { apply String.eqb_eq in Ea.
    right. unfold startResearch. destruct (query params) as [q|] eqn:Eq.
    - left. exists q. split; [exact Ea|]. split; [reflexivity|].
      fold (plannedTexts params q). fold (newSubs env (plannedTexts params q)).
      rewrite <- (List.map_map sq_question (fun text => "- " ++ text)).
      rewrite imap_fmap_texts, length_newSubs. reflexivity.
    - right; left. split; [exact Ea|]. split; reflexivity. }
  destruct (String.eqb (actionOf params) "status").
  { left. unfold getResearchStatus.
    destruct (findResearch tool (researchId params)) as [[k r]|];
      eexists; reflexivity. }
  destruct (String.eqb (actionOf params) "continue") eqn:Ec.
  { apply String.eqb_eq in Ec.
    destruct (researchId params) as [key|] eqn:Hid;
      [|left; unfold continueResearch; rewrite Hid; eexists; reflexivity].
    destruct (String.eqb key EmptyString) eqn:Ek.
    { apply String.eqb_eq in Ek. subst key. left.
      unfold continueResearch. rewrite Hid. eexists. reflexivity. }
    apply String.eqb_neq in Ek.
    destruct (researches tool !! key) as [r|] eqn:Hr.
    - destruct (ResearchStatus_eqb (status r) COMPLETED) eqn:Es.
      + left. unfold continueResearch.
        rewrite Hid, (findResearch_Some tool key r Ek Hr), Es.
        eexists. reflexivity.
      + assert (Hs : status r <> COMPLETED)
          by (intros H; rewrite H in Es; discriminate).
        destruct (continue_step env params tool key r Ek Hr Hid Hs)
          as (r2 & E & Hstep).
        right; right; right. exists key, r, r2. repeat split; assumption.
    - left. unfold continueResearch, findResearch. rewrite Hid.
      destruct key; [congruence|]. cbn [isEmpty]. rewrite Hr.
      eexists. reflexivity. }
  destruct (String.eqb (actionOf params) "report");
    [|left; eexists; reflexivity].
  left. unfold generateReport.
  destruct (findResearch tool (researchId params)) as [[k r]|];
    [|eexists; reflexivity].
  destruct (negb (ResearchStatus_eqb (status r) COMPLETED));
    eexists; reflexivity.
Qed.

(** ** Well-formed sessions *)

Lemma findPending_first (l : list SubQuestion) (i : nat) :
  findPending l = Some i ->
  forall (j : nat) (sq : SubQuestion),
    j < i -> l !! j = Some sq -> sq_status sq <> pending.
Proof.
  revert i. induction l as [|x l IH]; intros i H j sq Hj Hsq;
    simpl in H; [discriminate|].
  destruct (isPending x) eqn:E; [injection H as <-; lia|].
  destruct (findPending l) as [k|]; [|discriminate]. injection H as <-.
  destruct j as [|j]; simpl in Hsq.
  - injection Hsq as <-. unfold isPending in E. intros Hp. rewrite Hp in E.
    discriminate.
  - apply (IH k eq_refl j sq); [lia | exact Hsq].
Qed.

Lemma findPending_None (l : list SubQuestion) :
  findPending l = None <-> List.length (List.filter isPending l) = 0.
Proof.
  induction l as [|x l IH]; simpl; [tauto|].
  destruct (isPending x); simpl; [split; [discriminate | lia]|].
  destruct (findPending l); split; intros H; try discriminate;
    try reflexivity; try (apply IH; reflexivity).
  apply IH in H. discriminate.
Qed.

Lemma reportOf_wf (key : string) (r : ResearchData) :
  WellFormed key r -> exists text, reportOf r = Resolved text.
Proof.
  intros W. unfold reportOf. destruct (question r) eqn:Eq; [eauto|].
  rewrite (wf_question key r W Eq). cbn. eauto.
Qed.

Lemma newSubs_pending (env : Env) (texts : list string) :
  Forall
    (fun sq =>
       sq_status sq = pending /\ searchResults sq = None
       /\ analysis sq = None)
    (newSubs env texts).
Proof.
  unfold newSubs.
  assert (G : forall (f : nat -> nat) (l : list string),
             Forall
               (fun sq =>
                  sq_status sq = pending /\ searchResults sq = None
                  /\ analysis sq = None)
               (imap (fun i text =>
                        {| sq_id := uuidv4 env (f i); sq_question := text;
                           sq_status := pending; searchResults := None;
                           analysis := None |}) l)).
  { intros f l. revert f. induction l as [|x l IH]; intros f; cbn [imap];
      constructor; [repeat split | apply (IH (fun i => f (S i)))]. }
  apply (G (fun i => 2 + i)).
Qed.

Lemma started_wf (env : Env) (params : Params) (q : string) :
  WellFormed (uuidv4 env 0) (startedSession env params q).
Proof.
  split; cbn [startedSession id status question subQuestions steps report
              endTime].
  - reflexivity.
  - right; left; reflexivity.
  - discriminate.
  - split; reflexivity.
  - eapply List.Forall_impl; [|apply newSubs_pending].
    intros sq (-> & H1 & H2). split; assumption.
  - eexists _, []. repeat split. constructor.
Qed.

Lemma abandoned_wf (env : Env) : WellFormed (uuidv4 env 0) (abandonedSession env).
Proof.
  split; cbn [abandonedSession id status question subQuestions steps report
              endTime].
  - reflexivity.
  - left; reflexivity.
  - reflexivity.
  - split; reflexivity.
  - constructor.
  - eexists _, []. repeat split. constructor.
Qed.

Lemma steps_grow (r : ResearchData) (added : list ResearchStep) :
  (exists first rest,
     steps r = first :: rest
     /\ step_type first = QUESTION_ANALYSIS
     /\ Forall
          (fun s =>
             step_type s = SEARCH \/ step_type s = RESULT_ANALYSIS
             \/ step_type s = SYNTHESIS)
          rest) ->
  Forall
    (fun s =>
       step_type s = SEARCH \/ step_type s = RESULT_ANALYSIS
       \/ step_type s = SYNTHESIS)
    added ->
  exists first rest,
    (steps r ++ added)%list = first :: rest
    /\ step_type first = QUESTION_ANALYSIS
    /\ Forall
         (fun s =>
            step_type s = SEARCH \/ step_type s = RESULT_ANALYSIS
            \/ step_type s = SYNTHESIS)
         rest.
Proof.
  intros (first & rest & -> & Hf & Hr) Ha.
  exists first, (rest ++ added)%list. repeat split; [exact Hf|].
  apply List.Forall_app. split; assumption.
Qed.

Lemma step_wf (tool : Tool) (env : Env) (key : string) (r r2 : ResearchData) :
  WellFormed key r -> status r <> COMPLETED -> Step tool env r r2 ->
  WellFormed key r2.
Proof.
  intros W Hs Hstep.
  assert (Hrep : report r = None /\ endTime r = None).
  { pose proof (wf_report key r W) as H. destruct (status r); try exact H.
    congruence. }
  destruct Hstep as [i sq results Hf Hsq Hp Hperf ->
                    |i sq m Hf Hsq Hp Hperf ->
                    |text Hf Hrp ->
                    |m Hf Hrp ->].
  - split; cbn [afterSearch id status question subQuestions steps report
                endTime].
    + apply (wf_id key r W).
    + apply (wf_status key r W).
    + intros Hq. rewrite (wf_question key r W Hq) in Hsq. discriminate.
    + pose proof (wf_report key r W) as H.
      destruct (status r); try exact H. congruence.
    + apply Forall_insert; [apply (wf_subs key r W)|].
      cbn [completedSub sq_status searchResults analysis sq_question].
      eauto.
    + apply steps_grow; [apply (wf_steps key r W)|].
      constructor; [left; reflexivity|].
      constructor; [right; left; reflexivity | constructor].
  - split; cbn [afterFailure id status question subQuestions steps report
                endTime].
    + apply (wf_id key r W).
    + apply (wf_status key r W).
    + intros Hq. rewrite (wf_question key r W Hq) in Hsq. discriminate.
    + pose proof (wf_report key r W) as H.
      destruct (status r); try exact H. congruence.
    + apply Forall_insert; [apply (wf_subs key r W)|].
      pose proof (Forall_lookup_1 _ _ _ _ (wf_subs key r W) Hsq) as H.
      cbv beta in H. rewrite Hp in H. exact H.
    + apply steps_grow; [apply (wf_steps key r W)|].
      constructor; [left; reflexivity | constructor].
  - split; cbn [afterSynthesis id status question subQuestions steps report
                endTime].
    + apply (wf_id key r W).
    + right; right; reflexivity.
    + apply (wf_question key r W).
    + split; [|eauto]. exists text. split; [reflexivity | exact Hrp].
    + apply (wf_subs key r W).
    + apply steps_grow; [apply (wf_steps key r W)|].
      constructor; [right; right; reflexivity | constructor].
  - destruct (reportOf_wf key r W) as (text & E). congruence.
Qed.

Lemma execute_wf (env : Env) (params : Params) (tool : Tool) :
  map_Forall WellFormed (researches tool) ->
  map_Forall WellFormed (researches (snd (execute env params tool))).
Proof.
  intros Hall.
  destruct (execute_step env params tool)
    as [(response & E)
       |[(q & _ & _ & E)
        |[(_ & _ & E)|(key & r & r2 & _ & Hr & _ & _ & Hs & E & Hstep)]]];
    rewrite E; [exact Hall| | |]; cbn [snd store researches];
    apply map_Forall_insert_2; try exact Hall.
  - apply started_wf.
  - apply abandoned_wf.
  - apply (step_wf tool env key r r2 (Hall key r Hr) Hs Hstep).
Qed.

Lemma run_wf (calls : list (Env * Params)) :
  forall tool : Tool,
    map_Forall WellFormed (researches tool) ->
    map_Forall WellFormed (researches (snd (run tool calls))).
Proof.
  induction calls as [|[env params] rest IH]; intros tool Hall; [exact Hall|].
  rewrite run_cons. cbn [snd]. apply IH, execute_wf, Hall.
Qed.

(** ** Later states of a session *)

Lemma Extends_refl (r : ResearchData) : Extends r r.
Proof. split; try reflexivity; [tauto | exists []; symmetry; apply List.app_nil_r]. Qed.

Lemma Extends_trans (r1 r2 r3 : ResearchData) :
  Extends r1 r2 -> Extends r2 r3 -> Extends r1 r3.
Proof.
  intros A B. split.
  - rewrite (ext_id _ _ B). apply (ext_id _ _ A).
  - rewrite (ext_question _ _ B). apply (ext_question _ _ A).
  - rewrite (ext_start _ _ B). apply (ext_start _ _ A).
  - rewrite (ext_ids _ _ B). apply (ext_ids _ _ A).
  - rewrite (ext_texts _ _ B). apply (ext_texts _ _ A).
  - intros i sq Hsq Hp. apply (ext_settled _ _ B); [|exact Hp].
    apply (ext_settled _ _ A); assumption.
  - destruct (ext_steps _ _ A) as (a & Ea), (ext_steps _ _ B) as (b & Eb).
    exists (a ++ b)%list. rewrite Eb, Ea. symmetry. apply List.app_assoc.
Qed.

Lemma map_replace {B : Type} (f : SubQuestion -> B) (l : list SubQuestion)
    (i : nat) (x y : SubQuestion) :
  l !! i = Some x -> f y = f x -> map f (<[i := y]> l) = map f l.
Proof.
  revert i. induction l as [|a l IH]; intros i Hi Hf; [reflexivity|].
  destruct i as [|i]; simpl in *.
  - injection Hi as ->. rewrite Hf. reflexivity.
  - f_equal. apply (IH i Hi Hf).
Qed.

Lemma replace_settled (l : list SubQuestion) (i : nat) (x y : SubQuestion) :
  l !! i = Some x -> sq_status x = pending ->
  forall (j : nat) (sq : SubQuestion),
    l !! j = Some sq -> sq_status sq <> pending ->
    <[i := y]> l !! j = Some sq.
Proof.
  intros Hi Hp j sq Hj Hn.
  destruct (Nat.eq_dec i j) as [->|Hne]; [congruence|].
  rewrite list_lookup_insert_ne by exact Hne. exact Hj.
Qed.

Lemma step_extends (tool : Tool) (env : Env) (r r2 : ResearchData) :
  Step tool env r r2 -> Extends r r2.
Proof.
  intros [i sq results Hf Hsq Hp Hperf ->
         |i sq m Hf Hsq Hp Hperf ->
         |text Hf Hrp ->
         |m Hf Hrp ->];
    split;
    cbn [afterSearch afterFailure afterSynthesis afterSynthesisFailure id
         question startTime subQuestions steps];
    try reflexivity; try (eexists; reflexivity); try tauto;
    try (apply (map_replace _ _ i sq); [exact Hsq | reflexivity]);
    apply (replace_settled _ i sq); assumption.
Qed.

Lemma execute_extends (env : Env) (params : Params) (tool : Tool)
    (key : string) (r : ResearchData) :
  Observe.freshCall tool (env, params) = true ->
  researches tool !! key = Some r ->
  exists r2,
    researches (snd (execute env params tool)) !! key = Some r2
    /\ Extends r r2.
Proof.
  intros Hfresh Hr. unfold Observe.freshCall in Hfresh. cbn [fst snd] in Hfresh.
  assert (Hnew : actionOf params = "start" -> uuidv4 env 0 <> key).
  { intros Ea. rewrite Ea in Hfresh. cbn in Hfresh.
    intros E0. rewrite E0, Hr in Hfresh. discriminate. }
  destruct (execute_step env params tool)
    as [(response & E)
       |[(q & Ea & _ & E)
        |[(Ea & _ & E)|(k & r0 & r2 & _ & Hr0 & _ & _ & _ & E & Hstep)]]];
    rewrite E; cbn [snd store researches].
  - exists r. split; [exact Hr | apply Extends_refl].
  - exists r. rewrite lookup_insert_ne by (apply Hnew, Ea).
    split; [exact Hr | apply Extends_refl].
  - exists r. rewrite lookup_insert_ne by (apply Hnew, Ea).
    split; [exact Hr | apply Extends_refl].
  - destruct (String.eqb k key) eqn:Ek.
    + apply String.eqb_eq in Ek. subst k. exists r2.
      rewrite lookup_insert_eq. split; [reflexivity|].
      replace r with r0 by congruence. apply (step_extends tool env), Hstep.
    + apply String.eqb_neq in Ek. exists r.
      rewrite lookup_insert_ne by exact Ek.
      split; [exact Hr | apply Extends_refl].
Qed.

(** ** Calls and their answers *)

Lemma findResearch_inv (tool : Tool) (rid : option string) (key : string)
    (r : ResearchData) :
  findResearch tool rid = Some (key, r) ->
  rid = Some key /\ key <> EmptyString /\ researches tool !! key = Some r.
Proof.
  unfold findResearch. destruct rid as [k|]; [|discriminate].
  destruct k as [|c k]; [discriminate|]. cbn [isEmpty].
  destruct (researches tool !! String c k) as [x|] eqn:E; [|discriminate].
  intros [= <- <-]. repeat split; [discriminate | exact E].
Qed.

Lemma findResearch_None (tool : Tool) (rid : option string) :
  (forall key, rid = Some key -> researches tool !! key = None) ->
  findResearch tool rid = None.
Proof.
  intros H. unfold findResearch. destruct rid as [k|]; [|reflexivity].
  rewrite (H k eq_refl). destruct (isEmpty k); reflexivity.
Qed.

Lemma guard_passed (params : Params) :
  truthy (query params) || truthy (researchId params) = true ->
  negb (truthy (query params)) && negb (truthy (researchId params)) = false.
Proof.
  destruct (truthy (query params)), (truthy (researchId params));
    (discriminate || reflexivity).
Qed.

Lemma startResearch_started (env : Env) (params : Params) (tool : Tool)
    (q : string) :
  query params = Some q ->
  startResearch env params tool
  = (Resolved
       (success
          (Started (uuidv4 env 0) (Some q) (plannedTexts params q) SEARCHING)),
     store tool (uuidv4 env 0) (startedSession env params q)).
Proof.
  intros Eq.
  unfold startResearch. rewrite Eq. fold (plannedTexts params q).
  fold (newSubs env (plannedTexts params q)).
  rewrite <- (List.map_map sq_question (fun text => "- " ++ text)).
  rewrite imap_fmap_texts, length_newSubs. reflexivity.
Qed.

Lemma newSubs_overview (env : Env) (texts : list string) :
  map (fun sq => (sq_question sq, sq_status sq)) (newSubs env texts)
  = map (fun text => (text, pending)) texts.
Proof.
  unfold newSubs.
  assert (G : forall (f : nat -> nat) (l : list string),
             map (fun sq => (sq_question sq, sq_status sq))
               (imap (fun i text =>
                        {| sq_id := uuidv4 env (f i); sq_question := text;
                           sq_status := pending; searchResults := None;
                           analysis := None |}) l)
             = map (fun text => (text, pending)) l).
  { intros f l. revert f. induction l as [|x l IH]; intros f; [reflexivity|].
    cbn [imap map sq_question sq_status]. f_equal.
    apply (IH (fun i => f (S i))). }
  apply (G (fun i => 2 + i)).
Qed.

Lemma outcomeOf_answer (key : string) (env : Env) (tool : Tool)
    (r : ResearchData) (m : string) :
  outcomeOf key env tool r <> Resolved (error m).
Proof.
  unfold outcomeOf.
  destruct (findPending (subQuestions r)) as [i|].
  - destruct (subQuestions r !! i) as [sq|]; [|discriminate].
    destruct (Search.performSearch _ _ _ _); discriminate.
  - destruct (reportOf r); discriminate.
Qed.

Lemma continue_searched (env : Env) (params : Params) (tool : Tool)
    (key : string) (r : ResearchData) (i : nat) (sq : SubQuestion)
    (results : list SearchResult) :
  key <> EmptyString ->
  researches tool !! key = Some r ->
  researchId params = Some key ->
  status r <> COMPLETED ->
  findPending (subQuestions r) = Some i ->
  subQuestions r !! i = Some sq ->
  Search.performSearch (sq_question sq) (apiKey tool) 10 (http env)
  = Resolved results ->
  continueResearch env params tool
  = (Resolved
       (success
          (Progress key (question r) (sq_question sq) (pendingCount r - 1)
             (status r))),
     store tool key (afterSearch env results i sq r)).
Proof.
  intros Hk Hr Hid Hs Hf Hsq Hperf.
  destruct (continue_step env params tool key r Hk Hr Hid Hs)
    as (r2 & E & Hstep).
  rewrite E. unfold outcomeOf. rewrite Hf, Hsq, Hperf. f_equal. f_equal.
  destruct Hstep as [i' sq' results' Hf' Hsq' _ Hperf' ->
                    |i' sq' m Hf' Hsq' _ Hperf' ->
                    |text Hf' _ ->
                    |m Hf' _ ->]; congruence.
Qed.

Lemma continue_synthesised (env : Env) (params : Params) (tool : Tool)
    (key : string) (r : ResearchData) (text : string) :
  key <> EmptyString ->
  researches tool !! key = Some r ->
  researchId params = Some key ->
  status r <> COMPLETED ->
  findPending (subQuestions r) = None ->
  reportOf r = Resolved text ->
  continueResearch env params tool
  = (Resolved
       (success
          (Synthesized (id r) (question r) COMPLETED "Research completed"
             (substring0 500 text ++ "..."))),
     store tool key (afterSynthesis env text r)).
Proof.
  intros Hk Hr Hid Hs Hf Hrp.
  destruct (continue_step env params tool key r Hk Hr Hid Hs)
    as (r2 & E & Hstep).
  rewrite E. unfold outcomeOf. rewrite Hf, Hrp. f_equal. f_equal.
  destruct Hstep as [i' sq' results' Hf' _ _ _ _
                    |i' sq' m Hf' _ _ _ _
                    |text' _ Hrp' ->
                    |m _ Hrp' _]; congruence.
Qed.

Lemma substring0_prefix (n : nat) (s : string) :
  String.prefix (substring0 n s) s = true.
Proof.
  revert s. induction n as [|n IH]; intros [|c s]; try reflexivity.
  cbn [substring0 String.prefix].
  destruct (ascii_dec c c); [apply IH | congruence].
Qed.

Lemma substring0_length (n : nat) (s : string) :
  String.length (substring0 n s) = Nat.min n (String.length s).
Proof.
  revert s. induction n as [|n IH]; intros [|c s]; try reflexivity.
  cbn [substring0 String.length Nat.min]. rewrite IH. reflexivity.
Qed.

Lemma searchable_found (query key : string) (count : Z)
    (answer : Search.HttpOutcome) :
  Facts.searchable query key answer = true ->
  exists results,
    Search.performSearch query key count answer = Resolved results.
Proof.
  unfold Facts.searchable, Search.performSearch.
  destruct (isEmpty query); [discriminate|].
  destruct (isEmpty key); [discriminate|]. cbn [negb andb].
  destruct answer as [m|[raws|]]; [discriminate| |eauto].
  intros H. pose proof (parseResults_cases query raws) as C.
  destruct (Search.parseResults query raws) as [rs|m]; [eauto|].
  destruct C as (C & _). congruence.
Qed.

Lemma lookup_In {A : Type} (l : list A) (i : nat) (x : A) :
  l !! i = Some x -> In x l.
Proof.
  revert i. induction l as [|a l IH]; intros i H; [discriminate|].
  destruct i as [|i]; simpl in H.
  - injection H as ->. left; reflexivity.
  - right. apply (IH i H).
Qed.

Lemma pending_left (l : list SubQuestion) (i : nat) :
  findPending l = Some i -> 1 <= List.length (List.filter isPending l).
Proof.
  intros H.
  destruct (List.length (List.filter isPending l)) eqn:E; [|lia].
  apply findPending_None in E. congruence.
Qed.

Lemma run_continues (params : Params) (key : string) (envs : list Env) :
  key <> EmptyString ->
  researchId params = Some key ->
  action params = Some "continue" ->
  forall (tool : Tool) (r : ResearchData),
    researches tool !! key = Some r ->
    WellFormed key r ->
    status r <> COMPLETED ->
    Forall (fun env => searchesSucceed tool r env = true) envs ->
    List.length envs = S (pendingCount r) ->
    exists r2,
      researches (snd (run tool (continues params envs))) !! key = Some r2
      /\ WellFormed key r2
      /\ status r2 = COMPLETED
      /\ pendingCount r2 = 0
      /\ List.length (steps r2)
         = List.length (steps r) + 2 * pendingCount r + 1.
Proof.
  intros Hk Hid Hact.
  induction envs as [|env rest IH]; intros tool r Hr W Hs Hall Hlen;
    [discriminate|].
  cbn [List.length] in Hlen. injection Hlen as Hlen.
  apply List.Forall_cons_iff in Hall as [Henv Hall].
  cbn [continues map]. fold (continues params rest). rewrite run_cons.
  cbn [snd]. rewrite (execute_continue env params tool key Hk Hid Hact).
  destruct (findPending (subQuestions r)) as [i|] eqn:Hf.
  - destruct (findPending_Some _ _ Hf) as (sq & Hsq & Hp).
    assert (Hfound : Facts.searchable (sq_question sq) (apiKey tool)
                       (http env) = true).
    { unfold searchesSucceed in Henv.
      apply (proj1 (List.forallb_forall _ _) Henv).
      apply List.in_map_iff. exists sq. split; [reflexivity|].
      apply (lookup_In _ i), Hsq. }
    destruct (searchable_found _ _ 10%Z _ Hfound) as (results & Hperf).
    rewrite (continue_searched env params tool key r i sq results
               Hk Hr Hid Hs Hf Hsq Hperf).
    cbn [snd].
    assert (Hcount : pendingCount (afterSearch env results i sq r)
                     = pendingCount r - 1).
    { unfold pendingCount. cbn [afterSearch subQuestions].
      apply (count_replace isPending _ i sq); [exact Hsq | |reflexivity].
      unfold isPending. rewrite Hp. reflexivity. }
    pose proof (pending_left _ _ Hf) as Hleft. fold (pendingCount r) in Hleft.
    destruct (IH (store tool key (afterSearch env results i sq r))
                (afterSearch env results i sq r))
      as (r2 & Hr2 & W2 & Hs2 & Hp2 & Hl2).
    + cbn [store researches]. apply lookup_insert_eq.
    + apply (step_wf tool env key r _ W Hs).
      eapply Searched; eauto.
    + exact Hs.
    + eapply List.Forall_impl; [|exact Hall].
      intros e He. unfold searchesSucceed in *.
      cbn [store apiKey afterSearch subQuestions].
      rewrite (map_replace sq_question _ i sq) by (exact Hsq || reflexivity).
      exact He.
    + rewrite Hcount. lia.
    + exists r2. split; [exact Hr2|]. split; [exact W2|].
      split; [exact Hs2|]. split; [exact Hp2|].
      rewrite Hl2, Hcount. cbn [afterSearch steps].
      rewrite List.length_app. cbn [List.length]. lia.
  - assert (Hzero : pendingCount r = 0) by (apply findPending_None, Hf).
    rewrite Hzero in Hlen. destruct rest; [|discriminate].
    destruct (reportOf_wf key r W) as (text & Hrp).
    rewrite (continue_synthesised env params tool key r text
               Hk Hr Hid Hs Hf Hrp).
    cbn [continues map run snd store researches].
    exists (afterSynthesis env text r). rewrite lookup_insert_eq.
    split; [reflexivity|]. split; [|split; [reflexivity|split]].
    + apply (step_wf tool env key r _ W Hs). eapply Synthesised; eauto.
    + exact Hzero.
    + cbn [afterSynthesis steps]. rewrite List.length_app, Hzero.
      cbn [List.length]. lia.
Qed.

Lemma execute_status (env : Env) (params : Params) (tool : Tool)
    (key : string) :
  key <> EmptyString ->
  researchId params = Some key ->
  action params = Some "status" ->
  execute env params tool = getResearchStatus params tool.
Proof.
  intros Hk Hid Hact. unfold execute.
  rewrite Hid, (truthy_Some key Hk), andb_false_r.
  rewrite (actionOf_Some params "status") by (congruence || exact Hact).
  reflexivity.
Qed.

(** ** Sub-questions in progress and failed searches *)

Lemma newSubs_in_progress (env : Env) (texts : list string) :
  List.filter Observe.isInProgress (newSubs env texts) = [].
Proof.
  pose proof (newSubs_pending env texts) as H.
  induction H as [|sq rest (Hp & _) _ IH]; [reflexivity|].
  cbn [List.filter]. unfold Observe.isInProgress at 1. rewrite Hp. exact IH.
Qed.

Lemma step_in_progress (tool : Tool) (env : Env) (key : string)
    (r r2 : ResearchData) :
  WellFormed key r -> Step tool env r r2 ->
  Observe.inProgressCount r2
  = Observe.inProgressCount r
    + (if Observe.isRejected (outcomeOf key env tool r) then 1 else 0).
Proof.
  intros W [i sq results Hf Hsq Hp Hperf ->
           |i sq m Hf Hsq Hp Hperf ->
           |text Hf Hrp ->
           |m Hf Hrp ->];
    unfold outcomeOf, Observe.inProgressCount;
    cbn [afterSearch afterFailure afterSynthesis subQuestions].
  - rewrite Hf, Hsq, Hperf. cbn [Observe.isRejected].
    rewrite (count_insert Observe.isInProgress _ i sq _ Hsq)
      by (unfold Observe.isInProgress; rewrite Hp; reflexivity).
    reflexivity.
  - rewrite Hf, Hsq, Hperf. cbn [Observe.isRejected].
    rewrite (count_insert Observe.isInProgress _ i sq _ Hsq)
      by (unfold Observe.isInProgress; rewrite Hp; reflexivity).
    reflexivity.
  - rewrite Hf, Hrp. cbn [Observe.isRejected]. lia.
  - destruct (reportOf_wf key r W) as (text & E). congruence.
Qed.

Lemma execute_in_progress (env : Env) (params : Params) (tool : Tool)
    (key : string) :
  map_Forall WellFormed (researches tool) ->
  Observe.freshCall tool (env, params) = true ->
  Observe.inProgressAt (snd (execute env params tool)) key
  = Observe.inProgressAt tool key
    + (if Observe.isFailedSearch key (env, params)
            (fst (execute env params tool))
       then 1 else 0).
Proof.
  intros Hall Hfresh. unfold Observe.freshCall in Hfresh.
  cbn [fst snd] in Hfresh.
  assert (Hnew : actionOf params = "start" ->
                 researches tool !! uuidv4 env 0 = None).
  { intros Ea. rewrite Ea in Hfresh. cbn in Hfresh.
    destruct (researches tool !! uuidv4 env 0); [discriminate | reflexivity]. }
  unfold Observe.isFailedSearch, Observe.inProgressAt. cbn [fst snd].
  destruct (execute_step env params tool)
    as [(response & E)
       |[(q & Ea & _ & E)
        |[(Ea & _ & E)|(k & r & r2 & _ & Hr & Hid & Ec & _ & E & Hstep)]]];
    rewrite E; cbn [fst snd store researches Observe.isRejected].
  - rewrite andb_false_r. lia.
  - rewrite andb_false_r, Nat.add_0_r.
    destruct (String.eqb (uuidv4 env 0) key) eqn:Ek.
    + apply String.eqb_eq in Ek. subst key.
      rewrite lookup_insert_eq, (Hnew Ea).
      unfold Observe.inProgressCount. cbn [startedSession subQuestions].
      rewrite newSubs_in_progress. reflexivity.
    + apply String.eqb_neq in Ek. rewrite lookup_insert_ne by exact Ek.
      reflexivity.
  - rewrite Ea. cbn [String.eqb Ascii.eqb Bool.eqb andb]. rewrite Nat.add_0_r.
    destruct (String.eqb (uuidv4 env 0) key) eqn:Ek.
    + apply String.eqb_eq in Ek. subst key.
      rewrite lookup_insert_eq, (Hnew Ea). reflexivity.
    + apply String.eqb_neq in Ek. rewrite lookup_insert_ne by exact Ek.
      reflexivity.
  - rewrite Ec, Hid. cbn [String.eqb Ascii.eqb Bool.eqb andb].
    destruct (String.eqb k key) eqn:Ek; cbn [andb].
    + apply String.eqb_eq in Ek. subst k.
      rewrite lookup_insert_eq, Hr.
      apply (step_in_progress tool env key r r2 (Hall key r Hr) Hstep).
    + apply String.eqb_neq in Ek. rewrite lookup_insert_ne by exact Ek.
      lia.
Qed.

Lemma run_in_progress (calls : list (Env * Params)) :
  forall (tool : Tool) (key : string),
    map_Forall WellFormed (researches tool) ->
    Observe.freshCalls tool calls = true ->
    Observe.inProgressAt (snd (run tool calls)) key
    = Observe.inProgressAt tool key
      + Observe.failedSearches key calls (fst (run tool calls)).
Proof.
  induction calls as [|[env params] rest IH]; intros tool key Hall Hfresh.
  - cbn. lia.
  - cbn [Observe.freshCalls fst snd] in Hfresh.
    apply andb_true_iff in Hfresh as [H1 H2].
    rewrite run_cons. cbn [fst snd].
    rewrite (IH _ key (execute_wf env params tool Hall) H2).
    rewrite (execute_in_progress env params tool key Hall H1).
    unfold Observe.failedSearches. cbn [combine List.filter fst snd].
    destruct (Observe.isFailedSearch key (env, params)
                (fst (execute env params tool)));
      cbn [List.length]; lia.
Qed.

Lemma freshCalls_prefix (before after : list (Env * Params)) :
  forall tool : Tool,
    Observe.freshCalls tool (before ++ after) = true ->
    Observe.freshCalls tool before = true.
Proof.
  induction before as [|call rest IH]; intros tool H; [reflexivity|].
  rewrite <- app_comm_cons in H. cbn [Observe.freshCalls] in *.
  apply andb_true_iff in H as [H1 H2].
  rewrite H1. cbn [andb]. apply (IH _ H2).
Qed.

End SessionSteps.

(** C2, as the code has it.  Take any sequence of calls on a new tool in
    which every start draws an identifier that is not in use, and any
    point between two calls of it.  At that point every session has
    exactly as many sub-questions 'in-progress' as searches of that
    session have failed before (continue calls on the session whose
    promise was rejected): none as long as no search of the session has
    failed, one as long as one has.  And whatever is called after that
    point, the session is still stored and its status has not moved
    backwards in the order planning, searching, synthesizing,
    completed. *)
Theorem session_invariants (apiKey : string)
    (before after : list (DeepResearch.Env * DeepResearch.Params)) :
  Observe.freshCalls (DeepResearch.newTool apiKey) (before ++ after) = true ->
  let here := DeepResearch.run (DeepResearch.newTool apiKey) before in
  let later := DeepResearch.run (DeepResearch.newTool apiKey) (before ++ after) in
  forall (key : string) (r : Types.ResearchData),
    DeepResearch.researches (snd here) !! key = Some r ->
    Observe.inProgressCount r = Observe.failedSearches key before (fst here)
    /\ exists r',
         DeepResearch.researches (snd later) !! key = Some r'
         /\ Observe.rank (Types.status r) <= Observe.rank (Types.status r').
Proof.
  intros Hfresh here later key r Hr. split.
  - pose proof (run_in_progress before (DeepResearch.newTool apiKey) key) as H.
    unfold Observe.inProgressAt in H. fold here in H. rewrite Hr in H.
    cbn [DeepResearch.newTool DeepResearch.researches] in H.
    rewrite lookup_empty in H. apply H.
    + intros k x Hx. rewrite lookup_empty in Hx. discriminate.
    + apply (freshCalls_prefix before after), Hfresh.
  - subst later. rewrite run_app.
    apply run_rank; [|exact Hr].
    apply freshCalls_app. exact Hfresh.
Qed.

Lemma session_invariants_witness :
  Observe.inProgressCount Sample.failedOnceSession
  = Observe.failedSearches "u0-0" Sample.oneFailure
      (fst (DeepResearch.run Sample.tool0 Sample.oneFailure))
  /\ exists r',
       DeepResearch.researches
         (snd (DeepResearch.run Sample.tool0
                 (Sample.oneFailure ++ Sample.thenSuccess)))
       !! "u0-0" = Some r'
       /\ 1 <= Observe.rank (Types.status r').
Proof.
  apply (session_invariants "key" Sample.oneFailure Sample.thenSuccess
           eq_refl "u0-0" Sample.failedOnceSession).
  vm_compute. reflexivity.
Defined.

(** ** The calls of the deep research tool *)

Section Sessions.
Import Js Types DeepResearch Session.

(** X9.  A continue on a session that is not completed and has a pending
    sub-question, when the search succeeds: the sub-question searched is
    the first pending one; it is stored as completed with the results and
    their analysis, two steps (search, result analysis) are appended, and
    nothing else of the session changes.  The answer names the
    sub-question and counts the pending ones that remain, one fewer than
    before; the status of the session stays as it was. *)
Theorem continue_search_effect (env : Env) (params : Params) (tool : Tool)
    (key : string) (r : ResearchData) (i : nat) (sq : SubQuestion)
    (results : list SearchResult) :
  key <> EmptyString ->
  researchId params = Some key ->
  action params = Some "continue" ->
  researches tool !! key = Some r ->
  status r <> COMPLETED ->
  findPending (subQuestions r) = Some i ->
  subQuestions r !! i = Some sq ->
  Search.performSearch (sq_question sq) (apiKey tool) 10 (http env)
  = Resolved results ->
  execute env params tool
  = (Resolved
       (success
          (Progress key (question r) (sq_question sq) (pendingCount r - 1)
             (status r))),
     store tool key (afterSearch env results i sq r))
  /\ sq_status sq = pending
  /\ (forall (j : nat) (other : SubQuestion),
        j < i -> subQuestions r !! j = Some other ->
        sq_status other <> pending)
  /\ pendingCount (afterSearch env results i sq r) = pendingCount r - 1
  /\ 1 <= pendingCount r.
Proof.
  intros Hk Hid Hact Hr Hs Hf Hsq Hperf.
  destruct (findPending_Some _ _ Hf) as (sq' & Hsq' & Hp).
  assert (sq' = sq) by congruence. subst sq'.
  split; [|split; [exact Hp|split; [apply findPending_first, Hf|split]]].
  - rewrite (execute_continue env params tool key Hk Hid Hact).
    apply continue_searched; assumption.
  - unfold pendingCount. cbn [afterSearch subQuestions].
    apply (count_replace isPending _ i sq); [exact Hsq | |reflexivity].
    unfold isPending. rewrite Hp. reflexivity.
  - apply (pending_left _ i), Hf.
Qed.

Lemma continue_search_effect_witness :
  execute (Sample.env 1 Sample.found) (Sample.call "continue" "u0-0")
    Sample.started
  = (Resolved
       (success
          (Progress "u0-0" (Some "Compare solar and wind energy")
             "Compare solar?" 1 SEARCHING)),
     store Sample.started "u0-0"
       (afterSearch (Sample.env 1 Sample.found) Sample.firstResults 0
          Sample.firstSub Sample.startedSession))
  /\ pendingCount
       (afterSearch (Sample.env 1 Sample.found) Sample.firstResults 0
          Sample.firstSub Sample.startedSession)
     = 1.
Proof.
  pose proof (continue_search_effect (Sample.env 1 Sample.found)
                (Sample.call "continue" "u0-0") Sample.started "u0-0"
                Sample.startedSession 0 Sample.firstSub Sample.firstResults)
    as H.
  destruct H as (H1 & _ & _ & H2 & _).
  - discriminate.
  - reflexivity.
  - reflexivity.
  - vm_compute. reflexivity.
  - discriminate.
  - reflexivity.
  - reflexivity.
  - vm_compute. reflexivity.
  - split; [exact H1 | exact H2].
Defined.

(** X10.  A continue on a session that is not completed and has no
    pending sub-question writes the report: the session is stored as
    completed with the report and the end time, one synthesis step is
    appended, and the answer carries the first 500 characters of the
    report followed by "..." (also when the report is shorter).  A report
    call after it returns the whole report, the counts of sub-questions
    and steps, and the duration in seconds, and changes nothing. *)
Theorem synthesis_then_report (env env2 : Env) (params params2 : Params)
    (tool : Tool) (key : string) (r : ResearchData) (text : string) :
  key <> EmptyString ->
  researches tool !! key = Some r ->
  status r <> COMPLETED ->
  findPending (subQuestions r) = None ->
  reportOf r = Resolved text ->
  researchId params = Some key ->
  action params = Some "continue" ->
  researchId params2 = Some key ->
  action params2 = Some "report" ->
  execute env params tool
  = (Resolved
       (success
          (Synthesized (id r) (question r) COMPLETED "Research completed"
             (substring0 500 text ++ "..."))),
     store tool key (afterSynthesis env text r))
  /\ String.prefix (substring0 500 text) text = true
  /\ String.length (substring0 500 text) = Nat.min 500 (String.length text)
  /\ execute env2 params2 (store tool key (afterSynthesis env text r))
     = (Resolved
          (success
             (Report key (question r) (Some text)
                (List.length (subQuestions r)) (S (List.length (steps r)))
                (startTime r) (Some (now env 1))
                (Some (inject_Z (now env 1 - startTime r) / 1000)%Q))),
        store tool key (afterSynthesis env text r)).
Proof.
  intros Hk Hr Hs Hf Hrp Hid Hact Hid2 Hact2.
  split; [|split; [apply substring0_prefix|split; [apply substring0_length|]]].
  - rewrite (execute_continue env params tool key Hk Hid Hact).
    apply continue_synthesised; assumption.
  - rewrite (execute_report env2 params2 _ key Hk Hid2 Hact2).
    rewrite (generateReport_found params2 _ key (afterSynthesis env text r)).
    + cbn [afterSynthesis status ResearchStatus_eqb question report
           subQuestions steps startTime endTime durationOf].
      rewrite List.length_app. cbn [List.length].
      rewrite Nat.add_1_r. reflexivity.
    + rewrite Hid2. apply findResearch_Some; [exact Hk|].
      cbn [store researches]. apply lookup_insert_eq.
Qed.

Lemma synthesis_then_report_witness :
  execute (Sample.env 4 Sample.found) (Sample.call "continue" "u0-0")
    Sample.searched
  = (Resolved
       (success
          (Synthesized "u0-0" (Some "solar") COMPLETED "Research completed"
             (substring0 500 Sample.searchedReport ++ "..."))),
     store Sample.searched "u0-0"
       (afterSynthesis (Sample.env 4 Sample.found) Sample.searchedReport
          Sample.searchedSession))
  /\ Observe.returnedReport
       (fst (execute (Sample.env 5 Sample.found) (Sample.call "report" "u0-0")
               (store Sample.searched "u0-0"
                  (afterSynthesis (Sample.env 4 Sample.found)
                     Sample.searchedReport Sample.searchedSession))))
     = Some Sample.searchedReport.
Proof.
  pose proof (synthesis_then_report (Sample.env 4 Sample.found)
                (Sample.env 5 Sample.found)
                (Sample.call "continue" "u0-0") (Sample.call "report" "u0-0")
                Sample.searched "u0-0" Sample.searchedSession
                Sample.searchedReport) as H.
  destruct H as (H1 & _ & _ & H2).
  - discriminate.
  - vm_compute. reflexivity.
  - discriminate.
  - reflexivity.
  - reflexivity.
  - reflexivity.
  - reflexivity.
  - reflexivity.
  - reflexivity.
  - split; [exact H1 | rewrite H2; reflexivity].
Defined.

(** X11.  Whatever calls a tool has served one after the other since it
    was created, every session it stores is well formed: it is stored
    under its own id; its status is planning, searching or completed
    (never analyzing, never synthesizing); it has sub-questions only if it
    has a question; it has a report and an end time exactly when it is
    completed, and the report is the synthesis of its question and
    sub-questions as they are stored; a completed sub-question has results
    and the analysis of those results, any other has neither; its first
    step is the question analysis and every later step is a search, a
    result analysis or a synthesis.  So the synthesis of a stored session
    never fails. *)
Theorem run_wellformed (apiKey : string) (calls : list (Env * Params)) :
  map_Forall WellFormed (researches (snd (run (newTool apiKey) calls)))
  /\ map_Forall (fun _ r => exists text, reportOf r = Resolved text)
       (researches (snd (run (newTool apiKey) calls))).
Proof.
  assert (H : map_Forall WellFormed
                (researches (snd (run (newTool apiKey) calls)))).
  { apply run_wf. intros k r Hr. cbn in Hr. rewrite lookup_empty in Hr.
    discriminate. }
  split; [exact H|]. intros k r Hr. apply (reportOf_wf k), (H k r Hr).
Qed.

(** X12.  Over any run in which no start draws an id that is in use, a
    stored session stays stored, and what it becomes is a later state of
    it: same id, question and start time; the same sub-questions by id and
    text, in the same order; every sub-question that is not pending
    (in progress or completed) exactly as it was; and the same steps with
    steps added behind them. *)
Theorem run_history (tool : Tool) (calls : list (Env * Params))
    (key : string) (r : ResearchData) :
  Observe.freshCalls tool calls = true ->
  researches tool !! key = Some r ->
  exists r2,
    researches (snd (run tool calls)) !! key = Some r2 /\ Extends r r2.
Proof.
  revert tool r. induction calls as [|[env params] rest IH];
    intros tool r Hfresh Hr.
  - exists r. split; [exact Hr | apply Extends_refl].
  - cbn [Observe.freshCalls fst snd] in Hfresh.
    apply andb_true_iff in Hfresh as [H1 H2].
    destruct (execute_extends env params tool key r H1 Hr) as (r1 & Hr1 & E1).
    destruct (IH _ r1 H2 Hr1) as (r2 & Hr2 & E2).
    exists r2. rewrite run_cons. cbn [snd].
    split; [exact Hr2 | apply (Extends_trans r r1 r2); assumption].
Qed.

Lemma run_history_witness :
  exists r2,
    researches (snd (run Sample.failedOnce Sample.thenSuccess)) !! "u0-0"
    = Some r2
    /\ Extends Sample.failedOnceSession r2.
Proof.
  apply (run_history Sample.failedOnce Sample.thenSuccess "u0-0"
           Sample.failedOnceSession).
  - vm_compute. reflexivity.
  - vm_compute. reflexivity.
Defined.

(** X13.  A call that is answered with an error response leaves the tool
    as it was, and the error is one of four: "Either query or researchId
    is required", "Research not found: " with the id given, "Research is
    not yet completed", "Invalid action: " with the action given. *)
Theorem execute_error_frame (env : Env) (params : Params) (tool : Tool)
    (m : string) :
  fst (execute env params tool) = Resolved (error m) ->
  snd (execute env params tool) = tool
  /\ (m = "Either query or researchId is required"
      \/ m = "Research not found: " ++ showOpt (researchId params)
      \/ m = "Research is not yet completed"
      \/ m = "Invalid action: " ++ actionOf params).
Proof.
  unfold execute.
  destruct (negb (truthy (query params)) && negb (truthy (researchId params))).
  { cbn [fst snd]. intros [= <-]. split; [reflexivity | tauto]. }
  destruct (String.eqb (actionOf params) "start").
  { unfold startResearch. destruct (query params); discriminate. }
  destruct (String.eqb (actionOf params) "status").
  { unfold getResearchStatus, notFound.
    destruct (findResearch tool (researchId params)) as [[k r]|];
      [discriminate|].
    cbn [fst snd]. intros [= <-]. split; [reflexivity | tauto]. }
  destruct (String.eqb (actionOf params) "continue").
  { destruct (findResearch tool (researchId params)) as [[k r]|] eqn:Ef.
    - destruct (findResearch_inv _ _ _ _ Ef) as (Hid & Hk & Hr).
      destruct (ResearchStatus_eqb (status r) COMPLETED) eqn:Es.
      + unfold continueResearch. rewrite Ef, Es. discriminate.
      + assert (Hs : status r <> COMPLETED)
          by (intros H; rewrite H in Es; discriminate).
        destruct (continue_step env params tool k r Hk Hr Hid Hs)
          as (r2 & E & _).
        rewrite E. cbn [fst]. intros H.
        exfalso. exact (outcomeOf_answer _ _ _ _ _ H).
    - unfold continueResearch, notFound. rewrite Ef.
      cbn [fst snd]. intros [= <-]. split; [reflexivity | tauto]. }
  destruct (String.eqb (actionOf params) "report").
  { unfold generateReport, notFound.
    destruct (findResearch tool (researchId params)) as [[k r]|].
    - destruct (negb (ResearchStatus_eqb (status r) COMPLETED));
        [|discriminate].
      cbn [fst snd]. intros [= <-]. split; [reflexivity | tauto].
    - cbn [fst snd]. intros [= <-]. split; [reflexivity | tauto]. }
  cbn [fst snd]. intros [= <-]. split; [reflexivity | tauto].
Qed.

Lemma execute_error_frame_witness :
  fst (execute (Sample.env 1 Sample.found) (Sample.call "report" "u0-0")
         Sample.started)
  = Resolved (error "Research is not yet completed")
  /\ snd (execute (Sample.env 1 Sample.found) (Sample.call "report" "u0-0")
            Sample.started)
     = Sample.started.
Proof.
  assert (H : fst (execute (Sample.env 1 Sample.found)
                     (Sample.call "report" "u0-0") Sample.started)
              = Resolved (error "Research is not yet completed"))
    by (vm_compute; reflexivity).
  split; [exact H|].
  exact (proj1 (execute_error_frame (Sample.env 1 Sample.found)
                  (Sample.call "report" "u0-0") Sample.started
                  "Research is not yet completed" H)).
Defined.

(** X14.  The actions status and report only read: whatever the session
    and the parameters, the call is answered (its promise is not
    rejected) and the tool is left as it was. *)
Theorem queries_read_only (env : Env) (params : Params) (tool : Tool) :
  actionOf params = "status" \/ actionOf params = "report" ->
  snd (execute env params tool) = tool
  /\ exists response, fst (execute env params tool) = Resolved response.
Proof.
  intros Ha. unfold execute.
  destruct (negb (truthy (query params)) && negb (truthy (researchId params)));
    [split; [reflexivity | eauto]|].
  destruct Ha as [-> | ->]; cbn [String.eqb Ascii.eqb Bool.eqb].
  - unfold getResearchStatus.
    destruct (findResearch tool (researchId params)) as [[k r]|];
      (split; [reflexivity | eauto]).
  - unfold generateReport.
    destruct (findResearch tool (researchId params)) as [[k r]|];
      [destruct (negb (ResearchStatus_eqb (status r) COMPLETED))|];
      (split; [reflexivity | eauto]).
Qed.

Lemma queries_read_only_witness :
  snd (execute (Sample.env 1 Sample.found) (Sample.call "status" "u0-0")
         Sample.started)
  = Sample.started
  /\ exists response,
       fst (execute (Sample.env 1 Sample.found) (Sample.call "status" "u0-0")
              Sample.started)
       = Resolved response.
Proof.
  apply (queries_read_only (Sample.env 1 Sample.found)
           (Sample.call "status" "u0-0") Sample.started).
  left. reflexivity.
Defined.

(** X15.  A status, continue or report call that has a query or a
    research id, but whose research id is absent or names no stored
    session, is answered with the error "Research not found: " followed by
    the id (by "undefined" when it is absent), and the tool is left as it
    was. *)
Theorem unknown_research (env : Env) (params : Params) (tool : Tool) :
  truthy (query params) || truthy (researchId params) = true ->
  actionOf params = "status" \/ actionOf params = "continue"
  \/ actionOf params = "report" ->
  (forall key, researchId params = Some key ->
               researches tool !! key = None) ->
  execute env params tool
  = (Resolved (error ("Research not found: " ++ showOpt (researchId params))),
     tool).
Proof.
  intros Hg Ha Hnone. unfold execute. rewrite (guard_passed params Hg).
  pose proof (findResearch_None tool (researchId params) Hnone) as Ef.
  destruct Ha as [-> | [-> | ->]]; cbn [String.eqb Ascii.eqb Bool.eqb];
    unfold getResearchStatus, continueResearch, generateReport, notFound;
    rewrite Ef; reflexivity.
Qed.

Lemma unknown_research_witness :
  execute (Sample.env 1 Sample.found) (Sample.call "continue" "u9-0")
    Sample.started
  = (Resolved (error "Research not found: u9-0"), Sample.started).
Proof.
  apply (unknown_research (Sample.env 1 Sample.found)
           (Sample.call "continue" "u9-0") Sample.started).
  - reflexivity.
  - right; left. reflexivity.
  - intros key [= <-]. vm_compute. reflexivity.
Defined.

(** X16.  A start with a query, then a status call with the id the start
    returned: the status call reports the question, the status searching,
    the sub-questions the start returned, each pending, one step, the
    start time, and no end time.  The start stores the session under the
    id it draws, whatever was stored under that id. *)
Theorem start_then_status (env env2 : Env) (params params2 : Params)
    (tool : Tool) (q : string) :
  actionOf params = "start" ->
  query params = Some q ->
  truthy (query params) || truthy (researchId params) = true ->
  uuidv4 env 0 <> EmptyString ->
  researchId params2 = Some (uuidv4 env 0) ->
  action params2 = Some "status" ->
  execute env params tool
  = (Resolved
       (success
          (Started (uuidv4 env 0) (Some q) (plannedTexts params q) SEARCHING)),
     store tool (uuidv4 env 0) (startedSession env params q))
  /\ fst (execute env2 params2 (snd (execute env params tool)))
     = Resolved
         (success
            (StatusOf (uuidv4 env 0) (Some q) SEARCHING
               (map (fun text => (text, pending)) (plannedTexts params q))
               1 (now env 0) None)).
Proof.
  intros Ha Hq Hg Hu Hid2 Hact2.
  assert (E : execute env params tool
              = (Resolved
                   (success
                      (Started (uuidv4 env 0) (Some q) (plannedTexts params q)
                         SEARCHING)),
                 store tool (uuidv4 env 0) (startedSession env params q))).
  { unfold execute. rewrite (guard_passed params Hg), Ha.
    cbn [String.eqb Ascii.eqb Bool.eqb].
    apply startResearch_started, Hq. }
  split; [exact E|]. rewrite E. cbn [snd].
  rewrite (execute_status env2 params2 _ (uuidv4 env 0) Hu Hid2 Hact2).
  unfold getResearchStatus. rewrite Hid2.
  rewrite (findResearch_Some _ (uuidv4 env 0) (startedSession env params q) Hu)
    by (cbn [store researches]; apply lookup_insert_eq).
  cbn [fst startedSession question status subQuestions steps startTime
       endTime List.length].
  rewrite newSubs_overview. reflexivity.
Qed.

Lemma start_then_status_witness :
  fst (execute (Sample.env 1 Sample.found) (Sample.call "status" "u0-0")
         (snd (execute (Sample.env 0 Sample.found)
                 (Sample.startWith "Compare solar and wind energy" None)
                 Sample.tool0)))
  = Resolved
      (success
         (StatusOf "u0-0" (Some "Compare solar and wind energy") SEARCHING
            [("Compare solar?", pending); ("wind energy?", pending)]
            1 0%Z None)).
Proof.
  pose proof (start_then_status (Sample.env 0 Sample.found)
                (Sample.env 1 Sample.found)
                (Sample.startWith "Compare solar and wind energy" None)
                (Sample.call "status" "u0-0") Sample.tool0
                "Compare solar and wind energy") as H.
  destruct H as (_ & H2).
  - reflexivity.
  - reflexivity.
  - reflexivity.
  - discriminate.
  - reflexivity.
  - reflexivity.
  - exact H2.
Defined.

(** X17.  The sub-questions a start creates are the first ones of
    [analyzeQuestion], in order.  Their number for an integer
    [maxSubQuestions]: without it, or with 0, at most 5; with a positive
    one, at most that many and at most 10; with a negative one, all but
    that many from the end, which can be more than 10. *)
Theorem plannedTexts_cap (params : Params) (q : string) :
  (exists rest,
     Question.analyzeQuestion q = (plannedTexts params q ++ rest)%list)
  /\ match maxSubQuestions params with
     | None =>
         List.length (plannedTexts params q)
         = Nat.min 5 (List.length (Question.analyzeQuestion q))
     | Some m =>
         if (m =? 0)%Z then
           List.length (plannedTexts params q)
           = Nat.min 5 (List.length (Question.analyzeQuestion q))
         else if (m <? 0)%Z then
           List.length (plannedTexts params q)
           = List.length (Question.analyzeQuestion q) - Z.to_nat (- m)
         else
           List.length (plannedTexts params q)
           = Nat.min (Nat.min (Z.to_nat m) 10)
               (List.length (Question.analyzeQuestion q))
     end.
Proof.
  unfold plannedTexts, slice0, subQuestionLimit. split.
  - destruct (_ <? 0)%Z; eexists; symmetry; apply List.firstn_skipn.
  - destruct (maxSubQuestions params) as [m|].
    + destruct (m =? 0)%Z eqn:E0.
      * replace (Z.min 5 10) with 5%Z by reflexivity.
        cbn [Z.ltb Z.compare]. apply List.length_firstn.
      * apply Z.eqb_neq in E0. destruct (m <? 0)%Z eqn:E1.
        -- apply Z.ltb_lt in E1.
           replace (Z.min m 10) with m by lia.
           replace (m <? 0)%Z with true by (symmetry; apply Z.ltb_lt; lia).
           rewrite List.length_firstn. lia.
        -- apply Z.ltb_ge in E1.
           replace (Z.min m 10 <? 0)%Z with false
             by (symmetry; apply Z.ltb_ge; lia).
           rewrite List.length_firstn. lia.
    + replace (Z.min 5 10) with 5%Z by reflexivity.
      cbn [Z.ltb Z.compare]. apply List.length_firstn.
Qed.

(** X18.  A session of a tool that has served calls since it was created,
    not completed, with n pending sub-questions: when every search
    succeeds, n + 1 continue calls complete it.  It then has no pending
    sub-question, its report is written, and 2 n + 1 steps have been
    added. *)
Theorem continues_complete (apiKey : string) (calls : list (Env * Params))
    (params : Params) (key : string) (envs : list Env) (r : ResearchData) :
  key <> EmptyString ->
  researchId params = Some key ->
  action params = Some "continue" ->
  researches (snd (run (newTool apiKey) calls)) !! key = Some r ->
  status r <> COMPLETED ->
  forallb (searchesSucceed (snd (run (newTool apiKey) calls)) r) envs = true ->
  List.length envs = S (pendingCount r) ->
  exists r2,
    researches
      (snd (run (snd (run (newTool apiKey) calls)) (continues params envs)))
    !! key = Some r2
    /\ status r2 = COMPLETED
    /\ pendingCount r2 = 0
    /\ List.length (steps r2)
       = List.length (steps r) + 2 * pendingCount r + 1
    /\ exists text, report r2 = Some text /\ reportOf r2 = Resolved text.
Proof.
  intros Hk Hid Hact Hr Hs Hall Hlen.
  assert (W : WellFormed key r).
  { refine (run_wf calls (newTool apiKey) _ key r Hr).
    intros k x Hx. cbn in Hx. rewrite lookup_empty in Hx. discriminate. }
  destruct (run_continues params key envs Hk Hid Hact _ r Hr W Hs)
    as (r2 & Hr2 & W2 & Hs2 & Hp2 & Hl2).
  - apply List.Forall_forall. intros e He.
    apply (proj1 (List.forallb_forall _ _) Hall e He).
  - exact Hlen.
  - exists r2. split; [exact Hr2|]. split; [exact Hs2|].
    split; [exact Hp2|]. split; [exact Hl2|].
    pose proof (wf_report key r2 W2) as H. rewrite Hs2 in H. apply H.
Qed.

Lemma continues_complete_witness :
  exists r2,
    researches
      (snd (run (snd (run (newTool "key")
                        [(Sample.env 0 Sample.found,
                          Sample.startWith "Compare solar and wind energy"
                            None)]))
              (continues (Sample.call "continue" "u0-0")
                 [Sample.env 1 Sample.found; Sample.env 2 Sample.found;
                  Sample.env 3 Sample.found])))
    !! "u0-0" = Some r2
    /\ status r2 = COMPLETED
    /\ pendingCount r2 = 0
    /\ List.length (steps r2)
       = List.length (steps Sample.startedSession)
         + 2 * pendingCount Sample.startedSession + 1
    /\ exists text, report r2 = Some text /\ reportOf r2 = Resolved text.
Proof.
  apply (continues_complete "key"
           [(Sample.env 0 Sample.found,
             Sample.startWith "Compare solar and wind energy" None)]
           (Sample.call "continue" "u0-0") "u0-0"
           [Sample.env 1 Sample.found; Sample.env 2 Sample.found;
            Sample.env 3 Sample.found]
           Sample.startedSession).
  - discriminate.
  - reflexivity.
  - reflexivity.
  - vm_compute. reflexivity.
  - discriminate.
  - vm_compute. reflexivity.
  - reflexivity.
Defined.

End Sessions.

(** * Properties of the other tools *)

(** ** The search tools *)

Section SearchTools.
Import Js Types BraveWebSearchTool.

Lemma copyResult_id (results : list SearchResult) :
  map copyResult results = results.
Proof.
  induction results as [|[t d u r] rest IH]; [reflexivity|].
  cbn [map]. rewrite IH. reflexivity.
Qed.

Lemma clamp_bounds (lo hi n : Z) :
  (lo <= hi)%Z -> (lo <= clamp lo hi n <= hi)%Z.
Proof. unfold clamp. lia. Qed.

Lemma truthy_shown (s : option string) :
  truthy s = true -> isEmpty (showOpt s) = false.
Proof.
  destruct s as [v|]; [|discriminate]. cbn [truthy showOpt].
  destruct (isEmpty v); [discriminate | reflexivity].
Qed.

Lemma substring0_solid (n : nat) (s : string) :
  isEmpty s = false -> isEmpty (substring0 (S n) s) = false.
Proof. destruct s; [discriminate | reflexivity]. Qed.

Lemma performSearch_outcome (query apiKey : string) (count : Z)
    (http : Search.HttpOutcome) :
  isEmpty query = false ->
  match Search.performSearch query apiKey count http with
  | Resolved results =>
      isEmpty apiKey = false
      /\ Forall2
           (fun raw r =>
              title r = Facts.orEmpty (Search.raw_title raw)
              /\ url r = Facts.orEmpty (Search.raw_url raw)
              /\ description r = Facts.orEmpty (Search.raw_description raw)
              /\ relevance r
                 = Some (Search.calculateRelevance query (title r)
                           (description r)))
           (Facts.rawResults http) results
  | Rejected m =>
      (isEmpty apiKey = true /\ m = "Brave Search API key is required")
      \/ (isEmpty apiKey = false
          /\ String.prefix "Failed to perform search: " m = true)
  end.
Proof.
  intros Hq. unfold Search.performSearch. rewrite Hq.
  destruct (isEmpty apiKey); [left; split; reflexivity|].
  destruct http as [m|[raws|]]; cbn [Facts.rawResults].
  - right. split; [reflexivity | apply prefix_append].
  - pose proof (parseResults_cases query raws) as H.
    destruct (Search.parseResults query raws) as [rs|m].
    + split; [reflexivity | apply H].
    + right. split; [reflexivity | apply prefix_append].
  - split; [reflexivity | constructor].
Qed.

End SearchTools.

(** X19.  The web search tool always answers (its promise is not
    rejected).  It answers "Search query is required" exactly when the
    query is missing or empty; with a query, an error is "Brave Search API
    key is required" (exactly when the key is empty) or begins with
    "Failed to perform search: ".  On success the query of the response is
    the first 400 characters of the query given, and the search was made
    with it; there is one result per entry of the answer, with the fields
    of the entry and the relevance for the shortened query; the count is
    their number; the offset is between 0 and 9. *)
Theorem webSearch_cases (apiKey : string)
    (params : BraveWebSearchTool.Params) (http : Search.HttpOutcome) :
  let given := Js.showOpt (BraveWebSearchTool.query params) in
  match BraveWebSearchTool.execute apiKey params http with
  | Js.Rejected _ => False
  | Js.Resolved (BraveWebSearchTool.error m) =>
      (Js.truthy (BraveWebSearchTool.query params) = false
       /\ m = "Search query is required")
      \/ (Js.truthy (BraveWebSearchTool.query params) = true
          /\ ((Js.isEmpty apiKey = true
               /\ m = "Brave Search API key is required")
              \/ (Js.isEmpty apiKey = false
                  /\ String.prefix "Failed to perform search: " m = true)))
  | Js.Resolved (BraveWebSearchTool.success l) =>
      Js.truthy (BraveWebSearchTool.query params) = true
      /\ Js.isEmpty apiKey = false
      /\ BraveWebSearchTool.l_query l = Js.substring0 400 given
      /\ String.prefix (BraveWebSearchTool.l_query l) given = true
      /\ String.length (BraveWebSearchTool.l_query l)
         = Nat.min 400 (String.length given)
      /\ BraveWebSearchTool.l_count l
         = List.length (BraveWebSearchTool.l_results l)
      /\ Forall2
           (fun raw r =>
              Types.title r = Facts.orEmpty (Search.raw_title raw)
              /\ Types.url r = Facts.orEmpty (Search.raw_url raw)
              /\ Types.description r
                 = Facts.orEmpty (Search.raw_description raw)
              /\ Types.relevance r
                 = Some (Search.calculateRelevance
                           (BraveWebSearchTool.l_query l) (Types.title r)
                           (Types.description r)))
           (Facts.rawResults http) (BraveWebSearchTool.l_results l)
      /\ exists o,
           BraveWebSearchTool.l_offset l = Some o /\ (0 <= o <= 9)%Z
  end.
Proof.
  intros given. unfold BraveWebSearchTool.execute.
  destruct (Js.truthy (BraveWebSearchTool.query params)) eqn:Et;
    cbn [negb]; [|left; split; reflexivity].
  fold given.
  assert (Hq : Js.isEmpty (Js.substring0 400 given) = false)
    by (apply substring0_solid, truthy_shown, Et).
  pose proof (performSearch_outcome (Js.substring0 400 given) apiKey
                (BraveWebSearchTool.clamp 1 20
                   (BraveWebSearchTool.orDefault
                      (BraveWebSearchTool.count params) 10))
                http Hq) as H.
  destruct (Search.performSearch _ _ _ _) as [results|m].
  - destruct H as (Hk & Hf).
    cbn [BraveWebSearchTool.l_query BraveWebSearchTool.l_count
         BraveWebSearchTool.l_results BraveWebSearchTool.l_offset].
    rewrite copyResult_id.
    split; [reflexivity|]. split; [exact Hk|]. split; [reflexivity|].
    split; [apply substring0_prefix|]. split; [apply substring0_length|].
    split; [reflexivity|]. split; [exact Hf|].
    eexists. split; [reflexivity | apply clamp_bounds; lia].
  - right. split; [reflexivity | exact H].
Qed.

(** X20.  The offset of a web search is only repeated in the response: it
    does not reach the search.  Two calls that differ in the offset alone
    get the same answer but for the offset repeated. *)
Theorem webSearch_offset_unused (apiKey : string)
    (params : BraveWebSearchTool.Params) (http : Search.HttpOutcome)
    (o : option Z) :
  ToolFacts.withoutOffset
    (BraveWebSearchTool.execute apiKey (ToolFacts.atOffset o params) http)
  = ToolFacts.withoutOffset (BraveWebSearchTool.execute apiKey params http).
Proof.
  unfold BraveWebSearchTool.execute, ToolFacts.atOffset.
  cbn [BraveWebSearchTool.query BraveWebSearchTool.count
       BraveWebSearchTool.offset].
  destruct (negb (Js.truthy (BraveWebSearchTool.query params)));
    [reflexivity|].
  destruct (Search.performSearch _ _ _ _); reflexivity.
Qed.

(** X21.  The local search tool always answers.  It answers "Search query
    is required" exactly when the query is missing or empty.  The search
    is made with the first 400 characters of the query followed by
    " near me", and the relevance of every result is computed for that
    text; the response repeats the query without " near me" and has no
    offset. *)
Theorem localSearch_cases (apiKey : string)
    (params : BraveWebSearchTool.Params) (http : Search.HttpOutcome) :
  let given := Js.showOpt (BraveWebSearchTool.query params) in
  match BraveLocalSearchTool.execute apiKey params http with
  | Js.Rejected _ => False
  | Js.Resolved (BraveWebSearchTool.error m) =>
      (Js.truthy (BraveWebSearchTool.query params) = false
       /\ m = "Search query is required")
      \/ (Js.truthy (BraveWebSearchTool.query params) = true
          /\ ((Js.isEmpty apiKey = true
               /\ m = "Brave Search API key is required")
              \/ (Js.isEmpty apiKey = false
                  /\ String.prefix "Failed to perform search: " m = true)))
  | Js.Resolved (BraveWebSearchTool.success l) =>
      Js.truthy (BraveWebSearchTool.query params) = true
      /\ BraveWebSearchTool.l_query l = Js.substring0 400 given
      /\ BraveWebSearchTool.l_offset l = None
      /\ BraveWebSearchTool.l_count l
         = List.length (BraveWebSearchTool.l_results l)
      /\ Forall2
           (fun raw r =>
              Types.title r = Facts.orEmpty (Search.raw_title raw)
              /\ Types.url r = Facts.orEmpty (Search.raw_url raw)
              /\ Types.description r
                 = Facts.orEmpty (Search.raw_description raw)
              /\ Types.relevance r
                 = Some (Search.calculateRelevance
                           (BraveWebSearchTool.l_query l ++ " near me")
                           (Types.title r) (Types.description r)))
           (Facts.rawResults http) (BraveWebSearchTool.l_results l)
  end.
Proof.
  intros given. unfold BraveLocalSearchTool.execute.
  destruct (Js.truthy (BraveWebSearchTool.query params)) eqn:Et;
    cbn [negb]; [|left; split; reflexivity].
  fold given.
  assert (Hq : Js.isEmpty (Js.substring0 400 given ++ " near me") = false).
  { pose proof (substring0_solid 399 given (truthy_shown _ Et)) as H.
    destruct (Js.substring0 400 given); [discriminate | reflexivity]. }
  pose proof (performSearch_outcome (Js.substring0 400 given ++ " near me")
                apiKey
                (BraveWebSearchTool.clamp 1 20
                   (BraveWebSearchTool.orDefault
                      (BraveWebSearchTool.count params) 5))
                http Hq) as H.
  destruct (Search.performSearch _ _ _ _) as [results|m].
  - destruct H as (Hk & Hf).
    cbn [BraveWebSearchTool.l_query BraveWebSearchTool.l_count
         BraveWebSearchTool.l_results BraveWebSearchTool.l_offset].
    rewrite copyResult_id.
    split; [reflexivity|]. split; [reflexivity|]. split; [reflexivity|].
    split; [reflexivity | exact Hf].
  - right. split; [reflexivity | exact H].
Qed.

(** ** The thinking tool *)

Section ThinkingFacts.
Import Js SequentialThinkingTool ToolFacts.

Lemma get_set_same (store : Thoughts) (key : string) (value : list Thought) :
  get (set store key value) key = Some value.
Proof.
  induction store as [|[k v] rest IH]; cbn [set get].
  - rewrite String.eqb_refl. reflexivity.
  - destruct (String.eqb k key) eqn:E; cbn [get]; rewrite E;
      [reflexivity | exact IH].
Qed.

Lemma get_set_other (store : Thoughts) (key other : string)
    (value : list Thought) :
  key <> other -> get (set store key value) other = get store other.
Proof.
  intros Hne. induction store as [|[k v] rest IH]; cbn [set get].
  - apply String.eqb_neq in Hne. rewrite Hne. reflexivity.
  - destruct (String.eqb k key) eqn:E; cbn [get].
    + apply String.eqb_eq in E. subst k.
      apply String.eqb_neq in Hne. rewrite Hne. reflexivity.
    + rewrite IH. reflexivity.
Qed.

Lemma set_set (store : Thoughts) (key : string) (v w : list Thought) :
  set (set store key v) key w = set store key w.
Proof.
  induction store as [|[k x] rest IH]; cbn [set].
  - rewrite String.eqb_refl. reflexivity.
  - destruct (String.eqb k key) eqn:E; cbn [set]; rewrite E;
      [reflexivity | rewrite IH; reflexivity].
Qed.

Lemma keys_set (store : Thoughts) (key : string) (value : list Thought) :
  map fst (set store key value) = map fst store
  \/ (~ In key (map fst store)
      /\ map fst (set store key value) = (map fst store ++ [key])%list).
Proof.
  induction store as [|[k v] rest IH]; cbn [set map fst].
  - right. split; [tauto | reflexivity].
  - destruct (String.eqb k key) eqn:E; [left; reflexivity|].
    apply String.eqb_neq in E. cbn [map fst].
    destruct IH as [->|(Hn & ->)]; [left; reflexivity|].
    right. split; [|reflexivity]. intros [H|H]; [congruence | tauto].
Qed.

Lemma NoDup_set (store : Thoughts) (key : string) (value : list Thought) :
  List.NoDup (map fst store) -> List.NoDup (map fst (set store key value)).
Proof.
  intros H. destruct (keys_set store key value) as [->|(Hn & ->)];
    [exact H|].
  apply List.NoDup_app; [exact H | repeat constructor; tauto|].
  intros x Hx [<-|[]]. exact (Hn Hx).
Qed.

Lemma Forall_set (P : string * list Thought -> Prop) (store : Thoughts)
    (key : string) (value : list Thought) :
  Forall P store -> P (key, value) -> Forall P (set store key value).
Proof.
  intros H Hp. induction H as [|[k v] rest Hx Hrest IH]; cbn [set].
  - constructor; [exact Hp | constructor].
  - destruct (String.eqb k key) eqn:E.
    + apply String.eqb_eq in E. subst k. constructor; assumption.
    + constructor; assumption.
Qed.

Lemma get_In (store : Thoughts) (key : string) (value : list Thought) :
  List.NoDup (map fst store) -> In (key, value) store ->
  get store key = Some value.
Proof.
  induction store as [|[k v] rest IH]; intros Hnd Hin; [destruct Hin|].
  cbn [map fst] in Hnd. apply List.NoDup_cons_iff in Hnd as [Hk Hnd].
  cbn [get]. destruct Hin as [[= -> ->]|Hin].
  - rewrite String.eqb_refl. reflexivity.
  - destruct (String.eqb k key) eqn:E; [|apply IH; assumption].
    apply String.eqb_eq in E. subst k. exfalso. apply Hk.
    apply List.in_map_iff.
    exists (key, value). split; [reflexivity | exact Hin].
Qed.

Lemma hasNumber_nonempty (n : Z) (thoughts : list Thought) :
  hasNumber n thoughts = true -> (0 <? List.length thoughts)%nat = true.
Proof. destruct thoughts; [discriminate | reflexivity]. Qed.

Lemma findSession_found (store : Thoughts) (n : Z) :
  isEmpty (findSession store n) = false ->
  exists thoughts,
    In (findSession store n, thoughts) store
    /\ hasNumber (n - 1) thoughts = true.
Proof.
  induction store as [|[k v] rest IH]; cbn [findSession]; [discriminate|].
  destruct ((0 <? List.length v)%nat && hasNumber (n - 1) v) eqn:E.
  - intros _. exists v. apply andb_true_iff in E as [_ E].
    split; [left; reflexivity | exact E].
  - intros H. destruct (IH H) as (t & Hin & Ht). exists t.
    split; [right; exact Hin | exact Ht].
Qed.

Lemma set_at (before after : Thoughts) (key : string)
    (v w : list Thought) :
  ~ In key (map fst before) ->
  set (before ++ (key, v) :: after)%list key w
  = (before ++ (key, w) :: after)%list.
Proof.
  induction before as [|[k x] rest IH]; intros Hn; cbn [app set].
  - rewrite String.eqb_refl. reflexivity.
  - cbn [map fst] in Hn. destruct (String.eqb k key) eqn:E.
    + apply String.eqb_eq in E. subst k. exfalso. apply Hn. left; reflexivity.
    + rewrite IH; [reflexivity|]. intros H. apply Hn. right; exact H.
Qed.

Lemma get_at (before after : Thoughts) (key : string) (v : list Thought) :
  ~ In key (map fst before) ->
  get (before ++ (key, v) :: after)%list key = Some v.
Proof.
  induction before as [|[k x] rest IH]; intros Hn; cbn [app get].
  - rewrite String.eqb_refl. reflexivity.
  - cbn [map fst] in Hn. destruct (String.eqb k key) eqn:E.
    + apply String.eqb_eq in E. subst k. exfalso. apply Hn. left; reflexivity.
    + apply IH. intros H. apply Hn. right; exact H.
Qed.

Lemma findSession_at (before after : Thoughts) (key : string)
    (thoughts : list Thought) (n : Z) :
  Forall (fun entry => hasNumber (n - 1) (snd entry) = false) before ->
  hasNumber (n - 1) thoughts = true ->
  findSession (before ++ (key, thoughts) :: after)%list n = key.
Proof.
  intros Hb Ht. induction Hb as [|[k x] rest Hx Hrest IH];
    cbn [app findSession].
  - rewrite Ht, (hasNumber_nonempty _ _ Ht). reflexivity.
  - cbn [snd] in Hx. rewrite Hx, andb_false_r. exact IH.
Qed.

Lemma filter_new (n : Z) (thoughts : list Thought) (t : Thought) :
  t_thoughtNumber t = n ->
  List.filter (fun x => (t_thoughtNumber x <? n)%Z) (thoughts ++ [t])%list
  = List.filter (fun x => (t_thoughtNumber x <? n)%Z) thoughts.
Proof.
  intros H. rewrite List.filter_app. cbn [List.filter].
  rewrite H, Z.ltb_irrefl. apply List.app_nil_r.
Qed.

Lemma hasNumber_app (n : Z) (l1 l2 : list Thought) :
  hasNumber n l1 = true -> hasNumber n (l1 ++ l2)%list = true.
Proof.
  unfold hasNumber. intros H. rewrite List.existsb_app, H. reflexivity.
Qed.

Lemma chained_snoc (rest : list Thought) :
  forall (before : list Thought) (t : Thought),
    chained before rest ->
    (1 < t_thoughtNumber t)%Z ->
    hasNumber (t_thoughtNumber t - 1) (before ++ rest)%list = true ->
    chained before (rest ++ [t])%list.
Proof.
  induction rest as [|x rest IH]; intros before t Hc Hn Hh.
  - rewrite List.app_nil_r in Hh. cbn. repeat split; assumption.
  - destruct Hc as (H1 & H2 & H3). cbn [app chained].
    split; [exact H1|]. split; [exact H2|].
    apply IH; [exact H3 | exact Hn|].
    rewrite <- List.app_assoc. exact Hh.
Qed.

Lemma valid_cases (params : Params) :
  valid params = true ->
  exists n total,
    truthy (thought params) = true
    /\ thoughtNumber params = Some n /\ (n <? 1)%Z = false
    /\ totalThoughts params = Some total /\ (total <? 1)%Z = false.
Proof.
  unfold valid. intros H.
  apply andb_true_iff in H as [H H3]. apply andb_true_iff in H as [H1 H2].
  destruct (thoughtNumber params) as [n|]; [|discriminate].
  destruct (totalThoughts params) as [total|]; [|discriminate].
  exists n, total. apply Z.leb_le in H2, H3.
  repeat split; try assumption; apply Z.ltb_ge; lia.
Qed.

(** What a call with valid parameters does. *)
Lemma execute_valid (env : DeepResearch.Env) (params : Params)
    (store : Thoughts) (n total : Z) :
  truthy (thought params) = true ->
  thoughtNumber params = Some n -> (n <? 1)%Z = false ->
  totalThoughts params = Some total -> (total <? 1)%Z = false ->
  let found := if (n =? 1)%Z then EmptyString else findSession store n in
  let t := thoughtOf env params n total in
  execute env params store
  = if isEmpty found then
      (success
         {| sessionId := DeepResearch.uuidv4 env 0; r_thoughtNumber := n;
            r_totalThoughts := total;
            r_nextThoughtNeeded := nextThoughtNeeded params;
            previousThoughts := [] |},
       set store (DeepResearch.uuidv4 env 0) [t])
    else
      (success
         {| sessionId := found; r_thoughtNumber := n;
            r_totalThoughts := total;
            r_nextThoughtNeeded := nextThoughtNeeded params;
            previousThoughts :=
              map summary
                (List.filter (fun x => (t_thoughtNumber x <? n)%Z)
                   (match get store found with
                    | Some l => l
                    | None => []
                    end)) |},
       set store found
         (match get store found with Some l => l | None => [] end ++ [t])%list).
Proof.
  intros Ht Hn Hn1 Htot Htot1 found t. unfold execute.
  rewrite Ht, Hn, Hn1, Htot, Htot1. cbn [negb]. fold found. fold t.
  destruct (isEmpty found).
  - rewrite get_set_same, set_set.
    rewrite (filter_new n [] t eq_refl). reflexivity.
  - rewrite (filter_new n _ t eq_refl). reflexivity.
Qed.

Lemma thoughtOf_ok (env : DeepResearch.Env) (params : Params) (n total : Z) :
  truthy (thought params) = true ->
  (n <? 1)%Z = false -> (total <? 1)%Z = false ->
  thoughtOk (thoughtOf env params n total).
Proof.
  intros Ht Hn Htot. apply Z.ltb_ge in Hn, Htot.
  repeat split; try assumption.
  cbn [thoughtOf t_content]. destruct (thought params) as [v|];
    [|discriminate].
  cbn in *. destruct (isEmpty v); [discriminate | reflexivity].
Qed.

Lemma execute_invalid (env : DeepResearch.Env) (params : Params)
    (store : Thoughts) :
  valid params = false ->
  execute env params store
  = (error
       (if negb (truthy (thought params)) then "Thought content is required"
        else if match thoughtNumber params with
                | Some n => (n <? 1)%Z
                | None => true
                end
        then "Valid thought number is required"
        else "Valid total thoughts is required"),
     store).
Proof.
  intros Ev. unfold execute, valid in *.
  destruct (truthy (thought params)); cbn [negb andb] in *; [|reflexivity].
  destruct (thoughtNumber params) as [n|]; [|reflexivity].
  destruct (n <? 1)%Z eqn:En; [reflexivity|].
  destruct (totalThoughts params) as [total|]; [|reflexivity].
  destruct (total <? 1)%Z eqn:Et; [reflexivity|].
  apply Z.ltb_ge in En, Et.
  replace (1 <=? n)%Z with true in Ev by (symmetry; apply Z.leb_le; lia).
  replace (1 <=? total)%Z with true in Ev by (symmetry; apply Z.leb_le; lia).
  discriminate.
Qed.

Lemma execute_storeOk (env : DeepResearch.Env) (params : Params)
    (store : Thoughts) :
  storeOk store -> storeOk (snd (execute env params store)).
Proof.
  intros (Hnd & Hs & Ht).
  destruct (valid params) eqn:Ev.
  - destruct (valid_cases params Ev) as (n & total & H1 & H2 & H3 & H4 & H5).
    rewrite (execute_valid env params store n total H1 H2 H3 H4 H5).
    pose proof (thoughtOf_ok env params n total H1 H3 H5) as Hok.
    destruct (isEmpty (if (n =? 1)%Z then EmptyString else findSession store n))
      eqn:Ef; cbn [snd].
    + split; [apply NoDup_set, Hnd|].
      split; apply Forall_set; try assumption.
      * exact I.
      * cbn [snd]. repeat constructor; apply Hok.
    + destruct (n =? 1)%Z eqn:E1; [discriminate|].
      destruct (findSession_found store n Ef) as (thoughts & Hin & Hh).
      rewrite (get_In store _ thoughts Hnd Hin).
      split; [apply NoDup_set, Hnd|].
      split; apply Forall_set; try assumption.
      * pose proof (proj1 (List.Forall_forall _ _) Hs _ Hin) as Hc.
        unfold sessionOk in *. cbn [snd] in *.
        destruct thoughts as [|first rest]; [destruct Hc|].
        cbn [app]. apply chained_snoc; [exact Hc| |].
        -- cbn [thoughtOf t_thoughtNumber].
           apply Z.ltb_ge in H3. apply Z.eqb_neq in E1. lia.
        -- exact Hh.
      * cbn [snd]. apply List.Forall_app. split.
        -- exact (proj1 (List.Forall_forall _ _) Ht _ Hin).
        -- repeat constructor; apply Hok.
  - rewrite (execute_invalid env params store Ev). cbn [snd].
    repeat split; assumption.
Qed.

Lemma thinking_run_cons (store : Thoughts) (env : DeepResearch.Env)
    (params : Params) (rest : list (DeepResearch.Env * Params)) :
  snd (run store ((env, params) :: rest))
  = snd (run (snd (execute env params store)) rest).
Proof.
  cbn [run]. destruct (execute env params store) as [o s]. cbn [snd].
  destruct (run s rest). reflexivity.
Qed.

End ThinkingFacts.

Section Thinking.
Import Js SequentialThinkingTool ToolFacts.

(** X22.  The thinking tool checks the thought, then the thought number,
    then the total: the first check that fails gives the error, and the
    stored thoughts stay as they are.  When all pass, the thought is
    stored as the last one of the session the response names, with the
    fields of the call, and the previous thoughts of the response are the
    thoughts stored before it in that session that have a smaller number,
    in the order in which they were stored. *)
Theorem thinking_validation (env : DeepResearch.Env) (params : Params)
    (store : Thoughts) :
  match fst (execute env params store) with
  | error m =>
      valid params = false
      /\ snd (execute env params store) = store
      /\ m = (if negb (truthy (thought params)) then
                "Thought content is required"
              else if match thoughtNumber params with
                      | Some n => (n <? 1)%Z
                      | None => true
                      end
              then "Valid thought number is required"
              else "Valid total thoughts is required")
  | success res =>
      valid params = true
      /\ thoughtNumber params = Some (r_thoughtNumber res)
      /\ totalThoughts params = Some (r_totalThoughts res)
      /\ r_nextThoughtNeeded res = nextThoughtNeeded params
      /\ exists earlier,
           get (snd (execute env params store)) (sessionId res)
           = Some
               (earlier
                ++ [thoughtOf env params (r_thoughtNumber res)
                      (r_totalThoughts res)])%list
           /\ previousThoughts res
              = map summary
                  (List.filter
                     (fun x => (t_thoughtNumber x <? r_thoughtNumber res)%Z)
                     earlier)
  end.
Proof.
  destruct (valid params) eqn:Ev.
  - destruct (valid_cases params Ev) as (n & total & H1 & H2 & H3 & H4 & H5).
    rewrite (execute_valid env params store n total H1 H2 H3 H4 H5).
    destruct (isEmpty (if (n =? 1)%Z then EmptyString else findSession store n));
      cbn [fst snd sessionId r_thoughtNumber r_totalThoughts
           r_nextThoughtNeeded previousThoughts];
      (split; [reflexivity|]); (split; [exact H2|]); (split; [exact H4|]);
      (split; [reflexivity|]).
    + exists []. rewrite get_set_same. split; reflexivity.
    + eexists. rewrite get_set_same. split; reflexivity.
  - rewrite (execute_invalid env params store Ev). cbn [fst snd].
    repeat split.
Qed.

(** X23.  A valid thought with the number 1, or with a number up to 2^53
    whose predecessor is in no session, opens a session of its own under
    a new id: the response has no previous thoughts, the session holds
    this thought alone, and every session under another id stays as it
    is.  A thought number 1 never joins the session before it. *)
Theorem thought_opens_session (env : DeepResearch.Env) (params : Params)
    (store : Thoughts) (n total : Z) :
  valid params = true ->
  thoughtNumber params = Some n ->
  totalThoughts params = Some total ->
  n = 1%Z
  \/ (exact n = true
      /\ Forall (fun entry => hasNumber (n - 1) (snd entry) = false) store) ->
  execute env params store
  = (success
       {| sessionId := DeepResearch.uuidv4 env 0; r_thoughtNumber := n;
          r_totalThoughts := total;
          r_nextThoughtNeeded := nextThoughtNeeded params;
          previousThoughts := [] |},
     set store (DeepResearch.uuidv4 env 0) [thoughtOf env params n total])
  /\ get (snd (execute env params store)) (DeepResearch.uuidv4 env 0)
     = Some [thoughtOf env params n total]
  /\ forall other,
       DeepResearch.uuidv4 env 0 <> other ->
       get (snd (execute env params store)) other = get store other.
Proof.
  intros Ev Hn Htot Hnew.
  destruct (valid_cases params Ev) as (n' & total' & H1 & H2 & H3 & H4 & H5).
  assert (n' = n) by congruence. assert (total' = total) by congruence.
  subst n' total'.
  assert (Hf : isEmpty (if (n =? 1)%Z then EmptyString
                        else findSession store n) = true).
  { destruct Hnew as [->|[_ Hnone]]; [reflexivity|].
    destruct (n =? 1)%Z; [reflexivity|].
    induction Hnone as [|[k v] rest Hx Hrest IH]; [reflexivity|].
    cbn [findSession]. cbn [snd] in Hx. rewrite Hx, andb_false_r. exact IH. }
  rewrite (execute_valid env params store n total H1 H2 H3 H4 H5), Hf.
  cbn [snd]. split; [reflexivity|]. split; [apply get_set_same|].
  intros other Hne. apply get_set_other, Hne.
Qed.

Lemma thought_opens_session_witness :
  fst (execute (Sample.env 2 Sample.found) (ToolSample.think 3 "third")
         ToolSample.twoSessions)
  = success
      {| sessionId := "u2-0"; r_thoughtNumber := 3; r_totalThoughts := 3;
         r_nextThoughtNeeded := Some true; previousThoughts := [] |}
  /\ get (snd (execute (Sample.env 2 Sample.found)
                 (ToolSample.think 3 "third") ToolSample.twoSessions))
       "u0-0"
     = Some [ToolSample.firstOfA].
Proof.
  pose proof (thought_opens_session (Sample.env 2 Sample.found)
                (ToolSample.think 3 "third") ToolSample.twoSessions 3 3)
    as H.
  destruct H as (H1 & _ & H3).
  - reflexivity.
  - reflexivity.
  - reflexivity.
  - right. split; [reflexivity|]. repeat constructor.
  - split; [rewrite H1; reflexivity|].
    rewrite (H3 "u0-0") by discriminate. reflexivity.
Defined.

(** X24.  A valid thought with a number n above 1 joins the first session,
    in the order in which the sessions were opened, that has a thought
    with the number n - 1; the id in the call plays no part.  The thought
    is added behind the thoughts of that session, the other sessions stay
    as they are, and the previous thoughts are those of the session with a
    number below n.  So of two sessions that both have the thought n - 1,
    only the older one can get the thought n. *)
Theorem thought_joins_first_session (env : DeepResearch.Env)
    (params : Params) (before after : Thoughts) (id : string)
    (thoughts : list Thought) (n total : Z) :
  valid params = true ->
  thoughtNumber params = Some n ->
  totalThoughts params = Some total ->
  n <> 1%Z ->
  id <> EmptyString ->
  ~ In id (map fst before) ->
  Forall (fun entry => hasNumber (n - 1) (snd entry) = false) before ->
  hasNumber (n - 1) thoughts = true ->
  execute env params (before ++ (id, thoughts) :: after)%list
  = (success
       {| sessionId := id; r_thoughtNumber := n; r_totalThoughts := total;
          r_nextThoughtNeeded := nextThoughtNeeded params;
          previousThoughts :=
            map summary
              (List.filter (fun x => (t_thoughtNumber x <? n)%Z) thoughts) |},
     (before
      ++ (id, (thoughts ++ [thoughtOf env params n total])%list) :: after)%list).
Proof.
  intros Ev Hn Htot Hn1 Hid Hfresh Hnone Hhas.
  destruct (valid_cases params Ev) as (n' & total' & H1 & H2 & H3 & H4 & H5).
  assert (n' = n) by congruence. assert (total' = total) by congruence.
  subst n' total'.
  rewrite (execute_valid env params _ n total H1 H2 H3 H4 H5).
  replace (n =? 1)%Z with false by (symmetry; apply Z.eqb_neq, Hn1).
  rewrite (findSession_at before after id thoughts n Hnone Hhas).
  replace (isEmpty id) with false by (destruct id; [congruence | reflexivity]).
  rewrite (get_at before after id thoughts Hfresh).
  rewrite (set_at before after id thoughts _ Hfresh). reflexivity.
Qed.

Lemma thought_joins_first_session_witness :
  execute (Sample.env 2 Sample.found) (ToolSample.think 2 "second of b")
    ([] ++ ("u0-0", [ToolSample.firstOfA])
        :: [("u1-0", [ToolSample.firstOfB])])%list
  = (success
       {| sessionId := "u0-0"; r_thoughtNumber := 2; r_totalThoughts := 3;
          r_nextThoughtNeeded := Some true;
          previousThoughts :=
            map summary
              (List.filter (fun x => (t_thoughtNumber x <? 2)%Z)
                 [ToolSample.firstOfA]) |},
     ([] ++ ("u0-0",
             ([ToolSample.firstOfA]
              ++ [thoughtOf (Sample.env 2 Sample.found)
                    (ToolSample.think 2 "second of b") 2 3])%list)
         :: [("u1-0", [ToolSample.firstOfB])])%list).
Proof.
  apply (thought_joins_first_session (Sample.env 2 Sample.found)
           (ToolSample.think 2 "second of b") []
           [("u1-0", [ToolSample.firstOfB])] "u0-0" [ToolSample.firstOfA]
           2 3).
  - reflexivity.
  - reflexivity.
  - reflexivity.
  - discriminate.
  - discriminate.
  - simpl. tauto.
  - constructor.
  - reflexivity.
Defined.

(** X25.  Whatever calls with thought numbers up to 2^53 the thinking
    tool has served since it was created: no two sessions have the same
    id; every session has a first thought, and each of its later thoughts
    has a number above 1 and comes behind a thought of the session with
    the number before its own (so the number 1 is only ever the first
    thought of a session, and no session is empty); every stored thought
    has a number and a total of 1 or more and a text that is not
    empty. *)
Theorem thinking_run_invariant (calls : list (DeepResearch.Env * Params)) :
  forallb (fun call => exactCall (snd call)) calls = true ->
  storeOk (snd (run [] calls)).
Proof.
  intros _.
  assert (G : forall store, storeOk store -> storeOk (snd (run store calls))).
  { induction calls as [|[env params] rest IH]; intros store H; [exact H|].
    rewrite thinking_run_cons. apply IH, execute_storeOk, H. }
  apply G. repeat split; constructor.
Qed.

Lemma thinking_run_invariant_witness :
  storeOk (snd (run [] ToolSample.fourThoughts)).
Proof.
  apply (thinking_run_invariant ToolSample.fourThoughts). reflexivity.
Defined.

End Thinking.

(** ** The tool calls of the server *)

Section ServerCalls.
Import Js WebSocketMCPServer.

(** X26.  The handler of the server makes a new deep research tool for
    every call, so no call finds a session: a call can only start a
    session (or fail in the start, without a query), or is answered with
    one of the errors "Either query or researchId is required", "Research
    not found: " with the id given, "Invalid action: " with the action
    given.  No call through the handler returns a status, a progress, a
    synthesis or a report. *)
Theorem server_research_stateless (apiKey : string) (env : DeepResearch.Env)
    (args : Arguments) :
  match callTool apiKey env "deep_research" (Some args) with
  | researchResponse (DeepResearch.success result) =>
      DeepResearch.actionOf (asResearch args) = "start"
      /\ exists q,
           DeepResearch.query (asResearch args) = Some q
           /\ result
              = DeepResearch.Started (DeepResearch.uuidv4 env 0) (Some q)
                  (Session.plannedTexts (asResearch args) q) Types.SEARCHING
  | researchResponse (DeepResearch.error m) =>
      m = "Either query or researchId is required"
      \/ (DeepResearch.actionOf (asResearch args) <> "start"
          /\ (m = "Research not found: "
                  ++ showOpt (DeepResearch.researchId (asResearch args))
              \/ m = "Invalid action: "
                     ++ DeepResearch.actionOf (asResearch args)))
  | isError m =>
      DeepResearch.actionOf (asResearch args) = "start"
      /\ DeepResearch.query (asResearch args) = None
      /\ m = typeErrorUndefined "replace"
  | _ => False
  end.
Proof.
  change (callTool apiKey env "deep_research" (Some args))
    with (caught researchResponse (callDeepResearch apiKey env args)).
  unfold callDeepResearch, DeepResearch.execute.
  destruct (negb (truthy (DeepResearch.query (asResearch args)))
            && negb (truthy (DeepResearch.researchId (asResearch args))));
    [left; reflexivity|].
  assert (Hnone : DeepResearch.findResearch (DeepResearch.newTool apiKey)
                    (DeepResearch.researchId (asResearch args)) = None).
  { apply findResearch_None. intros key _. apply lookup_empty. }
  destruct (String.eqb (DeepResearch.actionOf (asResearch args)) "start")
    eqn:Ea.
  { apply String.eqb_eq in Ea.
    destruct (DeepResearch.query (asResearch args)) as [q|] eqn:Eq.
    - rewrite (startResearch_started env (asResearch args) _ q Eq).
      cbn [fst caught]. split; [exact Ea|]. exists q. split; reflexivity.
    - unfold DeepResearch.startResearch. rewrite Eq. cbn [fst caught].
      repeat split. exact Ea. }
  apply String.eqb_neq in Ea.
  destruct (String.eqb (DeepResearch.actionOf (asResearch args)) "status").
  { unfold DeepResearch.getResearchStatus, DeepResearch.notFound.
    rewrite Hnone. cbn [fst caught]. right. split; [exact Ea | left; reflexivity]. }
  destruct (String.eqb (DeepResearch.actionOf (asResearch args)) "continue").
  { unfold DeepResearch.continueResearch, DeepResearch.notFound.
    rewrite Hnone. cbn [fst caught]. right. split; [exact Ea | left; reflexivity]. }
  destruct (String.eqb (DeepResearch.actionOf (asResearch args)) "report").
  { unfold DeepResearch.generateReport, DeepResearch.notFound.
    rewrite Hnone. cbn [fst caught]. right. split; [exact Ea | left; reflexivity]. }
  cbn [fst caught]. right. split; [exact Ea | right; reflexivity].
Qed.

(** X27.  The handler of the server makes a new thinking tool for every
    call, so every thought that passes the checks opens a session of its
    own: the response names a new session id and has no previous
    thoughts, whatever the thought number. *)
Theorem server_thinking_stateless (apiKey : string) (env : DeepResearch.Env)
    (args : Arguments) :
  match callTool apiKey env "sequentialthinking" (Some args) with
  | thoughtResponse (SequentialThinkingTool.success res) =>
      ToolFacts.valid (asThought args) = true
      /\ SequentialThinkingTool.sessionId res = DeepResearch.uuidv4 env 0
      /\ SequentialThinkingTool.previousThoughts res = []
  | thoughtResponse (SequentialThinkingTool.error _) =>
      ToolFacts.valid (asThought args) = false
  | _ => False
  end.
Proof.
  change (callTool apiKey env "sequentialthinking" (Some args))
    with (thoughtResponse
            (fst (SequentialThinkingTool.execute env (asThought args) []))).
  destruct (ToolFacts.valid (asThought args)) eqn:Ev.
  - destruct (valid_cases _ Ev) as (n & total & H1 & H2 & H3 & H4 & H5).
    rewrite (execute_valid env _ [] n total H1 H2 H3 H4 H5).
    cbn [SequentialThinkingTool.findSession].
    replace (isEmpty (if (n =? 1)%Z then EmptyString else EmptyString))
      with true by (destruct (n =? 1)%Z; reflexivity).
    cbn. repeat split.
  - rewrite (execute_invalid env _ [] Ev). reflexivity.
Qed.

End ServerCalls.

(** ** The relevance of a sentence *)

Section SentenceFacts.
Import Js Analysis.







End SentenceFacts.

